(** * PolicyComplianceAnalysisTool: a shallow embedding and its properties

    The development follows [policy_compliance_tool_windows.py].  The tool
    instance ([self]) is a record; every method is a computation in a small
    state-and-exception monad over a [World] made of the instance, the
    directories the tool reads, and the lines it has printed.

    The external collaborators are kept apart from the tool's own code:
    - [Env] holds what only the libraries decide: the text splitter's cut
      points, the embedding vectors, the retriever's answer, the language
      model's constructor and answer, and [os.path.join];
    - a directory is a list of entries, each carrying what
      [os.path.isfile] and [PyPDFLoader(path).load()] answer for it;
    - the default Chroma collection, which every store built in the process
      shares, is followed beside the world ([collection_after]).

    Conventions: a Python [str] is a [string] (bytes), a Python [int] is a
    [Z], [None]-or-object is an [option], and a call that may raise returns a
    [result].  Operating-system primitives the code does not guard
    ([print], [os.listdir] on an existing path, [os.makedirs]) succeed. *)

From Stdlib Require Import List String Ascii ZArith Bool Lia QArith.
From Stdlib Require Import DecimalString.
Import ListNotations.
Local Open Scope string_scope.
Local Open Scope Z_scope.

Set Implicit Arguments.

(** ** Python values *)

Module Py.

(** The exceptions the program can see; [str(e)] is the carried message
    (the quoted key for a [KeyError]).  [Error] stands for any other subclass
    of [Exception] a library raises. *)
Inductive exn : Type :=
| ValueError (msg : string)
| KeyError (msg : string)
| Error (msg : string).

Definition str_of_exn (e : exn) : string :=
  match e with
  | ValueError m | Error m => m
  | KeyError k => "'" ++ k ++ "'"
  end.

Inductive result (A : Type) : Type :=
| Ok (a : A)
| Raise (e : exn).
Arguments Ok {A} a.
Arguments Raise {A} e.

Definition is_ok {A} (r : result A) : bool :=
  match r with Ok _ => true | Raise _ => false end.

(** [str.lower()], on the ASCII letters. *)
Definition ascii_lower (c : ascii) : ascii :=
  let n := nat_of_ascii c in
  if (65 <=? n)%nat && (n <=? 90)%nat then ascii_of_nat (n + 32) else c.

Fixpoint lower (s : string) : string :=
  match s with
  | EmptyString => EmptyString
  | String c r => String (ascii_lower c) (lower r)
  end.

(** [s.endswith(suffix)] *)
Definition endswith (s suffix : string) : bool :=
  let ls := String.length s in
  let lx := String.length suffix in
  (lx <=? ls)%nat && String.eqb (substring (ls - lx) lx s) suffix.

(** [sep.join(parts)] *)
Definition join (sep : string) (parts : list string) : string :=
  String.concat sep parts.

(** [str(n)] for a length. *)
Definition str_of_nat (n : nat) : string :=
  NilZero.string_of_uint (Nat.to_uint n).

(** Truthiness of a list ([if not xs]). *)
Definition truthy_list {A} (xs : list A) : bool :=
  match xs with [] => false | _ :: _ => true end.

(** Truthiness of None-or-object ([if not self.policy_vector_store]). *)
Definition truthy_opt {A} (o : option A) : bool :=
  match o with None => false | Some _ => true end.

(** [template.format( **kwargs )] for plain named fields [{name}], with the
    doubled-brace escapes.  The scanner's mode is explicit so that the
    recursion is on the template. *)
Inductive fmt_mode : Type :=
| InText
| AfterOpen
| InField (name : string)
| AfterClose.

Fixpoint lookup_kw (name : string) (kwargs : list (string * string))
  : option string :=
  match kwargs with
  | [] => None
  | (k, v) :: rest => if String.eqb k name then Some v else lookup_kw name rest
  end.

Definition prepend (s : string) (r : result string) : result string :=
  match r with
  | Ok t => Ok (s ++ t)
  | Raise e => Raise e
  end.

Definition open_brace : ascii := "{"%char.
Definition close_brace : ascii := "}"%char.

Fixpoint format_scan (t : string) (mode : fmt_mode)
         (kwargs : list (string * string)) : result string :=
  match t with
  | EmptyString =>
      match mode with
      | InText => Ok EmptyString
      | AfterOpen => Raise (ValueError "Single '{' encountered in format string")
      | InField _ => Raise (ValueError "expected '}' before end of string")
      | AfterClose => Raise (ValueError "Single '}' encountered in format string")
      end
  | String c rest =>
      match mode with
      | InText =>
          if Ascii.eqb c open_brace then format_scan rest AfterOpen kwargs
          else if Ascii.eqb c close_brace then format_scan rest AfterClose kwargs
          else prepend (String c EmptyString) (format_scan rest InText kwargs)
      | AfterOpen =>
          if Ascii.eqb c open_brace
          then prepend (String open_brace EmptyString) (format_scan rest InText kwargs)
          else if Ascii.eqb c close_brace
          then Raise (ValueError "Format string contains positional fields")
          else format_scan rest (InField (String c EmptyString)) kwargs
      | InField name =>
          if Ascii.eqb c close_brace
          then match lookup_kw name kwargs with
               | Some v => prepend v (format_scan rest InText kwargs)
               | None => Raise (KeyError name)
               end
          else format_scan rest (InField (name ++ String c EmptyString)) kwargs
      | AfterClose =>
          if Ascii.eqb c close_brace
          then prepend (String close_brace EmptyString) (format_scan rest InText kwargs)
          else Raise (ValueError "Single '}' encountered in format string")
      end
  end.

Definition format (template : string) (kwargs : list (string * string))
  : result string :=
  format_scan template InText kwargs.

End Py.
Import Py.

(** ** Library objects *)

(** A langchain [Document]: the text and the two metadata entries that
    [PyPDFLoader] sets.  Chunks are [Document]s too. *)
Record Document : Type := mkDocument {
  page_content : string;
  source : string;
  page : Z
}.

(** An embedding vector; the tool never looks inside one. *)
Definition vector : Type := list Z.

(** [OllamaEmbeddings(model=...)] *)
Record Embeddings : Type := mkEmbeddings { emb_model : string }.

(** The store object one call of [Chroma.from_documents] returns, with the
    documents and vectors that call added.  The object does not own what it
    searches: the call names no collection and no directory, so every store
    of the process works on the one default collection (see
    [collection_after]). *)
Record VectorStore : Type := mkVectorStore {
  vs_documents : list Document;
  vs_vectors : list vector
}.

(** [Ollama(model=..., temperature=...)] *)
Record LLM : Type := mkLLM { llm_model : string; llm_temperature : Q }.

(** [PromptTemplate(template=..., input_variables=...)] *)
Record PromptTemplate : Type := mkPromptTemplate {
  template : string;
  input_variables : list string
}.

(** What the libraries and the backends decide. *)
Record Env : Type := mkEnv {
  os_path_join : string -> string -> string;
  OllamaEmbeddings : string -> result Embeddings;
  split_text : Z -> Z -> string -> list string;
  embed_documents : Embeddings -> list string -> result (list vector);
  get_relevant_documents : VectorStore -> string -> result (list Document);
  Ollama : string -> Q -> result LLM;
  llm_invoke : LLM -> string -> result string
}.

(** ** The file system seen by the loader *)

(** One name returned by [os.listdir]: whether [os.path.isfile] holds for
    its path, and what [PyPDFLoader(path).load()] does: the page texts, or an
    exception. *)
Record Entry : Type := mkEntry {
  e_name : string;
  e_isfile : bool;
  e_pdf : result (list string)
}.

(** The directories the tool lists, by path, each with its listing.  The
    map is flat: it does not relate a directory to its parent, so after
    [os_makedirs] the listing of the parent is not updated and no ancestor
    is recorded; the properties below speak of the listings of the two
    document folders only. *)
Definition FS : Type := list (string * list Entry).

Fixpoint fs_lookup (fs : FS) (path : string) : option (list Entry) :=
  match fs with
  | [] => None
  | (p, es) :: rest => if String.eqb p path then Some es else fs_lookup rest path
  end.

(** [os.path.exists(path)] *)
Definition os_path_exists (fs : FS) (path : string) : bool :=
  truthy_opt (fs_lookup fs path).

(** [os.makedirs(path, exist_ok=True)], as far as [path] itself goes: an
    existing directory is left alone, a missing one exists afterwards and is
    empty. *)
Definition os_makedirs (fs : FS) (path : string) : FS :=
  if os_path_exists fs path then fs else (path, []) :: fs.

(** [os.listdir(path)] *)
Definition os_listdir (fs : FS) (path : string) : list Entry :=
  match fs_lookup fs path with
  | Some es => es
  | None => []
  end.

(** ** The tool instance and the world it runs in *)

Record Tool : Type := mkTool {
  policy_documents_folder : string;
  regulatory_documents_folder : string;
  policy_documents : list Document;
  regulatory_documents : list Document;
  policy_vector_store : option VectorStore;
  regulatory_vector_store : option VectorStore;
  embeddings : option Embeddings
}.

Record World : Type := mkWorld {
  self : Tool;
  fs : FS;
  stdout : list string
}.

(** [document_list = self.policy_documents] binds a second name to the same
    list object; the name is modelled as a reference to the attribute. *)
Inductive list_ref : Type :=
| policy_documents_ref
| regulatory_documents_ref.

Definition deref (r : list_ref) (t : Tool) : list Document :=
  match r with
  | policy_documents_ref => policy_documents t
  | regulatory_documents_ref => regulatory_documents t
  end.

Definition assign (r : list_ref) (ds : list Document) (t : Tool) : Tool :=
  match r with
  | policy_documents_ref =>
      mkTool (policy_documents_folder t) (regulatory_documents_folder t)
             ds (regulatory_documents t)
             (policy_vector_store t) (regulatory_vector_store t) (embeddings t)
  | regulatory_documents_ref =>
      mkTool (policy_documents_folder t) (regulatory_documents_folder t)
             (policy_documents t) ds
             (policy_vector_store t) (regulatory_vector_store t) (embeddings t)
  end.

(** [setattr(self, name, value)] for the two index attributes. *)
Definition setattr_vector_store (name : string) (v : option VectorStore)
           (t : Tool) : Tool :=
  if String.eqb name "policy_vector_store" then
    mkTool (policy_documents_folder t) (regulatory_documents_folder t)
           (policy_documents t) (regulatory_documents t)
           v (regulatory_vector_store t) (embeddings t)
  else if String.eqb name "regulatory_vector_store" then
    mkTool (policy_documents_folder t) (regulatory_documents_folder t)
           (policy_documents t) (regulatory_documents t)
           (policy_vector_store t) v (embeddings t)
  else t.

(** ** The monad of methods: state of the world, and exceptions *)

Definition M (A : Type) : Type := World -> World * result A.

Definition ret {A} (a : A) : M A := fun w => (w, Ok a).

Definition raise {A} (e : exn) : M A := fun w => (w, Raise e).

Definition bind {A B} (m : M A) (k : A -> M B) : M B :=
  fun w =>
    match m w with
    | (w', Ok a) => k a w'
    | (w', Raise e) => (w', Raise e)
    end.

(** [try: m  except Exception as e: h e] *)
Definition try_except {A} (m : M A) (h : exn -> M A) : M A :=
  fun w =>
    match m w with
    | (w', Ok a) => (w', Ok a)
    | (w', Raise e) => h e w'
    end.

Definition lift {A} (r : result A) : M A := fun w => (w, r).

Declare Scope py_scope.
Delimit Scope py_scope with py.
Notation "x <- m ;; k" := (bind m (fun x => k))
  (at level 61, m at next level, right associativity) : py_scope.
Notation "m ;; k" := (bind m (fun _ => k))
  (at level 61, right associativity) : py_scope.
Local Open Scope py_scope.

Definition get_self : M Tool := fun w => (w, Ok (self w)).

Definition modify_self (f : Tool -> Tool) : M unit :=
  fun w => (mkWorld (f (self w)) (fs w) (stdout w), Ok tt).

Definition get_fs : M FS := fun w => (w, Ok (fs w)).

Definition put_fs (fs' : FS) : M unit :=
  fun w => (mkWorld (self w) fs' (stdout w), Ok tt).

Definition print (line : string) : M unit :=
  fun w => (mkWorld (self w) (fs w) (stdout w ++ [line]), Ok tt).

(** [document_list.clear()] and [document_list.extend(docs)] *)
Definition list_clear (r : list_ref) : M unit :=
  modify_self (assign r []).

Definition list_extend (r : list_ref) (docs : list Document) : M unit :=
  modify_self (fun t => assign r (deref r t ++ docs) t).

(** ** The prompt template

    [compliance_template], the literal of [setup_compliance_analysis_chain],
    character for character (it opens and closes with a newline). *)
Definition compliance_template : string := "
You are an expert Compliance Analyst with extensive experience in regulatory compliance and policy alignment. Your role is to meticulously analyze and compare the institution's internal policies against government-issued regulatory documents. These documents may include formal regulations, guidelines, or informal releases such as press statements. You are methodical, detail-oriented, and focused on providing actionable recommendations to enhance compliance.

Instructions for Analysis:

1. Benchmarking Document
- Treat all government regulatory documents (e.g., regulations, press releases, guidelines) as potential benchmarks.
- When analyzing press releases or informal documents, focus on identifying implied or explicitly stated expectations relevant to institutional policies.

Regulatory Context: {regulatory_context}
Institutional Policy Context: {policy_context}

Analysis Requirements:
a) Benchmark each government regulatory document section against institutional policies
b) Identify compliance status:
   - Fully Compliant
   - Partially Compliant
   - Non-Compliant
   - Policy Gap

c) For press releases, focus on key statements implying compliance requirements

Handling Ambiguity:
- Clearly note the source of benchmarks
- Flag ambiguous or non-standardized requirements
- Provide interpretation context

Output Structure:
I. Document Type (Regulation/Guideline/Press Release)
II.Reference: Include the title, section, or specific statement from the government document.
III.Reference: Include the title, section, or specific statement from the Policy Sectiondocument
IV. Detailed Discrepancy Analysis
V. Actionable Recommendations
VI. Priority Level (High/Medium/Low)

Prioritization Criteria:
- Relevance of policy document
- Severity of non-compliance implications
- Ease of remediation

Ethical Considerations:
- Maintain confidentiality of institutional data
- Ethically handle less formal policy benchmarks
- Treat press release expectations as advisory unless explicitly mandated

Reporting Guidelines:
1. Executive Summary
   - Highlight critical compliance gaps
   - Emphasize potential operational impact
   - Focus on high-priority issues

2. Key Findings
   - Summarize discrepancies
   - Include compliance area 
   - Note priority level with 
   - Provide brief recommendations

3. Conclusion and Recommendations
   - Summarize actionable next steps
   - Emphasize urgency and feasibility
   - Limit report to 500 words

Key Objective: Provide precise and actionable insights to align institutional policies with diverse government-issued regulatory benchmarks, enhancing compliance, adaptability, and operational efficiency.
".

(** ** Library calls the tool makes *)

(** [PyPDFLoader(file_path).load()]: one [Document] per page, each tagged
    with the path and the page number. *)
Fixpoint pages_from (file_path : string) (i : Z) (texts : list string)
  : list Document :=
  match texts with
  | [] => []
  | t :: rest => mkDocument t file_path i :: pages_from file_path (i + 1) rest
  end.

Definition PyPDFLoader_load (file_path : string) (e : Entry)
  : result (list Document) :=
  match e_pdf e with
  | Ok texts => Ok (pages_from file_path 0 texts)
  | Raise ex => Raise ex
  end.

(** [str(n)] for an integer. *)
Definition str_of_int (z : Z) : string :=
  if Z.ltb z 0 then "-" ++ str_of_nat (Z.to_nat (- z))
  else str_of_nat (Z.to_nat z).

(** [RecursiveCharacterTextSplitter(chunk_size=..., chunk_overlap=...)]: the
    constructor refuses an overlap larger than the chunk size.  (What it does
    with a chunk size below 1 or a negative overlap differs between versions
    of the library; nothing below depends on it.) *)
Definition RecursiveCharacterTextSplitter (chunk_size chunk_overlap : Z)
  : result unit :=
  if Z.gtb chunk_overlap chunk_size then
    Raise (ValueError ("Got a larger chunk overlap (" ++ str_of_int chunk_overlap
                         ++ ") than chunk size (" ++ str_of_int chunk_size
                         ++ "), should be smaller."))
  else Ok tt.

Section Methods.

Variable env : Env.

(** [text_splitter.split_documents(documents)] of a constructed splitter:
    where a text is cut is the library's business ([split_text]); every
    chunk keeps its parent's metadata. *)
Definition text_splitter_split_documents (chunk_size chunk_overlap : Z)
           (documents : list Document) : list Document :=
  flat_map
    (fun d => map (fun t => mkDocument t (source d) (page d))
                  (split_text env chunk_size chunk_overlap (page_content d)))
    documents.

(** [Chroma.from_documents(documents=chunks, embedding=...)]: one vector per
    chunk; a failure of the embedding backend is an exception.  The value is
    the store object of this call; the chunks go into the process's default
    collection, which earlier and later stores share. *)
Definition Chroma_from_documents (documents : list Document)
           (embedding : Embeddings) : result VectorStore :=
  match embed_documents env embedding (map page_content documents) with
  | Ok vectors => Ok (mkVectorStore documents vectors)
  | Raise ex => Raise ex
  end.

(** ** [__init__] *)

Definition init (policy_folder regulatory_folder : string)
           (fs0 : FS) (out0 : list string) : World :=
  match OllamaEmbeddings env "llama3.2" with
  | Ok emb =>
      mkWorld (mkTool policy_folder regulatory_folder [] [] None None (Some emb))
              fs0
              (out0 ++ ["✓ Ollama embeddings initialized successfully"])
  | Raise ex =>
      mkWorld (mkTool policy_folder regulatory_folder [] [] None None None)
              fs0
              (out0 ++ ["⚠ Warning: Could not initialize Ollama embeddings: "
                          ++ str_of_exn ex;
                        "Please install Ollama from https://ollama.ai and run: ollama pull llama3.2"])
  end.

(** ** [load_documents] *)

(** The body of [for filename in os.listdir(documents_folder)]. *)
Fixpoint load_loop (documents_folder : string) (document_list : list_ref)
         (entries : list Entry) (pdf_count : Z) : M Z :=
  match entries with
  | [] => ret pdf_count
  | e :: rest =>
      let filename := e_name e in
      let file_path := os_path_join env documents_folder filename in
      if e_isfile e && endswith (lower filename) ".pdf" then
        pdf_count' <-
          try_except
            (print ("Loading " ++ filename ++ "...") ;;
             docs <- lift (PyPDFLoader_load file_path e) ;;
             list_extend document_list docs ;;
             print ("✓ Successfully loaded " ++ filename) ;;
             ret (pdf_count + 1))
            (fun ex =>
               print ("✗ Error processing " ++ filename ++ ": " ++ str_of_exn ex) ;;
               ret pdf_count) ;;
        load_loop documents_folder document_list rest pdf_count'
      else
        load_loop documents_folder document_list rest pdf_count
  end.

Definition load_documents (document_type : string) : M Z :=
  t <- get_self ;;
  sel <- (if String.eqb document_type "policy" then
            ret (policy_documents_folder t, policy_documents_ref)
          else if String.eqb document_type "regulatory" then
            ret (regulatory_documents_folder t, regulatory_documents_ref)
          else
            raise (ValueError "Document type must be 'policy' or 'regulatory'")) ;;
  let documents_folder := fst sel in
  let document_list := snd sel in
  list_clear document_list ;;
  fs0 <- get_fs ;;
  if negb (os_path_exists fs0 documents_folder) then
    print ("⚠ Warning: Folder " ++ documents_folder
             ++ " does not exist. Creating it...") ;;
    put_fs (os_makedirs fs0 documents_folder) ;;
    print ("✓ Created folder: " ++ documents_folder) ;;
    print ("Please add your " ++ document_type
             ++ " PDF documents to this folder.") ;;
    ret 0
  else
    load_loop documents_folder document_list (os_listdir fs0 documents_folder) 0.

(** ** [split_documents] *)

Definition split_documents (document_type : string)
           (chunk_size chunk_overlap : Z) : M (list Document) :=
  t <- get_self ;;
  documents <- (if String.eqb document_type "policy" then
                  ret (policy_documents t)
                else if String.eqb document_type "regulatory" then
                  ret (regulatory_documents t)
                else
                  raise (ValueError "Document type must be 'policy' or 'regulatory'")) ;;
  if negb (truthy_list documents) then
    print ("⚠ No " ++ document_type ++ " documents loaded. Please add PDF files to the "
             ++ document_type ++ " folder.") ;;
    ret []
  else
    lift (RecursiveCharacterTextSplitter chunk_size chunk_overlap) ;;
    let chunks := text_splitter_split_documents chunk_size chunk_overlap documents in
    print ("✓ Split " ++ str_of_nat (List.length documents) ++ " " ++ document_type
             ++ " documents into " ++ str_of_nat (List.length chunks) ++ " chunks") ;;
    ret chunks.

(** ** [create_vector_store] *)

Definition create_vector_store (document_type : string)
           (chunks : option (list Document)) : M (option VectorStore) :=
  t <- get_self ;;
  match embeddings t with
  | None =>
      print "✗ Cannot create vector store: Ollama embeddings not available" ;;
      ret None
  | Some emb =>
      vector_store_attr <-
        (if String.eqb document_type "policy" then ret "policy_vector_store"
         else if String.eqb document_type "regulatory" then ret "regulatory_vector_store"
         else raise (ValueError "Document type must be 'policy' or 'regulatory'")) ;;
      chunks <- match chunks with
                | None => split_documents document_type 1000 200
                | Some cs => ret cs
                end ;;
      if negb (truthy_list chunks) then
        print ("⚠ No chunks available for " ++ document_type ++ " documents") ;;
        ret None
      else
        try_except
          (vector_store <- lift (Chroma_from_documents chunks emb) ;;
           modify_self (setattr_vector_store vector_store_attr (Some vector_store)) ;;
           print ("✓ Created vector store for " ++ document_type ++ " documents") ;;
           ret (Some vector_store))
          (fun ex =>
             print ("✗ Error creating vector store for " ++ document_type
                      ++ " documents: " ++ str_of_exn ex) ;;
             ret None)
  end.

(** ** [setup_compliance_analysis_chain] *)

Definition setup_compliance_analysis_chain
  : M (option PromptTemplate * option LLM) :=
  made <- try_except
            (llm <- lift (Ollama env "llama3.2" (3 # 10)) ;;
             print "✓ Ollama LLM initialized successfully" ;;
             ret (Some llm))
            (fun ex =>
               print ("✗ Error initializing Ollama LLM: " ++ str_of_exn ex) ;;
               print "Please ensure Ollama is running and llama3.2 model is available" ;;
               ret None) ;;
  match made with
  | None => ret (None, None)
  | Some llm =>
      let prompt := mkPromptTemplate compliance_template
                                     ["regulatory_context"; "policy_context"] in
      ret (Some prompt, Some llm)
  end.

(** ** [generate_compliance_report] *)

(** [store.as_retriever().get_relevant_documents(query)] *)
Definition retrieve (store : option VectorStore) (query : string)
  : M (list Document) :=
  match store with
  | Some vs => lift (get_relevant_documents env vs query)
  | None => raise (Error "'NoneType' object has no attribute 'as_retriever'")
  end.

(** [(prompt | llm).invoke(kwargs)]: the template is formatted with the
    bindings and the resulting text is sent to the model. *)
Definition chain_invoke (prompt : PromptTemplate) (llm : LLM)
           (kwargs : list (string * string)) : result string :=
  match format (template prompt) kwargs with
  | Ok text => llm_invoke env llm text
  | Raise ex => Raise ex
  end.

Definition vector_stores_error : string :=
  "Error: Cannot generate compliance report. Please ensure both policy and regulatory documents are loaded and vector stores are created.".

Definition chain_error : string :=
  "Error: Could not initialize analysis chain. Please ensure Ollama is running.".

Definition generate_compliance_report : M string :=
  t <- get_self ;;
  (if negb (truthy_opt (policy_vector_store t)) then
     print "⚠ Policy vector store not available. Creating it..." ;;
     load_documents "policy" ;;
     create_vector_store "policy" None ;;
     ret tt
   else ret tt) ;;
  t <- get_self ;;
  (if negb (truthy_opt (regulatory_vector_store t)) then
     print "⚠ Regulatory vector store not available. Creating it..." ;;
     load_documents "regulatory" ;;
     create_vector_store "regulatory" None ;;
     ret tt
   else ret tt) ;;
  t <- get_self ;;
  if negb (truthy_opt (policy_vector_store t))
     || negb (truthy_opt (regulatory_vector_store t)) then
    print "✗ Cannot generate report: Vector stores not available" ;;
    ret vector_stores_error
  else
    policy_docs <- retrieve (policy_vector_store t) "All policy documents" ;;
    regulatory_docs <- retrieve (regulatory_vector_store t) "All regulatory documents" ;;
    let policy_context := join " " (map page_content policy_docs) in
    let regulatory_context := join " " (map page_content regulatory_docs) in
    chain <- setup_compliance_analysis_chain ;;
    match chain with
    | (Some prompt, Some llm) =>
        try_except
          (lift (chain_invoke prompt llm
                              [("policy_context", policy_context);
                               ("regulatory_context", regulatory_context)]))
          (fun ex => ret ("Error generating compliance report: " ++ str_of_exn ex))
    | _ => ret chain_error
    end.

(** ** Sequences of calls on one instance *)

(** A call of a public method with its arguments, or a change of the
    directories made from outside between two calls. *)
Inductive op : Type :=
| Load (document_type : string)
| Split (document_type : string) (chunk_size chunk_overlap : Z)
| Create (document_type : string) (chunks : option (list Document))
| Generate
| Outside (fs' : FS).

(** The world after a call; an exception leaves the world as it was when it
    was raised, and the caller goes on. *)
Definition step (o : op) (w : World) : World :=
  match o with
  | Load dt => fst (load_documents dt w)
  | Split dt c ov => fst (split_documents dt c ov w)
  | Create dt cs => fst (create_vector_store dt cs w)
  | Generate => fst (generate_compliance_report w)
  | Outside fs' => mkWorld (self w) fs' (stdout w)
  end.

Definition run (ops : list op) (w : World) : World :=
  fold_left (fun w o => step o w) ops w.

End Methods.

(** ** Vocabulary of the properties *)

(** The two categories as the methods select them. *)
Definition valid_type (document_type : string) : Prop :=
  document_type = "policy" \/ document_type = "regulatory".

Definition ref_of (document_type : string) : list_ref :=
  if String.eqb document_type "policy" then policy_documents_ref
  else regulatory_documents_ref.

Definition folder_of (document_type : string) (t : Tool) : string :=
  if String.eqb document_type "policy" then policy_documents_folder t
  else regulatory_documents_folder t.

Definition documents (document_type : string) (t : Tool) : list Document :=
  deref (ref_of document_type) t.

Definition vector_store (document_type : string) (t : Tool)
  : option VectorStore :=
  if String.eqb document_type "policy" then policy_vector_store t
  else regulatory_vector_store t.

Definition other_type (document_type : string) : string :=
  if String.eqb document_type "policy" then "regulatory" else "policy".

(** A directory entry the loader tries: a regular file named [*.pdf] in any
    letter case. *)
Definition is_pdf_file (e : Entry) : bool :=
  e_isfile e && endswith (lower (e_name e)) ".pdf".

(** A source file successfully processed. *)
Definition processed (e : Entry) : bool :=
  is_pdf_file e && is_ok (e_pdf e).

(** The number of pages [PyPDFLoader] extracts from an entry. *)
Definition page_count (e : Entry) : nat :=
  match e_pdf e with
  | Ok texts => List.length texts
  | Raise _ => 0%nat
  end.

(** The records an entry of [documents_folder] contributes. *)
Definition documents_of (env : Env) (documents_folder : string) (e : Entry)
  : list Document :=
  if is_pdf_file e then
    match PyPDFLoader_load (os_path_join env documents_folder (e_name e)) e with
    | Ok docs => docs
    | Raise _ => []
    end
  else [].

(** The chunks [create_vector_store] works on: the ones it is given, or the
    default split of the category's collection. *)
Definition effective_chunks (env : Env) (document_type : string)
           (chunks : option (list Document)) (t : Tool) : list Document :=
  match chunks with
  | Some cs => cs
  | None => text_splitter_split_documents env 1000 200 (documents document_type t)
  end.

(** The prompt as the specification describes it: the instruction text
    around the two contexts, each the space-join of its chunk texts. *)
Definition template_prefix : string :=
  substring 0 809 compliance_template.
Definition template_middle : string :=
  substring 829 31 compliance_template.
Definition template_suffix : string :=
  substring 876 1786 compliance_template.

Definition build_prompt (policy_texts regulatory_texts : list string) : string :=
  template_prefix ++ join " " regulatory_texts
    ++ template_middle ++ join " " policy_texts ++ template_suffix.

Fixpoint brace_free (s : string) : bool :=
  match s with
  | EmptyString => true
  | String c r =>
      negb (Ascii.eqb c open_brace) && negb (Ascii.eqb c close_brace) && brace_free r
  end.

(** The exception of the three category checks. *)
Definition type_error : exn :=
  ValueError "Document type must be 'policy' or 'regulatory'".

(** The attribute [create_vector_store] sets for a category. *)
Definition attr_of (document_type : string) : string :=
  if String.eqb document_type "policy" then "policy_vector_store"
  else "regulatory_vector_store".

(** The lazy rebuild of one side: the notice, a reload, a re-index. *)
Definition rebuild (env : Env) (notice document_type : string) (w : World)
  : World :=
  fst (create_vector_store env document_type None
         (fst (load_documents env document_type (fst (print notice w))))).

(** What happens once both indexes are there: retrieval, prompt, model. *)
Definition analyse (env : Env) (pvs rvs : VectorStore) : M string :=
  policy_docs <- retrieve env (Some pvs) "All policy documents" ;;
  regulatory_docs <- retrieve env (Some rvs) "All regulatory documents" ;;
  chain <- setup_compliance_analysis_chain env ;;
  match chain with
  | (Some prompt, Some llm) =>
      try_except
        (lift (chain_invoke env prompt llm
                 [("policy_context", join " " (map page_content policy_docs));
                  ("regulatory_context", join " " (map page_content regulatory_docs))]))
        (fun ex => ret ("Error generating compliance report: " ++ str_of_exn ex))
  | _ => ret chain_error
  end.

(** Console lines of [generate_compliance_report]. *)
Definition policy_notice : string :=
  "⚠ Policy vector store not available. Creating it...".
Definition regulatory_notice : string :=
  "⚠ Regulatory vector store not available. Creating it...".
Definition unavailable_notice : string :=
  "✗ Cannot generate report: Vector stores not available".

(** The report the caller gets once both contexts are retrieved. *)
Definition report_text (env : Env) (policy_docs regulatory_docs : list Document)
  : string :=
  match Ollama env "llama3.2" (3 # 10) with
  | Raise _ => chain_error
  | Ok llm =>
      match llm_invoke env llm
                       (build_prompt (map page_content policy_docs)
                                     (map page_content regulatory_docs)) with
      | Ok report => report
      | Raise ex => "Error generating compliance report: " ++ str_of_exn ex
      end
  end.

(** ** A concrete installation, for evaluation *)

Module Sample.

(** Windows path separator. *)
Definition path_join (a b : string) : string := a ++ "\" ++ b.

Definition env : Env :=
  mkEnv path_join
        (fun model => Ok (mkEmbeddings model))
        (fun _ _ text => [text])
        (fun _ texts => Ok (map (fun t => [Z.of_nat (String.length t)]) texts))
        (fun vs _ => Ok (firstn 4 (vs_documents vs)))
        (fun model temperature => Ok (mkLLM model temperature))
        (fun _ _ => Ok "I. Document Type: Regulation").

(** The same installation with no Ollama server. *)
Definition env_offline : Env :=
  mkEnv path_join
        (fun _ => Raise (Error "connection refused"))
        (fun _ _ text => [text])
        (fun _ _ => Raise (Error "connection refused"))
        (fun _ _ => Raise (Error "connection refused"))
        (fun model temperature => Ok (mkLLM model temperature))
        (fun _ _ => Raise (Error "connection refused")).

(** The model cannot be constructed. *)
Definition env_no_model : Env :=
  mkEnv path_join
        (fun model => Ok (mkEmbeddings model))
        (fun _ _ text => [text])
        (fun _ texts => Ok (map (fun t => [Z.of_nat (String.length t)]) texts))
        (fun vs _ => Ok (firstn 4 (vs_documents vs)))
        (fun _ _ => Raise (Error "model 'llama3.2' not found"))
        (fun _ _ => Ok "unused").

(** The model is constructed but the call fails. *)
Definition env_call_fails : Env :=
  mkEnv path_join
        (fun model => Ok (mkEmbeddings model))
        (fun _ _ text => [text])
        (fun _ texts => Ok (map (fun t => [Z.of_nat (String.length t)]) texts))
        (fun vs _ => Ok (firstn 4 (vs_documents vs)))
        (fun model temperature => Ok (mkLLM model temperature))
        (fun _ _ => Raise (Error "connection refused")).

(** A policy folder with a three-page PDF, an unreadable PDF, a text file,
    a directory whose name ends in .pdf, and a one-page PDF. *)
Definition policy_entries : list Entry :=
  [ mkEntry "Handbook.PDF" true (Ok ["page one"; "page two"; "page three"]);
    mkEntry "broken.pdf" true (Raise (Error "EOF marker not found"));
    mkEntry "notes.txt" true (Ok []);
    mkEntry "archive.pdf" false (Raise (Error "Is a directory"));
    mkEntry "leave.pdf" true (Ok ["leave policy"]) ].

Definition regulatory_entries : list Entry :=
  [ mkEntry "act.pdf" true (Ok ["section 1"; "section 2"]) ].

(** Only the policy folder exists. *)
Definition fs_policy_only : FS := [("policy_documents", policy_entries)].

(** Only the regulatory folder exists. *)
Definition fs_regulatory_only : FS := [("regulatory_documents", regulatory_entries)].

Definition fs_both : FS :=
  [("policy_documents", policy_entries);
   ("regulatory_documents", regulatory_entries)].

Definition fresh (e : Env) (fs0 : FS) : World :=
  init e "policy_documents" "regulatory_documents" fs0 [].

(** Policy side loaded and indexed, regulatory folder absent. *)
Definition policy_ready : World :=
  run env [Load "policy"; Create "policy" None] (fresh env fs_policy_only).

(** Regulatory side loaded and indexed, policy folder absent. *)
Definition regulatory_ready : World :=
  run env [Load "regulatory"; Create "regulatory" None]
      (fresh env fs_regulatory_only).

(** Both sides loaded and indexed. *)
Definition both_ready (e : Env) : World :=
  run e [Load "policy"; Load "regulatory";
         Create "policy" None; Create "regulatory" None] (fresh e fs_both).

(** The indexes and the retrieved records of [both_ready]. *)
Definition index_of (o : option VectorStore) : VectorStore :=
  match o with Some vs => vs | None => mkVectorStore [] [] end.

Definition policy_index : VectorStore :=
  index_of (policy_vector_store (self (both_ready env))).

Definition regulatory_index : VectorStore :=
  index_of (regulatory_vector_store (self (both_ready env))).

Definition retrieved (vs : VectorStore) : list Document :=
  firstn 4 (vs_documents vs).

(** Both collections loaded, nothing indexed yet. *)
Definition loaded : World :=
  run env [Load "policy"; Load "regulatory"] (fresh env fs_both).

Definition chunks_of (r : result (list Document)) : list Document :=
  match r with Ok cs => cs | Raise _ => [] end.

Definition policy_chunks : list Document :=
  chunks_of (snd (split_documents env "policy" 1000 200 loaded)).

Definition regulatory_chunks : list Document :=
  chunks_of (snd (split_documents env "regulatory" 1000 200 loaded)).

(** The calls the tool's own entry point makes. *)
Definition main_calls : list op :=
  [Load "policy"; Load "regulatory";
   Create "policy" None; Create "regulatory" None; Generate].

End Sample.

(** ** The script: [setup_document_folders] and [main] *)

(** [s * n] *)
Fixpoint str_mul (s : string) (n : nat) : string :=
  match n with
  | O => EmptyString
  | S n' => s ++ str_mul s n'
  end.

(** What the script works on besides the instance it builds: the
    directories, the console, and the content of [compliance_report.txt] in
    the working directory ([None] while the file does not exist).  The
    report file is kept apart from [FS], which holds no listing-level record
    of it. *)
Record Process : Type := mkProcess {
  p_fs : FS;
  p_stdout : list string;
  p_report : option string
}.

(** [setup_document_folders()]; [current_dir] is what [os.getcwd()]
    answers.  The result is the directories, the console and the returned
    pair of paths. *)
Definition setup_document_folders (env : Env) (current_dir : string)
           (fs0 : FS) (out0 : list string)
  : FS * list string * (string * string) :=
  let policy_folder := os_path_join env current_dir "policy_documents" in
  let regulatory_folder := os_path_join env current_dir "regulatory_documents" in
  let fs1 := os_makedirs fs0 policy_folder in
  let fs2 := os_makedirs fs1 regulatory_folder in
  (fs2,
   List.app out0
            ["✓ Created policy documents folder: " ++ policy_folder;
             "✓ Created regulatory documents folder: " ++ regulatory_folder],
   (policy_folder, regulatory_folder)).

(** [[f for f in os.listdir(folder) if f.lower().endswith('.pdf')]] *)
Definition pdf_names (fs0 : FS) (folder : string) : list string :=
  filter (fun f => endswith (lower f) ".pdf") (map e_name (os_listdir fs0 folder)).

Definition report_file : string := "compliance_report.txt".

(** The body of the [try] of [main] after the instance is built; the value
    is the text written to the report file, if the body got that far (only a
    [print] follows the write). *)
Definition analysis (env : Env) : M (option string) :=
  policy_doc_count <- load_documents env "policy" ;;
  regulatory_doc_count <- load_documents env "regulatory" ;;
  if Z.eqb policy_doc_count 0 && Z.eqb regulatory_doc_count 0 then
    print "⚠ No documents were loaded. Please check that your PDF files are valid." ;;
    ret None
  else
    print ("✓ Processed " ++ str_of_int policy_doc_count ++ " policy documents") ;;
    print ("✓ Processed " ++ str_of_int regulatory_doc_count ++ " regulatory documents") ;;
    (if Z.ltb 0 policy_doc_count
     then create_vector_store env "policy" None ;; ret tt
     else ret tt) ;;
    (if Z.ltb 0 regulatory_doc_count
     then create_vector_store env "regulatory" None ;; ret tt
     else ret tt) ;;
    print "
🔍 Generating Compliance Analysis Report..." ;;
    compliance_report <- generate_compliance_report env ;;
    print ("
" ++ str_mul "=" 50) ;;
    print "COMPLIANCE ANALYSIS REPORT" ;;
    print (str_mul "=" 50) ;;
    print compliance_report ;;
    print ("
✓ Report saved to: " ++ report_file) ;;
    ret (Some compliance_report).

(** The console lines of [main] between the folder setup and the listing. *)
Definition next_steps (policy_folder regulatory_folder : string) : list string :=
  ["
📁 Document Folders Created:";
   "   Policy Documents: " ++ policy_folder;
   "   Regulatory Documents: " ++ regulatory_folder;
   "
📋 Next Steps:";
   "   1. Add your policy PDF documents to the 'policy_documents' folder";
   "   2. Add your regulatory PDF documents to the 'regulatory_documents' folder";
   "   3. Install Ollama from https://ollama.ai";
   "   4. Run: ollama pull llama3.2";
   "   5. Run this script again to generate the compliance report"].

Definition no_pdf_lines : list string :=
  ["
⚠ No PDF documents found in the folders.";
   "Please add your documents and run the script again."].

(** [main()] *)
Definition main (env : Env) (current_dir : string) (p : Process) : Process :=
  let out1 := List.app (p_stdout p)
                       ["=== Policy Compliance Analysis Tool ===";
                        "Setting up document folders..."] in
  let made := setup_document_folders env current_dir (p_fs p) out1 in
  let fs1 := fst (fst made) in
  let policy_folder := fst (snd made) in
  let regulatory_folder := snd (snd made) in
  let out2 := List.app (snd (fst made))
                       (next_steps policy_folder regulatory_folder) in
  let policy_files := pdf_names fs1 policy_folder in
  let regulatory_files := pdf_names fs1 regulatory_folder in
  if negb (truthy_list policy_files) && negb (truthy_list regulatory_files) then
    mkProcess fs1 (List.app out2 no_pdf_lines) (p_report p)
  else
    let out3 := List.app out2
                         ["
📊 Found " ++ str_of_nat (List.length policy_files)
                            ++ " policy documents and "
                            ++ str_of_nat (List.length regulatory_files)
                            ++ " regulatory documents"] in
    let compliance_tool := init env policy_folder regulatory_folder fs1 out3 in
    match try_except
            (analysis env)
            (fun ex =>
               print ("✗ An error occurred during compliance analysis: "
                        ++ str_of_exn ex) ;;
               ret None)
            compliance_tool with
    | (w, Ok (Some compliance_report)) =>
        mkProcess (fs w) (stdout w) (Some compliance_report)
    | (w, _) => mkProcess (fs w) (stdout w) (p_report p)
    end.

(** How a call may change one index attribute: not at all, or by storing
    an index built, with the embedding backend available, from a non-empty
    chunk list. *)
Definition index_step (t : Tool) (before after : option VectorStore) : Prop :=
  after = before
  \/ exists vs, after = Some vs /\ embeddings t <> None /\ vs_documents vs <> [].

(** How a call may change the instance: the configuration (folders,
    embedding handle) stays, and each index changes by an [index_step]. *)
Definition evolves (t t' : Tool) : Prop :=
  policy_documents_folder t' = policy_documents_folder t
  /\ regulatory_documents_folder t' = regulatory_documents_folder t
  /\ embeddings t' = embeddings t
  /\ index_step t (policy_vector_store t) (policy_vector_store t')
  /\ index_step t (regulatory_vector_store t) (regulatory_vector_store t').

(** The world [generate_compliance_report] checks the two indexes in: after
    the lazy rebuild of the policy side, then of the regulatory side, each
    only if its index is missing. *)
Definition after_rebuilds (env : Env) (w : World) : World :=
  let w1 := if truthy_opt (policy_vector_store (self w)) then w
            else rebuild env policy_notice "policy" w in
  if truthy_opt (regulatory_vector_store (self w1)) then w1
  else rebuild env regulatory_notice "regulatory" w1.

(** *** The default Chroma collection

    [Chroma.from_documents] is called at one place, in
    [create_vector_store], and that method returns the store exactly when
    the call succeeded.  The chunks a call of a method sends to the default
    collection can therefore be read off what [create_vector_store]
    returns. *)

(** The chunks one call of [create_vector_store] added. *)
Definition create_adds (returned : result (option VectorStore)) : list Document :=
  match returned with
  | Ok (Some vs) => vs_documents vs
  | _ => []
  end.

(** The chunks the lazy rebuild of one side added. *)
Definition rebuild_adds (env : Env) (notice document_type : string) (w : World)
  : list Document :=
  create_adds
    (snd (create_vector_store env document_type None
            (fst (load_documents env document_type (fst (print notice w)))))).

(** The chunks one call of [generate_compliance_report] added: those of the
    policy rebuild, then those of the regulatory rebuild. *)
Definition generate_adds (env : Env) (w : World) : list Document :=
  let w1 := if truthy_opt (policy_vector_store (self w)) then w
            else rebuild env policy_notice "policy" w in
  List.app
    (if truthy_opt (policy_vector_store (self w)) then []
     else rebuild_adds env policy_notice "policy" w)
    (if truthy_opt (regulatory_vector_store (self w1)) then []
     else rebuild_adds env regulatory_notice "regulatory" w1).

Definition step_adds (env : Env) (o : op) (w : World) : list Document :=
  match o with
  | Create document_type chunks =>
      create_adds (snd (create_vector_store env document_type chunks w))
  | Generate => generate_adds env w
  | _ => []
  end.

(** The content of the default collection after a sequence of calls, from
    its content before. *)
Fixpoint collection_after (env : Env) (ops : list op) (w : World)
         (collection : list Document) : list Document :=
  match ops with
  | [] => collection
  | o :: rest =>
      collection_after env rest (step env o w)
                       (List.app collection (step_adds env o w))
  end.

(** The world in which [main] calls [generate_compliance_report], from the
    world after the two loads and their counts. *)
Definition indexed_for_report (env : Env) (policy_doc_count regulatory_doc_count : Z)
           (w : World) : World :=
  let w1 := fst (print ("✓ Processed " ++ str_of_int policy_doc_count
                          ++ " policy documents") w) in
  let w2 := fst (print ("✓ Processed " ++ str_of_int regulatory_doc_count
                          ++ " regulatory documents") w1) in
  let w3 := if Z.ltb 0 policy_doc_count
            then fst (create_vector_store env "policy" None w2) else w2 in
  let w4 := if Z.ltb 0 regulatory_doc_count
            then fst (create_vector_store env "regulatory" None w3) else w3 in
  fst (print "
🔍 Generating Compliance Analysis Report..." w4).

(** The console after the report is shown and saved. *)
Definition report_shown (compliance_report : string) (w : World) : World :=
  mkWorld (self w) (fs w)
          (List.app (stdout w)
                    [("
" ++ str_mul "=" 50);
                     "COMPLIANCE ANALYSIS REPORT";
                     str_mul "=" 50;
                     compliance_report;
                     ("
✓ Report saved to: " ++ report_file)]).

(** The directories are [F] and the instance is configured for the two
    folders. *)
Definition settled (F : FS) (policy_folder regulatory_folder : string)
           (w : World) : Prop :=
  fs w = F
  /\ policy_documents_folder (self w) = policy_folder
  /\ regulatory_documents_folder (self w) = regulatory_folder.

(** A computation keeps a property of the world, whatever it returns. *)
Definition keeps {A} (P : World -> Prop) (m : M A) : Prop :=
  forall w, P w -> P (fst (m w)).

(** ** A working directory, for evaluation *)

Module Desk.

Definition cwd : string := "C:\work".

Definition policy_folder : string := "C:\work\policy_documents".
Definition regulatory_folder : string := "C:\work\regulatory_documents".


(** Both folders populated; an older report lies in the directory. *)
Definition populated : Process :=
  mkProcess [(policy_folder, Sample.policy_entries);
             (regulatory_folder, Sample.regulatory_entries)]
            [] (Some "last week's report").

(** Only the policy folder holds documents. *)
Definition policy_only : Process :=
  mkProcess [(policy_folder, Sample.policy_entries); (regulatory_folder, [])]
            [] (Some "last week's report").

(** The only [.pdf] names are a directory and an unreadable file. *)
Definition nothing_loadable : Process :=
  mkProcess [(policy_folder,
              [mkEntry "archive.pdf" false (Raise (Error "Is a directory"));
               mkEntry "broken.pdf" true (Raise (Error "EOF marker not found"))])]
            [] (Some "last week's report").

(** The retriever cannot reach the embedding server at report time. *)
Definition env_retrieval_fails : Env :=
  mkEnv Sample.path_join
        (fun model => Ok (mkEmbeddings model))
        (fun _ _ text => [text])
        (fun _ texts => Ok (map (fun t => [Z.of_nat (String.length t)]) texts))
        (fun _ _ => Raise (Error "connection refused"))
        (fun model temperature => Ok (mkLLM model temperature))
        (fun _ _ => Ok "unused").

(** The policy side indexed; the regulatory folder populated but not yet
    loaded. *)
Definition regulatory_pending : World :=
  run Sample.env [Load "policy"; Create "policy" None]
      (Sample.fresh Sample.env Sample.fs_both).

End Desk.

(** Unfolding of the monad's operations. *)
Ltac run_monad :=
  unfold bind, try_except, ret, raise, lift, print, get_self, get_fs, put_fs,
    list_clear, list_extend, modify_self; cbn [fst snd self fs stdout].

(** ** Basic facts about the instance record *)

Lemma deref_assign (r : list_ref) (ds : list Document) (t : Tool) :
  deref r (assign r ds t) = ds.
Proof. destruct r; reflexivity. Qed.

Lemma assign_assign (r : list_ref) (ds ds' : list Document) (t : Tool) :
  assign r ds' (assign r ds t) = assign r ds' t.
Proof. destruct r; reflexivity. Qed.

Lemma assign_deref (r : list_ref) (t : Tool) :
  assign r (deref r t) t = t.
Proof. destruct r, t; reflexivity. Qed.

Lemma assign_folders (r : list_ref) (ds : list Document) (t : Tool) :
  policy_documents_folder (assign r ds t) = policy_documents_folder t
  /\ regulatory_documents_folder (assign r ds t) = regulatory_documents_folder t.
Proof. destruct r; split; reflexivity. Qed.

Lemma valid_type_cases (document_type : string) :
  valid_type document_type ->
  (document_type = "policy"
   /\ ref_of document_type = policy_documents_ref)
  \/ (document_type = "regulatory"
      /\ ref_of document_type = regulatory_documents_ref).
Proof.
  intros [-> | ->]; [left | right]; split; reflexivity.
Qed.

(** ** The loader *)

Lemma load_loop_spec (env : Env) (folder : string) (r : list_ref)
      (entries : list Entry) :
  forall (c : Z) (w : World),
    snd (load_loop env folder r entries c w)
    = Ok (c + Z.of_nat (List.length (filter processed entries)))
    /\ self (fst (load_loop env folder r entries c w))
       = assign r (deref r (self w) ++ flat_map (documents_of env folder) entries)%list
                (self w)
    /\ fs (fst (load_loop env folder r entries c w)) = fs w
    /\ exists out,
        stdout (fst (load_loop env folder r entries c w)) = (stdout w ++ out)%list.
Proof.
  induction entries as [| e rest IH]; intros c w.
  - cbn. rewrite Z.add_0_r, app_nil_r, assign_deref.
    repeat split. exists []. now rewrite app_nil_r.
  - cbn [load_loop flat_map filter].
    unfold documents_of at 1, processed at 1.
    fold (is_pdf_file e).
    destruct (is_pdf_file e) eqn:Hpdf; cbn [andb].
    + unfold PyPDFLoader_load.
      destruct (e_pdf e) as [texts | ex] eqn:Hload; cbn [is_ok].
      * run_monad.
        match goal with
        | |- context [load_loop env folder r rest ?c' ?w'] =>
            destruct (IH c' w') as (Hr & Hs & Hf & out & Ho)
        end.
        rewrite Hr, Hs, Hf, Ho. cbn [self fs stdout List.length].
        rewrite deref_assign, assign_assign, <- app_assoc.
        repeat split.
        -- f_equal. lia.
        -- eexists. rewrite <- !app_assoc. reflexivity.
      * run_monad.
        match goal with
        | |- context [load_loop env folder r rest ?c' ?w'] =>
            destruct (IH c' w') as (Hr & Hs & Hf & out & Ho)
        end.
        rewrite Hr, Hs, Hf, Ho. cbn [self fs stdout app].
        repeat split.
        eexists. rewrite <- !app_assoc. reflexivity.
    + destruct (IH c w) as (Hr & Hs & Hf & out & Ho).
      rewrite Hr, Hs, Hf, Ho. cbn [app]. repeat split. now exists out.
Qed.

Lemma os_listdir_absent (fs0 : FS) (path : string) :
  os_path_exists fs0 path = false -> os_listdir fs0 path = [].
Proof.
  unfold os_path_exists, os_listdir.
  destruct (fs_lookup fs0 path); [discriminate | reflexivity].
Qed.

Lemma os_makedirs_exists (fs0 : FS) (path : string) :
  os_path_exists (os_makedirs fs0 path) path = true.
Proof.
  unfold os_makedirs.
  destruct (os_path_exists fs0 path) eqn:E; [exact E |].
  unfold os_path_exists. cbn. now rewrite String.eqb_refl.
Qed.

Lemma os_listdir_makedirs (fs0 : FS) (path : string) :
  os_listdir (os_makedirs fs0 path) path = os_listdir fs0 path.
Proof.
  unfold os_makedirs.
  destruct (os_path_exists fs0 path) eqn:E; [reflexivity |].
  rewrite (os_listdir_absent _ _ E).
  unfold os_listdir. cbn. now rewrite String.eqb_refl.
Qed.

(** What one call of [load_documents] does, for either category. *)
Lemma load_documents_spec (env : Env) (document_type : string) (w : World) :
  valid_type document_type ->
  let folder := folder_of document_type (self w) in
  let entries := os_listdir (fs w) folder in
  snd (load_documents env document_type w)
  = Ok (Z.of_nat (List.length (filter processed entries)))
  /\ self (fst (load_documents env document_type w))
     = assign (ref_of document_type)
              (flat_map (documents_of env folder) entries) (self w)
  /\ fs (fst (load_documents env document_type w)) = os_makedirs (fs w) folder
  /\ exists out,
      stdout (fst (load_documents env document_type w)) = (stdout w ++ out)%list.
Proof.
  intros Hv folder entries. subst folder entries.
  destruct (valid_type_cases Hv) as [[-> Hr] | [-> Hr]]; rewrite Hr; clear Hr Hv;
    unfold load_documents, folder_of; run_monad;
    cbn [String.eqb Ascii.eqb Bool.eqb fst snd];
    unfold os_makedirs;
    match goal with
    | |- context [os_path_exists (fs w) ?f] =>
        destruct (os_path_exists (fs w) f) eqn:Hex
    end; cbn [negb fst snd self fs stdout].
  all: try (match goal with
            | |- context [load_loop ?en ?f ?r ?es ?c ?w'] =>
                destruct (load_loop_spec en f r es c w') as (H1 & H2 & H3 & out & H4);
                rewrite H1, H2, H3, H4; cbn [self fs stdout];
                rewrite deref_assign, assign_assign; cbn [app Z.add];
                repeat split; now exists out
            end).
  all: rewrite (os_listdir_absent _ _ Hex); cbn; repeat split;
    eexists; rewrite <- !app_assoc; reflexivity.
Qed.

Lemma pages_from_length (file_path : string) (texts : list string) :
  forall i, List.length (pages_from file_path i texts) = List.length texts.
Proof.
  induction texts as [| t rest IH]; intros i; cbn; [reflexivity |].
  now rewrite IH.
Qed.

Lemma documents_of_length (env : Env) (folder : string) (e : Entry) :
  List.length (documents_of env folder e)
  = if processed e then page_count e else 0%nat.
Proof.
  unfold documents_of, processed, page_count, PyPDFLoader_load.
  destruct (is_pdf_file e); [| reflexivity].
  destruct (e_pdf e); cbn; [apply pages_from_length | reflexivity].
Qed.

Lemma loaded_length (env : Env) (folder : string) (entries : list Entry) :
  List.length (flat_map (documents_of env folder) entries)
  = list_sum (map page_count (filter processed entries)).
Proof.
  induction entries as [| e rest IH]; [reflexivity |].
  cbn [flat_map filter]. rewrite length_app, documents_of_length, IH.
  destruct (processed e); reflexivity.
Qed.

(** ** Claims about [load_documents] *)

(** C3. For every folder, [load_documents] returns without raising the
    number of source files successfully processed: the regular files named
    [*.pdf] whose extraction does not fail.  The collection receives one
    record per page of those files (so its length is the sum of their page
    counts, not the returned count), a file whose extraction fails
    contributes no record and is not counted, and the files after it are
    still loaded. *)
Theorem load_documents_counts_files (env : Env) (document_type : string)
        (w : World) :
  valid_type document_type ->
  let folder := folder_of document_type (self w) in
  let entries := os_listdir (fs w) folder in
  let w' := fst (load_documents env document_type w) in
  snd (load_documents env document_type w)
  = Ok (Z.of_nat (List.length (filter processed entries)))
  /\ documents document_type (self w')
     = flat_map (documents_of env folder) entries
  /\ List.length (documents document_type (self w'))
     = list_sum (map page_count (filter processed entries))
  /\ (forall e, In e entries -> processed e = false ->
                documents_of env folder e = []).
Proof.
  intros Hv folder entries w'. subst folder entries w'.
  destruct (load_documents_spec env w Hv) as (Hr & Hs & _ & _).
  rewrite Hr, Hs. unfold documents. rewrite deref_assign.
  repeat split.
  - apply loaded_length.
  - intros e _ Hp. pose proof (documents_of_length env
      (folder_of document_type (self w)) e) as Hlen.
    rewrite Hp in Hlen. now apply length_zero_iff_nil.
Qed.

Lemma load_documents_counts_files_witness :
  valid_type "policy"
  /\ snd (load_documents Sample.env "policy" (Sample.fresh Sample.env Sample.fs_both))
     = Ok 2
  /\ List.length
       (documents "policy"
          (self (fst (load_documents Sample.env "policy"
                                     (Sample.fresh Sample.env Sample.fs_both)))))
     = 4%nat.
Proof.
  assert (Hv : valid_type "policy") by (left; reflexivity).
  split; [exact Hv |].
  destruct (load_documents_counts_files Sample.env
              (Sample.fresh Sample.env Sample.fs_both) Hv) as (Hr & _ & Hn & _).
  split; [exact Hr | exact Hn].
Defined.

(** C7. When the category's folder does not exist, [load_documents] creates
    it and returns 0 without raising; the category's collection is left
    empty and nothing else in the instance changes. *)
Theorem load_documents_missing_folder (env : Env) (document_type : string)
        (w : World) :
  valid_type document_type ->
  os_path_exists (fs w) (folder_of document_type (self w)) = false ->
  let w' := fst (load_documents env document_type w) in
  snd (load_documents env document_type w) = Ok 0
  /\ os_path_exists (fs w') (folder_of document_type (self w)) = true
  /\ os_listdir (fs w') (folder_of document_type (self w)) = []
  /\ documents document_type (self w') = []
  /\ self w' = assign (ref_of document_type) [] (self w).
Proof.
  intros Hv Hex w'. subst w'.
  destruct (load_documents_spec env w Hv) as (Hr & Hs & Hf & _).
  rewrite (os_listdir_absent _ _ Hex) in Hr, Hs.
  cbn [filter flat_map List.length Z.of_nat] in Hr, Hs.
  rewrite Hr, Hs, Hf. unfold documents. rewrite deref_assign.
  repeat split.
  - apply os_makedirs_exists.
  - rewrite os_listdir_makedirs. now apply os_listdir_absent.
Qed.

Lemma load_documents_missing_folder_witness :
  valid_type "regulatory"
  /\ os_path_exists (fs Sample.policy_ready)
                    (folder_of "regulatory" (self Sample.policy_ready)) = false
  /\ snd (load_documents Sample.env "regulatory" Sample.policy_ready) = Ok 0
  /\ os_path_exists
       (fs (fst (load_documents Sample.env "regulatory" Sample.policy_ready)))
       "regulatory_documents" = true.
Proof.
  assert (Hv : valid_type "regulatory") by (right; reflexivity).
  assert (Hex : os_path_exists (fs Sample.policy_ready)
                  (folder_of "regulatory" (self Sample.policy_ready)) = false)
    by reflexivity.
  split; [exact Hv |]. split; [exact Hex |].
  destruct (load_documents_missing_folder Sample.env _ Hv Hex) as (Hr & He & _).
  split; [exact Hr | exact He].
Defined.

(** C8. [load_documents] replaces the category's collection: what it leaves
    there does not depend on what was there before, and a second call on the
    unchanged folder leaves the same records (hence the same collection
    size) and returns the same count. *)
Theorem load_documents_idempotent (env : Env) (document_type : string)
        (w : World) :
  valid_type document_type ->
  let w1 := fst (load_documents env document_type w) in
  let w2 := fst (load_documents env document_type w1) in
  documents document_type (self w2) = documents document_type (self w1)
  /\ List.length (documents document_type (self w2))
     = List.length (documents document_type (self w1))
  /\ snd (load_documents env document_type w1)
     = snd (load_documents env document_type w)
  /\ (forall previous,
         documents document_type
           (self (fst (load_documents env document_type
                         (mkWorld (assign (ref_of document_type) previous (self w))
                                  (fs w) (stdout w)))))
         = documents document_type (self w1)).
Proof.
  intros Hv w1 w2.
  assert (Hfolder : forall r ds t,
             folder_of document_type (assign r ds t) = folder_of document_type t).
  { intros r ds t. unfold folder_of.
    destruct (assign_folders r ds t) as [-> ->]. reflexivity. }
  assert (H12 : documents document_type (self w2) = documents document_type (self w1)
                /\ snd (load_documents env document_type w1)
                   = snd (load_documents env document_type w)).
  { destruct (load_documents_spec env w Hv) as (Hr1 & Hs1 & Hf1 & _).
    fold w1 in Hs1, Hf1.
    destruct (load_documents_spec env w1 Hv) as (Hr2 & Hs2 & _ & _).
    fold w2 in Hs2.
    assert (Hfw : folder_of document_type (self w1) = folder_of document_type (self w))
      by (rewrite Hs1; apply Hfolder).
    rewrite Hfw, Hf1, os_listdir_makedirs in Hr2.
    rewrite Hfw, Hf1, os_listdir_makedirs in Hs2.
    split.
    - unfold documents. rewrite Hs2, Hs1, !deref_assign. reflexivity.
    - rewrite Hr2, Hr1. reflexivity. }
  destruct H12 as [Hd Hc].
  repeat split; [exact Hd | now rewrite Hd | exact Hc |].
  intros previous. subst w1.
  destruct (load_documents_spec env w Hv) as (_ & Hs1 & _ & _).
  destruct (load_documents_spec env
              (mkWorld (assign (ref_of document_type) previous (self w))
                       (fs w) (stdout w)) Hv) as (_ & Hs & _ & _).
  cbn [self fs] in Hs. rewrite Hs, Hs1. unfold documents.
  rewrite !deref_assign, Hfolder. reflexivity.
Qed.

Lemma load_documents_idempotent_witness :
  valid_type "policy"
  /\ List.length
       (documents "policy"
          (self (fst (load_documents Sample.env "policy"
                        (fst (load_documents Sample.env "policy"
                                (Sample.fresh Sample.env Sample.fs_both)))))))
     = List.length
         (documents "policy"
            (self (fst (load_documents Sample.env "policy"
                                       (Sample.fresh Sample.env Sample.fs_both))))).
Proof.
  assert (Hv : valid_type "policy") by (left; reflexivity).
  split; [exact Hv |].
  destruct (load_documents_idempotent Sample.env
              (Sample.fresh Sample.env Sample.fs_both) Hv) as (_ & Hn & _).
  exact Hn.
Defined.

(** ** The chunker and the indexer *)

Lemma split_documents_spec (env : Env) (document_type : string)
      (chunk_size chunk_overlap : Z) (w : World) :
  valid_type document_type ->
  Z.gtb chunk_overlap chunk_size = false ->
  snd (split_documents env document_type chunk_size chunk_overlap w)
  = Ok (text_splitter_split_documents env chunk_size chunk_overlap
          (documents document_type (self w)))
  /\ self (fst (split_documents env document_type chunk_size chunk_overlap w))
     = self w
  /\ fs (fst (split_documents env document_type chunk_size chunk_overlap w))
     = fs w.
Proof.
  intros Hv Hgt.
  destruct (valid_type_cases Hv) as [[-> Hr] | [-> Hr]];
    unfold documents; rewrite Hr; clear Hr Hv;
    unfold split_documents, RecursiveCharacterTextSplitter; run_monad;
    cbn [String.eqb Ascii.eqb Bool.eqb fst snd deref]; rewrite Hgt.
  - destruct (policy_documents (self w)); cbn; repeat split.
  - destruct (regulatory_documents (self w)); cbn; repeat split.
Qed.

Lemma split_documents_empty (env : Env) (document_type : string)
      (chunk_size chunk_overlap : Z) (w : World) :
  valid_type document_type ->
  documents document_type (self w) = [] ->
  snd (split_documents env document_type chunk_size chunk_overlap w) = Ok []
  /\ self (fst (split_documents env document_type chunk_size chunk_overlap w))
     = self w
  /\ fs (fst (split_documents env document_type chunk_size chunk_overlap w))
     = fs w.
Proof.
  intros Hv.
  destruct (valid_type_cases Hv) as [[-> Hr] | [-> Hr]];
    unfold documents; rewrite Hr; clear Hr Hv; cbn [deref]; intros Hd;
    unfold split_documents; run_monad;
    cbn [String.eqb Ascii.eqb Bool.eqb fst snd deref]; rewrite Hd;
    cbn; repeat split.
Qed.

(** With records to split, a chunk overlap above the chunk size stops
    [split_documents] at the splitter's constructor. *)
Lemma split_documents_refused (env : Env) (document_type : string)
      (chunk_size chunk_overlap : Z) (w : World) :
  valid_type document_type ->
  documents document_type (self w) <> [] ->
  Z.gtb chunk_overlap chunk_size = true ->
  split_documents env document_type chunk_size chunk_overlap w
  = (w, Raise (ValueError ("Got a larger chunk overlap ("
                             ++ str_of_int chunk_overlap
                             ++ ") than chunk size (" ++ str_of_int chunk_size
                             ++ "), should be smaller."))).
Proof.
  intros Hv.
  destruct (valid_type_cases Hv) as [[-> Hr] | [-> Hr]];
    unfold documents; rewrite Hr; clear Hr Hv; cbn [deref]; intros Hd Hgt;
    unfold split_documents, RecursiveCharacterTextSplitter; run_monad;
    cbn [String.eqb Ascii.eqb Bool.eqb fst snd deref]; rewrite Hgt.
  - destruct (policy_documents (self w)); [now elim Hd | reflexivity].
  - destruct (regulatory_documents (self w)); [now elim Hd | reflexivity].
Qed.

(** What one call of [create_vector_store] does, for either category. *)
Lemma create_vector_store_spec (env : Env) (document_type : string)
      (chunks : option (list Document)) (w : World) :
  valid_type document_type ->
  let cs := effective_chunks env document_type chunks (self w) in
  let res := create_vector_store env document_type chunks w in
  fs (fst res) = fs w
  /\ match embeddings (self w) with
     | None => snd res = Ok None /\ self (fst res) = self w
     | Some emb =>
         match cs with
         | [] => snd res = Ok None /\ self (fst res) = self w
         | _ :: _ =>
             match Chroma_from_documents env cs emb with
             | Ok vs =>
                 snd res = Ok (Some vs)
                 /\ self (fst res)
                    = setattr_vector_store (attr_of document_type) (Some vs) (self w)
             | Raise _ => snd res = Ok None /\ self (fst res) = self w
             end
         end
     end.
Proof.
  intros Hv cs res. subst cs res.
  destruct Hv as [-> | ->].
  all: match goal with
       | |- context [create_vector_store _ ?dt _ _] =>
           assert (Hv : valid_type dt) by (first [now left | now right])
       end.
  all: unfold create_vector_store, attr_of; run_monad;
    cbn [String.eqb Ascii.eqb Bool.eqb fst snd];
    (destruct (embeddings (self w)) as [emb |]; [| cbn; now repeat split]);
    destruct chunks as [cs |]; cbn [effective_chunks].
  all: try (destruct cs as [| c cs']; cbn [truthy_list negb fst snd self fs stdout];
            [now repeat split |];
            destruct (Chroma_from_documents env (c :: cs') emb); cbn;
            now repeat split).
  all: destruct (@split_documents_spec env _ 1000 200 w Hv eq_refl) as (Hr & Hs & Hf);
    match goal with
    | |- context [split_documents ?en ?dt 1000 200 ?w0] =>
        destruct (split_documents en dt 1000 200 w0) as [w1 r1]
    end;
    cbn [fst snd] in Hr, Hs, Hf; subst r1;
    match goal with
    | |- context [text_splitter_split_documents ?en 1000 200 ?ds] =>
        destruct (text_splitter_split_documents en 1000 200 ds) as [| c cs']
    end;
    cbn [truthy_list negb fst snd self fs stdout]; [now repeat split |];
    destruct (Chroma_from_documents env (c :: cs') emb);
    cbn [fst snd self fs stdout]; rewrite ?Hs; now repeat split.
Qed.

Lemma setattr_vector_store_lookup (document_type : string)
      (v : option VectorStore) (t : Tool) :
  valid_type document_type ->
  vector_store document_type (setattr_vector_store (attr_of document_type) v t) = v
  /\ vector_store (other_type document_type)
                  (setattr_vector_store (attr_of document_type) v t)
     = vector_store (other_type document_type) t
  /\ policy_documents (setattr_vector_store (attr_of document_type) v t)
     = policy_documents t
  /\ regulatory_documents (setattr_vector_store (attr_of document_type) v t)
     = regulatory_documents t.
Proof.
  intros [-> | ->]; repeat split; reflexivity.
Qed.

(** C5. For either category, [create_vector_store] never raises.  It returns
    [None], leaving the instance as it was, when the embedding backend is
    unavailable, when the chunks it works on (given, or the default split of
    the category's collection) are empty, and when index construction
    fails; it returns an index only when the backend is available, the
    chunks are non-empty and construction succeeds, and that index is built
    from exactly those chunks and stored as the category's index. *)
Theorem create_vector_store_none_or_index (env : Env) (document_type : string)
        (chunks : option (list Document)) (w : World) :
  valid_type document_type ->
  let cs := effective_chunks env document_type chunks (self w) in
  let res := create_vector_store env document_type chunks w in
  (exists r, snd res = Ok r)
  /\ (embeddings (self w) = None ->
      snd res = Ok None /\ self (fst res) = self w)
  /\ (cs = [] -> snd res = Ok None /\ self (fst res) = self w)
  /\ (forall emb ex,
         embeddings (self w) = Some emb ->
         Chroma_from_documents env cs emb = Raise ex ->
         snd res = Ok None /\ self (fst res) = self w)
  /\ (forall emb vs,
         embeddings (self w) = Some emb -> cs <> [] ->
         Chroma_from_documents env cs emb = Ok vs ->
         snd res = Ok (Some vs))
  /\ (forall vs,
         snd res = Ok (Some vs) ->
         cs <> [] /\ vs_documents vs = cs
         /\ (exists emb, embeddings (self w) = Some emb
                         /\ Chroma_from_documents env cs emb = Ok vs)
         /\ vector_store document_type (self (fst res)) = Some vs).
Proof.
  intros Hv cs res.
  destruct (create_vector_store_spec env chunks w Hv) as [_ H].
  fold cs res in H.
  destruct (embeddings (self w)) as [emb |] eqn:He.
  - destruct cs as [| c cs'] eqn:Hcs.
    + destruct H as [Hr Hs]. rewrite Hr.
      repeat split; eauto; try discriminate; try congruence.
    + destruct (Chroma_from_documents env (c :: cs') emb) as [vs | ex] eqn:Hc;
        destruct H as [Hr Hs]; rewrite Hr, Hs.
      * split; [eauto |]. split; [discriminate |]. split; [discriminate |].
        split; [intros emb' ex' [= <-]; congruence |].
        split; [intros emb' vs' [= <-] _; congruence |].
        intros vs' [= <-]. split; [discriminate |].
        split.
        { unfold Chroma_from_documents in Hc.
          destruct (embed_documents env emb (map page_content (c :: cs')));
            [injection Hc as <-; reflexivity | discriminate]. }
        split; [eauto |].
        apply (setattr_vector_store_lookup (Some vs) (self w) Hv).
      * split; [eauto |]. split; [discriminate |]. split; [discriminate |].
        split; [auto |].
        split; [intros emb' vs' [= <-] _; congruence |].
        discriminate.
  - destruct H as [Hr Hs]. rewrite Hr.
    repeat split; eauto; try discriminate.
Qed.

Lemma create_vector_store_none_or_index_witness :
  valid_type "regulatory"
  /\ snd (create_vector_store Sample.env "regulatory" None Sample.policy_ready)
     = Ok None
  /\ self (fst (create_vector_store Sample.env "regulatory" None Sample.policy_ready))
     = self Sample.policy_ready.
Proof.
  assert (Hv : valid_type "regulatory") by (right; reflexivity).
  split; [exact Hv |].
  destruct (create_vector_store_none_or_index Sample.env None Sample.policy_ready Hv)
    as (_ & _ & Hempty & _).
  apply Hempty. reflexivity.
Defined.

(** ** The invalid-category path *)

Lemma type_cases (document_type : string) :
  valid_type document_type
  \/ (document_type <> "policy" /\ document_type <> "regulatory").
Proof.
  unfold valid_type.
  destruct (String.eqb_spec document_type "policy"); [now left; left |].
  destruct (String.eqb_spec document_type "regulatory"); [now left; right |].
  now right.
Qed.

Lemma load_documents_unknown_type (env : Env) (document_type : string)
      (w : World) :
  document_type <> "policy" -> document_type <> "regulatory" ->
  load_documents env document_type w = (w, Raise type_error).
Proof.
  intros Hp Hr.
  apply String.eqb_neq in Hp. apply String.eqb_neq in Hr.
  unfold load_documents, type_error. run_monad. rewrite Hp, Hr. reflexivity.
Qed.

Lemma split_documents_unknown_type (env : Env) (document_type : string)
      (chunk_size chunk_overlap : Z) (w : World) :
  document_type <> "policy" -> document_type <> "regulatory" ->
  split_documents env document_type chunk_size chunk_overlap w
  = (w, Raise type_error).
Proof.
  intros Hp Hr.
  apply String.eqb_neq in Hp. apply String.eqb_neq in Hr.
  unfold split_documents, type_error. run_monad. rewrite Hp, Hr. reflexivity.
Qed.

Lemma create_vector_store_unknown_type (env : Env) (document_type : string)
      (chunks : option (list Document)) (w : World) :
  document_type <> "policy" -> document_type <> "regulatory" ->
  match embeddings (self w) with
  | Some _ => create_vector_store env document_type chunks w = (w, Raise type_error)
  | None =>
      snd (create_vector_store env document_type chunks w) = Ok None
      /\ self (fst (create_vector_store env document_type chunks w)) = self w
      /\ fs (fst (create_vector_store env document_type chunks w)) = fs w
  end.
Proof.
  intros Hp Hr.
  apply String.eqb_neq in Hp. apply String.eqb_neq in Hr.
  unfold create_vector_store, type_error. run_monad.
  destruct (embeddings (self w)); [rewrite Hp, Hr; reflexivity | repeat split].
Qed.

(** C10, as stated, fails for [create_vector_store]: with the embedding
    backend unavailable the availability guard comes first, and a call with
    an unknown category returns [None] instead of raising [ValueError]. *)
Lemma create_vector_store_unknown_type_returns_none :
  embeddings (self (Sample.fresh Sample.env_offline Sample.fs_both)) = None
  /\ snd (create_vector_store Sample.env_offline "contract" None
            (Sample.fresh Sample.env_offline Sample.fs_both))
     = Ok None
  /\ forall msg,
      snd (create_vector_store Sample.env_offline "contract" None
             (Sample.fresh Sample.env_offline Sample.fs_both))
      <> Raise (ValueError msg).
Proof.
  split; [reflexivity |]. split; [reflexivity |].
  intros msg. vm_compute. discriminate.
Qed.

(** C10, amended.  For a category other than 'policy' and 'regulatory':
    [load_documents] and [split_documents] raise [ValueError] and leave the
    world untouched; [create_vector_store] does the same when the embedding
    backend is available, and otherwise returns [None] after its
    availability message; in every case the two collections and the two
    indexes (the whole instance) and the directories are unchanged. *)
Theorem unknown_type_changes_nothing (env : Env) (document_type : string)
        (chunk_size chunk_overlap : Z) (chunks : option (list Document))
        (w : World) :
  document_type <> "policy" -> document_type <> "regulatory" ->
  load_documents env document_type w = (w, Raise type_error)
  /\ split_documents env document_type chunk_size chunk_overlap w
     = (w, Raise type_error)
  /\ (forall emb, embeddings (self w) = Some emb ->
                  create_vector_store env document_type chunks w
                  = (w, Raise type_error))
  /\ (embeddings (self w) = None ->
      snd (create_vector_store env document_type chunks w) = Ok None
      /\ self (fst (create_vector_store env document_type chunks w)) = self w
      /\ fs (fst (create_vector_store env document_type chunks w)) = fs w).
Proof.
  intros Hp Hr.
  split; [now apply load_documents_unknown_type |].
  split; [now apply split_documents_unknown_type |].
  pose proof (create_vector_store_unknown_type env chunks w Hp Hr) as Hc.
  split.
  - intros emb He. rewrite He in Hc. exact Hc.
  - intros He. rewrite He in Hc. exact Hc.
Qed.

Lemma unknown_type_changes_nothing_witness :
  "contract" <> "policy" /\ "contract" <> "regulatory"
  /\ load_documents Sample.env "contract" Sample.policy_ready
     = (Sample.policy_ready, Raise type_error)
  /\ split_documents Sample.env "contract" 1000 200 Sample.policy_ready
     = (Sample.policy_ready, Raise type_error).
Proof.
  assert (Hp : "contract" <> "policy") by discriminate.
  assert (Hr : "contract" <> "regulatory") by discriminate.
  split; [exact Hp |]. split; [exact Hr |].
  destruct (unknown_type_changes_nothing Sample.env 1000 200 None
              Sample.policy_ready Hp Hr) as (Hl & Hs & _).
  split; [exact Hl | exact Hs].
Defined.

(** ** The prompt *)

(** The template is the three instruction texts around its two fields, and
    the texts contain no brace: there is no third field. *)
Lemma compliance_template_fields :
  compliance_template
  = template_prefix ++ "{regulatory_context}" ++ template_middle
      ++ "{policy_context}" ++ template_suffix
  /\ brace_free template_prefix = true
  /\ brace_free template_middle = true
  /\ brace_free template_suffix = true.
Proof. repeat split; vm_compute; reflexivity. Qed.

Lemma format_compliance_template (policy_context regulatory_context : string) :
  format compliance_template
         [("policy_context", policy_context);
          ("regulatory_context", regulatory_context)]
  = Ok (template_prefix ++ regulatory_context
          ++ template_middle ++ policy_context ++ template_suffix).
Proof. vm_compute. reflexivity. Qed.

(** ** The report *)

Lemma create_vector_store_ok (env : Env) (document_type : string)
      (chunks : option (list Document)) (w : World) :
  valid_type document_type ->
  exists r, snd (create_vector_store env document_type chunks w) = Ok r.
Proof.
  intros Hv.
  destruct (create_vector_store_spec env chunks w Hv) as [_ H].
  destruct (embeddings (self w)) as [emb |]; [| destruct H; eauto].
  destruct (effective_chunks env document_type chunks (self w));
    [destruct H; eauto |].
  destruct (Chroma_from_documents env _ emb); destruct H; eauto.
Qed.

Lemma rebuild_run (env : Env) (notice document_type : string) (w : World) :
  valid_type document_type ->
  (print notice ;;
   load_documents env document_type ;;
   create_vector_store env document_type None ;;
   ret tt) w
  = (rebuild env notice document_type w, Ok tt).
Proof.
  intros Hv. unfold rebuild, bind at 1.
  destruct (print notice w) as [w0 r0] eqn:Hprint.
  assert (r0 = Ok tt) as -> by (unfold print in Hprint; congruence).
  cbn [fst]. unfold bind at 1.
  destruct (load_documents_spec env w0 Hv) as (Hl & _).
  destruct (load_documents env document_type w0) as [w1 r1].
  cbn [fst snd] in *. subst r1. unfold bind at 1.
  destruct (create_vector_store_ok env None w1 Hv) as [r Hc].
  destruct (create_vector_store env document_type None w1) as [w2 r2].
  cbn [fst snd] in *. subst r2. reflexivity.
Qed.

(** [generate_compliance_report], step by step. *)
Lemma generate_compliance_report_unfold (env : Env) (w : World) :
  let w1 := if truthy_opt (policy_vector_store (self w)) then w
            else rebuild env policy_notice "policy" w in
  let w2 := if truthy_opt (regulatory_vector_store (self w1)) then w1
            else rebuild env regulatory_notice "regulatory" w1 in
  generate_compliance_report env w
  = match policy_vector_store (self w2), regulatory_vector_store (self w2) with
    | Some pvs, Some rvs => analyse env pvs rvs w2
    | _, _ => (fst (print unavailable_notice w2), Ok vector_stores_error)
    end.
Proof.
  intros w1 w2.
  assert (Hvp : valid_type "policy") by now left.
  assert (Hvr : valid_type "regulatory") by now right.
  unfold generate_compliance_report.
  unfold bind at 1. unfold get_self at 1. cbv beta iota.
  unfold bind at 1.
  assert (H1 : (if negb (truthy_opt (policy_vector_store (self w)))
                then print policy_notice ;; load_documents env "policy" ;;
                     create_vector_store env "policy" None ;; ret tt
                else ret tt) w = (w1, Ok tt)).
  { subst w1. destruct (truthy_opt (policy_vector_store (self w))); cbn [negb];
      [reflexivity | now apply rebuild_run]. }
  unfold policy_notice in H1. rewrite H1. clear H1.
  unfold bind at 1. unfold get_self at 1. cbv beta iota.
  unfold bind at 1.
  assert (H2 : (if negb (truthy_opt (regulatory_vector_store (self w1)))
                then print regulatory_notice ;; load_documents env "regulatory" ;;
                     create_vector_store env "regulatory" None ;; ret tt
                else ret tt) w1 = (w2, Ok tt)).
  { subst w2. destruct (truthy_opt (regulatory_vector_store (self w1))); cbn [negb];
      [reflexivity | now apply rebuild_run]. }
  unfold regulatory_notice in H2. rewrite H2. clear H2.
  unfold bind at 1. unfold get_self at 1. cbv beta iota.
  destruct (policy_vector_store (self w2)) as [pvs |];
    destruct (regulatory_vector_store (self w2)) as [rvs |];
    cbn [truthy_opt negb orb]; reflexivity.
Qed.

Lemma analyse_spec (env : Env) (pvs rvs : VectorStore)
      (policy_docs regulatory_docs : list Document) (w : World) :
  get_relevant_documents env pvs "All policy documents" = Ok policy_docs ->
  get_relevant_documents env rvs "All regulatory documents" = Ok regulatory_docs ->
  snd (analyse env pvs rvs w) = Ok (report_text env policy_docs regulatory_docs)
  /\ self (fst (analyse env pvs rvs w)) = self w
  /\ fs (fst (analyse env pvs rvs w)) = fs w.
Proof.
  intros Hp Hr.
  unfold analyse, report_text, retrieve, setup_compliance_analysis_chain,
    chain_invoke, build_prompt.
  run_monad. rewrite Hp, Hr.
  destruct (Ollama env "llama3.2" (3 # 10)) as [llm | ex];
    cbn [fst snd self fs stdout template]; [| repeat split].
  rewrite format_compliance_template.
  destruct (llm_invoke env llm _); cbn [fst snd self fs stdout]; repeat split.
Qed.

Lemma generate_ready (env : Env) (w : World) (pvs rvs : VectorStore) :
  policy_vector_store (self w) = Some pvs ->
  regulatory_vector_store (self w) = Some rvs ->
  generate_compliance_report env w = analyse env pvs rvs w.
Proof.
  intros Hp Hr. rewrite generate_compliance_report_unfold.
  rewrite Hp. cbn [truthy_opt]. rewrite Hr. cbn [truthy_opt].
  rewrite Hp, Hr. reflexivity.
Qed.

(** C9. The prompt is a function of the two retrieved chunk-text sequences
    alone.  The template declares exactly the two variables
    [regulatory_context] and [policy_context]; it is three brace-free
    instruction texts around those two fields; and with both indexes present
    and the model constructed, the text sent to the model is the template
    with the regulatory field replaced by the space-join of the regulatory
    chunk texts and the policy field by the space-join of the policy chunk
    texts: the caller gets the model's answer to exactly that text. *)
Theorem prompt_is_template_over_two_contexts (env : Env) (w : World)
        (pvs rvs : VectorStore) (policy_docs regulatory_docs : list Document)
        (llm : LLM) :
  policy_vector_store (self w) = Some pvs ->
  regulatory_vector_store (self w) = Some rvs ->
  get_relevant_documents env pvs "All policy documents" = Ok policy_docs ->
  get_relevant_documents env rvs "All regulatory documents" = Ok regulatory_docs ->
  Ollama env "llama3.2" (3 # 10) = Ok llm ->
  let policy_context := join " " (map page_content policy_docs) in
  let regulatory_context := join " " (map page_content regulatory_docs) in
  let prompt_text := template_prefix ++ regulatory_context
                       ++ template_middle ++ policy_context ++ template_suffix in
  snd (setup_compliance_analysis_chain env w)
  = Ok (Some (mkPromptTemplate compliance_template
                               ["regulatory_context"; "policy_context"]),
        Some llm)
  /\ compliance_template
     = template_prefix ++ "{regulatory_context}" ++ template_middle
         ++ "{policy_context}" ++ template_suffix
  /\ brace_free template_prefix = true
  /\ brace_free template_middle = true
  /\ brace_free template_suffix = true
  /\ format compliance_template
            [("policy_context", policy_context);
             ("regulatory_context", regulatory_context)]
     = Ok prompt_text
  /\ snd (generate_compliance_report env w)
     = match llm_invoke env llm prompt_text with
       | Ok report => Ok report
       | Raise ex => Ok ("Error generating compliance report: " ++ str_of_exn ex)
       end.
Proof.
  intros Hp Hr Hpd Hrd Hllm policy_context regulatory_context prompt_text.
  destruct compliance_template_fields as (Ht & Hb1 & Hb2 & Hb3).
  split.
  { unfold setup_compliance_analysis_chain. run_monad. rewrite Hllm. reflexivity. }
  split; [exact Ht |].
  split; [exact Hb1 |]. split; [exact Hb2 |]. split; [exact Hb3 |].
  split; [apply format_compliance_template |].
  rewrite (@generate_ready env w pvs rvs Hp Hr).
  destruct (@analyse_spec env pvs rvs policy_docs regulatory_docs w Hpd Hrd) as (Hs & _).
  rewrite Hs. unfold report_text. rewrite Hllm.
  fold policy_context regulatory_context.
  unfold build_prompt. fold policy_context regulatory_context. fold prompt_text.
  destruct (llm_invoke env llm prompt_text); reflexivity.
Qed.

Lemma prompt_is_template_over_two_contexts_witness :
  policy_vector_store (self (Sample.both_ready Sample.env))
  = Some Sample.policy_index
  /\ regulatory_vector_store (self (Sample.both_ready Sample.env))
     = Some Sample.regulatory_index
  /\ snd (generate_compliance_report Sample.env (Sample.both_ready Sample.env))
     = Ok "I. Document Type: Regulation".
Proof.
  assert (Hp : policy_vector_store (self (Sample.both_ready Sample.env))
               = Some Sample.policy_index) by (vm_compute; reflexivity).
  assert (Hr : regulatory_vector_store (self (Sample.both_ready Sample.env))
               = Some Sample.regulatory_index) by (vm_compute; reflexivity).
  split; [exact Hp |]. split; [exact Hr |].
  destruct (@prompt_is_template_over_two_contexts
              Sample.env (Sample.both_ready Sample.env)
              Sample.policy_index Sample.regulatory_index
              (Sample.retrieved Sample.policy_index)
              (Sample.retrieved Sample.regulatory_index)
              (mkLLM "llama3.2" (3 # 10))
              Hp Hr eq_refl eq_refl eq_refl)
    as (_ & _ & _ & _ & _ & _ & H).
  exact H.
Defined.

(** C6. Once both contexts are retrieved, [generate_compliance_report]
    returns a string whatever the generation backend does, and leaves the
    instance as it was: if the model cannot be constructed the report is the
    chain-initialisation error text; if the model call raises, the report is
    the generation error text carrying the exception's message; otherwise it
    is the model's answer. *)
Theorem generation_failure_becomes_report (env : Env) (w : World)
        (pvs rvs : VectorStore) (policy_docs regulatory_docs : list Document) :
  policy_vector_store (self w) = Some pvs ->
  regulatory_vector_store (self w) = Some rvs ->
  get_relevant_documents env pvs "All policy documents" = Ok policy_docs ->
  get_relevant_documents env rvs "All regulatory documents" = Ok regulatory_docs ->
  let prompt_text := build_prompt (map page_content policy_docs)
                                  (map page_content regulatory_docs) in
  exists report,
    snd (generate_compliance_report env w) = Ok report
    /\ self (fst (generate_compliance_report env w)) = self w
    /\ (forall ex, Ollama env "llama3.2" (3 # 10) = Raise ex ->
                   report = chain_error)
    /\ (forall llm ex,
           Ollama env "llama3.2" (3 # 10) = Ok llm ->
           llm_invoke env llm prompt_text = Raise ex ->
           report = "Error generating compliance report: " ++ str_of_exn ex)
    /\ (forall llm answer,
           Ollama env "llama3.2" (3 # 10) = Ok llm ->
           llm_invoke env llm prompt_text = Ok answer ->
           report = answer).
Proof.
  intros Hp Hr Hpd Hrd prompt_text.
  rewrite (@generate_ready env w pvs rvs Hp Hr).
  destruct (@analyse_spec env pvs rvs policy_docs regulatory_docs w Hpd Hrd)
    as (Hs & Hself & _).
  exists (report_text env policy_docs regulatory_docs).
  split; [exact Hs |]. split; [exact Hself |].
  unfold report_text. fold prompt_text.
  repeat split.
  - intros ex ->. reflexivity.
  - intros llm ex -> ->. reflexivity.
  - intros llm answer -> ->. reflexivity.
Qed.

Lemma generation_failure_becomes_report_witness :
  policy_vector_store (self (Sample.both_ready Sample.env)) <> None
  /\ regulatory_vector_store (self (Sample.both_ready Sample.env)) <> None
  /\ snd (generate_compliance_report Sample.env_call_fails
                                     (Sample.both_ready Sample.env))
     = Ok "Error generating compliance report: connection refused"
  /\ snd (generate_compliance_report Sample.env_no_model
                                     (Sample.both_ready Sample.env))
     = Ok chain_error.
Proof.
  assert (Hp : policy_vector_store (self (Sample.both_ready Sample.env))
               = Some Sample.policy_index) by (vm_compute; reflexivity).
  assert (Hr : regulatory_vector_store (self (Sample.both_ready Sample.env))
               = Some Sample.regulatory_index) by (vm_compute; reflexivity).
  split; [rewrite Hp; discriminate |]. split; [rewrite Hr; discriminate |]. split.
  - destruct (@generation_failure_becomes_report
                Sample.env_call_fails (Sample.both_ready Sample.env)
                Sample.policy_index Sample.regulatory_index
                (Sample.retrieved Sample.policy_index)
                (Sample.retrieved Sample.regulatory_index)
                Hp Hr eq_refl eq_refl)
      as (report & Hs & _ & _ & Hcall & _).
    rewrite Hs. f_equal.
    exact (Hcall (mkLLM "llama3.2" (3 # 10)) (Error "connection refused")
                 eq_refl eq_refl).
  - destruct (@generation_failure_becomes_report
                Sample.env_no_model (Sample.both_ready Sample.env)
                Sample.policy_index Sample.regulatory_index
                (Sample.retrieved Sample.policy_index)
                (Sample.retrieved Sample.regulatory_index)
                Hp Hr eq_refl eq_refl)
      as (report & Hs & _ & Hinit & _).
    rewrite Hs. f_equal.
    exact (Hinit (Error "model 'llama3.2' not found") eq_refl).
Defined.

Lemma create_vector_store_stdout (env : Env) (document_type : string)
      (w : World) :
  valid_type document_type ->
  exists out,
    stdout (fst (create_vector_store env document_type None w))
    = (stdout w ++ out)%list.
Proof.
  intros Hv. destruct Hv as [-> | ->].
  all: unfold create_vector_store, split_documents, RecursiveCharacterTextSplitter;
    run_monad; cbn [Z.gtb Z.compare Pos.compare Pos.compare_cont];
    cbn [String.eqb Ascii.eqb Bool.eqb fst snd].
  all: destruct (embeddings (self w)) as [emb |];
    [| cbn; eexists; reflexivity].
  all: match goal with
       | |- context [truthy_list ?ds] => destruct ds as [| d ds']
       end; cbn [truthy_list negb fst snd self fs stdout].
  all: try (eexists; rewrite <- !app_assoc; reflexivity).
  all: match goal with
       | |- context [text_splitter_split_documents ?en 1000 200 ?ds] =>
           destruct (text_splitter_split_documents en 1000 200 ds) as [| c cs']
       end; cbn [truthy_list negb fst snd self fs stdout].
  all: try (eexists; rewrite <- !app_assoc; reflexivity).
  all: destruct (Chroma_from_documents env (c :: cs') emb);
    cbn [fst snd self fs stdout]; eexists; rewrite <- !app_assoc; reflexivity.
Qed.

(** ** The degraded path *)

(** C2, as stated, fails in one particular: the returned text does not name
    a side.  The run whose regulatory side is deficient and the run whose
    policy side is deficient (the regulatory index being present) return the
    same string, so nothing read off the returned string tells them apart. *)
Lemma degraded_report_names_no_side :
  regulatory_vector_store (self Sample.regulatory_ready) <> None
  /\ snd (generate_compliance_report Sample.env Sample.policy_ready)
     = Ok vector_stores_error
  /\ snd (generate_compliance_report Sample.env Sample.regulatory_ready)
     = Ok vector_stores_error
  /\ ~ (exists side_named : string -> string,
           (forall report,
               snd (generate_compliance_report Sample.env Sample.policy_ready)
               = Ok report -> side_named report = "regulatory")
           /\ (forall report,
                  snd (generate_compliance_report Sample.env Sample.regulatory_ready)
                  = Ok report -> side_named report = "policy")).
Proof.
  assert (Ha : snd (generate_compliance_report Sample.env Sample.policy_ready)
               = Ok vector_stores_error) by (vm_compute; reflexivity).
  assert (Hb : snd (generate_compliance_report Sample.env Sample.regulatory_ready)
               = Ok vector_stores_error) by (vm_compute; reflexivity).
  split; [vm_compute; discriminate |].
  split; [exact Ha |]. split; [exact Hb |].
  intros (side_named & Hreg & Hpol).
  specialize (Hreg _ Ha). specialize (Hpol _ Hb).
  rewrite Hreg in Hpol. discriminate.
Qed.

(** C2, amended.  With the policy index present, the regulatory index
    missing and no record loadable from the regulatory folder,
    [generate_compliance_report] announces the regulatory rebuild on the
    console, reloads (the folder exists afterwards and the regulatory
    collection is empty), still has no regulatory index, and returns without
    raising the fixed error text that asks for both sides; the policy index
    is untouched.  Only the console names the regulatory side. *)
Theorem missing_regulatory_side_degrades (env : Env) (w : World)
        (pvs : VectorStore) :
  policy_vector_store (self w) = Some pvs ->
  regulatory_vector_store (self w) = None ->
  flat_map (documents_of env (regulatory_documents_folder (self w)))
           (os_listdir (fs w) (regulatory_documents_folder (self w))) = [] ->
  let w' := fst (generate_compliance_report env w) in
  snd (generate_compliance_report env w) = Ok vector_stores_error
  /\ policy_vector_store (self w') = Some pvs
  /\ regulatory_vector_store (self w') = None
  /\ regulatory_documents (self w') = []
  /\ os_path_exists (fs w') (regulatory_documents_folder (self w)) = true
  /\ exists out,
      stdout w'
      = (stdout w ++ [regulatory_notice] ++ out ++ [unavailable_notice])%list.
Proof.
  intros Hp Hr Hempty w'. subst w'.
  assert (Hv : valid_type "regulatory") by now right.
  rewrite generate_compliance_report_unfold.
  rewrite Hp. cbn [truthy_opt]. rewrite Hr. cbn [truthy_opt].
  unfold rebuild.
  set (w0 := fst (print regulatory_notice w)).
  assert (Hw0 : self w0 = self w /\ fs w0 = fs w
                /\ stdout w0 = (stdout w ++ [regulatory_notice])%list)
    by (repeat split).
  destruct Hw0 as (Hs0 & Hf0 & Ho0).
  destruct (load_documents_spec env w0 Hv) as (_ & Hs1 & Hf1 & out1 & Ho1).
  set (w1 := fst (load_documents env "regulatory" w0)) in *.
  unfold folder_of in Hs1, Hf1. cbn [String.eqb Ascii.eqb Bool.eqb] in Hs1, Hf1.
  rewrite Hs0, Hf0 in Hs1. rewrite Hempty in Hs1.
  rewrite Hs0, Hf0 in Hf1. cbn [ref_of String.eqb Ascii.eqb Bool.eqb] in Hs1.
  destruct (create_vector_store_spec env None w1 Hv) as (Hf2 & Hc).
  destruct (create_vector_store_stdout env w1 Hv) as (out2 & Ho2).
  set (w2 := fst (create_vector_store env "regulatory" None w1)) in *.
  assert (Hs2 : self w2 = self w1).
  { destruct (embeddings (self w1)); [| apply Hc].
    unfold effective_chunks, documents in Hc.
    assert (Hd : deref (ref_of "regulatory") (self w1) = [])
      by (rewrite Hs1; reflexivity).
    rewrite Hd in Hc. apply Hc. }
  assert (Hpol : policy_vector_store (self w2) = Some pvs)
    by (rewrite Hs2, Hs1; exact Hp).
  assert (Hreg : regulatory_vector_store (self w2) = None)
    by (rewrite Hs2, Hs1; exact Hr).
  rewrite Hpol, Hreg. cbn [fst snd self fs stdout print].
  split; [reflexivity |].
  split; [exact Hpol |]. split; [exact Hreg |].
  split; [rewrite Hs2, Hs1; reflexivity |].
  split; [rewrite Hf2, Hf1; apply os_makedirs_exists |].
  exists (out1 ++ out2)%list.
  rewrite Ho2, Ho1, Ho0, <- !app_assoc. reflexivity.
Qed.

Lemma missing_regulatory_side_degrades_witness :
  policy_vector_store (self Sample.policy_ready) <> None
  /\ regulatory_vector_store (self Sample.policy_ready) = None
  /\ snd (generate_compliance_report Sample.env Sample.policy_ready)
     = Ok vector_stores_error
  /\ regulatory_vector_store
       (self (fst (generate_compliance_report Sample.env Sample.policy_ready)))
     = None.
Proof.
  assert (Hp : policy_vector_store (self Sample.policy_ready)
               = Some (Sample.index_of (policy_vector_store (self Sample.policy_ready))))
    by (vm_compute; reflexivity).
  assert (Hr : regulatory_vector_store (self Sample.policy_ready) = None)
    by (vm_compute; reflexivity).
  assert (He : flat_map
                 (documents_of Sample.env
                    (regulatory_documents_folder (self Sample.policy_ready)))
                 (os_listdir (fs Sample.policy_ready)
                    (regulatory_documents_folder (self Sample.policy_ready))) = [])
    by (vm_compute; reflexivity).
  split; [rewrite Hp; discriminate |]. split; [exact Hr |].
  destruct (missing_regulatory_side_degrades Sample.env Sample.policy_ready Hp Hr He)
    as (Hs & _ & Hn & _).
  split; [exact Hs | exact Hn].
Defined.

(** ** Facts used further on *)

Lemma pages_from_source (file_path : string) (texts : list string) :
  forall i d, In d (pages_from file_path i texts) -> source d = file_path.
Proof.
  induction texts as [| t rest IH]; intros i d; cbn; [tauto |].
  intros [<- | Hin]; [reflexivity | eauto].
Qed.

Lemma Chroma_from_documents_holds (env : Env) (cs : list Document)
      (emb : Embeddings) (vs : VectorStore) :
  Chroma_from_documents env cs emb = Ok vs -> vs_documents vs = cs.
Proof.
  unfold Chroma_from_documents.
  destruct (embed_documents env emb (map page_content cs));
    [intros [= <-]; reflexivity | discriminate].
Qed.

Lemma analyse_self (env : Env) (pvs rvs : VectorStore) (w : World) :
  self (fst (analyse env pvs rvs w)) = self w.
Proof.
  unfold analyse, retrieve, setup_compliance_analysis_chain, chain_invoke.
  run_monad.
  destruct (get_relevant_documents env pvs "All policy documents");
    [| reflexivity].
  destruct (get_relevant_documents env rvs "All regulatory documents");
    [| reflexivity].
  destruct (Ollama env "llama3.2" (3 # 10)) as [llm | ex];
    cbn [fst snd self fs stdout template]; [| reflexivity].
  rewrite format_compliance_template.
  destruct (llm_invoke env llm _); reflexivity.
Qed.

(** * Further properties of the loader, the chunker and the indexer *)

Lemma string_length_app (a b : string) :
  String.length (a ++ b) = (String.length a + String.length b)%nat.
Proof. induction a as [| c a IH]; cbn; [reflexivity | now rewrite IH]. Qed.

Lemma substring_all (b : string) : substring 0 (String.length b) b = b.
Proof. induction b as [| c b IH]; cbn; [reflexivity | now rewrite IH]. Qed.

Lemma substring_app_suffix (a b : string) :
  substring (String.length a) (String.length b) (a ++ b) = b.
Proof. induction a as [| c a IH]; cbn; [apply substring_all | exact IH]. Qed.

Lemma endswith_app (a b : string) : endswith (a ++ b) b = true.
Proof.
  unfold endswith. rewrite string_length_app.
  replace (String.length a + String.length b - String.length b)%nat
    with (String.length a) by lia.
  rewrite substring_app_suffix, String.eqb_refl, andb_true_r.
  apply Nat.leb_le. lia.
Qed.

Lemma lower_app (a b : string) : lower (a ++ b) = lower a ++ lower b.
Proof. induction a as [| c a IH]; cbn; [reflexivity | now rewrite IH]. Qed.

(** Making one directory and the recorded listing of another.  The map
    records the directories the tool lists, which in the script are the two
    sibling document folders; neither holds the other, so making one leaves
    the listing of the other as it was. *)
Lemma fs_lookup_makedirs_other (fs0 : FS) (made path : string) :
  path <> made -> fs_lookup (os_makedirs fs0 made) path = fs_lookup fs0 path.
Proof.
  intros Hne. unfold os_makedirs.
  destruct (os_path_exists fs0 made); [reflexivity |].
  cbn. destruct (String.eqb_spec made path); [congruence | reflexivity].
Qed.

Lemma fs_lookup_makedirs_kept (fs0 : FS) (made path : string)
      (entries : list Entry) :
  fs_lookup fs0 path = Some entries ->
  fs_lookup (os_makedirs fs0 made) path = Some entries.
Proof.
  intros Hl. destruct (String.eqb_spec path made) as [-> | Hne].
  - unfold os_makedirs, os_path_exists. rewrite Hl. cbn. exact Hl.
  - rewrite fs_lookup_makedirs_other; assumption.
Qed.

Lemma os_listdir_makedirs_any (fs0 : FS) (made path : string) :
  os_listdir (os_makedirs fs0 made) path = os_listdir fs0 path.
Proof.
  destruct (String.eqb_spec path made) as [-> | Hne].
  - apply os_listdir_makedirs.
  - unfold os_listdir. now rewrite fs_lookup_makedirs_other.
Qed.

Lemma os_makedirs_keeps_existing (fs0 : FS) (made path : string) :
  os_path_exists fs0 path = true ->
  os_path_exists (os_makedirs fs0 made) path = true.
Proof.
  unfold os_path_exists at 1.
  destruct (fs_lookup fs0 path) as [entries |] eqn:Hl; [| discriminate].
  intros _. unfold os_path_exists.
  now rewrite (fs_lookup_makedirs_kept _ made _ Hl).
Qed.

Lemma os_makedirs_existing (fs0 : FS) (path : string) :
  os_path_exists fs0 path = true -> os_makedirs fs0 path = fs0.
Proof. unfold os_makedirs. now intros ->. Qed.

(** X1. [load_documents] for one category touches nothing of the instance
    but that category's collection: the other collection, both index
    attributes (a store set earlier stays set, whatever the folder now
    holds) and the embedding handle are unchanged; and when the category's
    folder exists the directories are left exactly as they were. *)
Theorem load_documents_frame (env : Env) (document_type : string) (w : World) :
  valid_type document_type ->
  let w' := fst (load_documents env document_type w) in
  documents (other_type document_type) (self w')
  = documents (other_type document_type) (self w)
  /\ policy_vector_store (self w') = policy_vector_store (self w)
  /\ regulatory_vector_store (self w') = regulatory_vector_store (self w)
  /\ embeddings (self w') = embeddings (self w)
  /\ (os_path_exists (fs w) (folder_of document_type (self w)) = true ->
      fs w' = fs w).
Proof.
  intros Hv w'. subst w'.
  destruct (load_documents_spec env w Hv) as (_ & Hs & Hf & _).
  rewrite Hs, Hf.
  split; [destruct Hv as [-> | ->]; reflexivity |].
  split; [destruct Hv as [-> | ->]; reflexivity |].
  split; [destruct Hv as [-> | ->]; reflexivity |].
  split; [destruct Hv as [-> | ->]; reflexivity |].
  apply os_makedirs_existing.
Qed.

Lemma load_documents_frame_witness :
  valid_type "regulatory"
  /\ policy_vector_store
       (self (fst (load_documents Sample.env "regulatory" Sample.policy_ready)))
     = policy_vector_store (self Sample.policy_ready)
  /\ documents (other_type "regulatory")
       (self (fst (load_documents Sample.env "regulatory" Sample.policy_ready)))
     = documents (other_type "regulatory") (self Sample.policy_ready).
Proof.
  assert (Hv : valid_type "regulatory") by (right; reflexivity).
  split; [exact Hv |].
  destruct (load_documents_frame Sample.env Sample.policy_ready Hv)
    as (Hd & Hp & _).
  split; [exact Hp | exact Hd].
Defined.

Lemma is_pdf_file_any_case (e : Entry) (stem ext : string) :
  e_isfile e = true -> e_name e = stem ++ ext -> lower ext = ".pdf" ->
  is_pdf_file e = true.
Proof.
  intros Hf Hn Hx. unfold is_pdf_file.
  rewrite Hf, Hn, lower_app, Hx, endswith_app. reflexivity.
Qed.

Lemma pages_from_covers (file_path : string) (texts : list string) :
  forall i t, In t texts ->
              exists d, In d (pages_from file_path i texts)
                        /\ page_content d = t /\ source d = file_path.
Proof.
  induction texts as [| t0 rest IH]; intros i t; cbn; [tauto |].
  intros [<- | Hin].
  - eexists. split; [left; reflexivity | split; reflexivity].
  - destruct (IH (i + 1) t Hin) as (d & Hd & Hc & Hs).
    exists d. split; [right; exact Hd | split; assumption].
Qed.

(** X2. The extension test is case-insensitive: a regular file of the
    folder whose name ends in [.pdf] in any mix of letter cases, and whose
    extraction succeeds, has every one of its pages in the collection after
    [load_documents], tagged with the file's path. *)
Theorem load_documents_any_case (env : Env) (document_type : string)
        (w : World) (e : Entry) (stem ext : string) (texts : list string) :
  valid_type document_type ->
  In e (os_listdir (fs w) (folder_of document_type (self w))) ->
  e_isfile e = true ->
  e_name e = stem ++ ext ->
  lower ext = ".pdf" ->
  e_pdf e = Ok texts ->
  forall t, In t texts ->
    exists d,
      In d (documents document_type (self (fst (load_documents env document_type w))))
      /\ page_content d = t
      /\ source d = os_path_join env (folder_of document_type (self w)) (e_name e).
Proof.
  intros Hv Hin Hf Hn Hx Hload t Ht.
  destruct (load_documents_spec env w Hv) as (_ & Hs & _).
  rewrite Hs. unfold documents. rewrite deref_assign.
  destruct (pages_from_covers
              (os_path_join env (folder_of document_type (self w)) (e_name e))
              texts 0 t Ht) as (d & Hd & Hc & Hsrc).
  exists d. split; [| split; assumption].
  apply in_flat_map. exists e. split; [exact Hin |].
  unfold documents_of, PyPDFLoader_load.
  rewrite (is_pdf_file_any_case e stem ext Hf Hn Hx), Hload. exact Hd.
Qed.

Lemma load_documents_any_case_witness :
  exists d,
    In d (documents "policy"
            (self (fst (load_documents Sample.env "policy"
                          (Sample.fresh Sample.env Sample.fs_both)))))
    /\ page_content d = "page two"
    /\ source d = "policy_documents\Handbook.PDF".
Proof.
  apply (@load_documents_any_case Sample.env "policy"
           (Sample.fresh Sample.env Sample.fs_both)
           (mkEntry "Handbook.PDF" true (Ok ["page one"; "page two"; "page three"]))
           "Handbook" ".PDF" ["page one"; "page two"; "page three"]).
  - left; reflexivity.
  - left; reflexivity.
  - reflexivity.
  - reflexivity.
  - reflexivity.
  - reflexivity.
  - right; left; reflexivity.
Defined.

(** X3. Every record [load_documents] leaves in the collection comes from
    an entry of the folder's listing that is a regular file with a [.pdf]
    name whose extraction succeeded: directories, other names and
    unreadable files contribute nothing. *)
Theorem load_documents_only_pdf_files (env : Env) (document_type : string)
        (w : World) (d : Document) :
  valid_type document_type ->
  In d (documents document_type (self (fst (load_documents env document_type w)))) ->
  exists e texts,
    In e (os_listdir (fs w) (folder_of document_type (self w)))
    /\ e_isfile e = true
    /\ endswith (lower (e_name e)) ".pdf" = true
    /\ e_pdf e = Ok texts
    /\ In (page_content d) texts
    /\ source d = os_path_join env (folder_of document_type (self w)) (e_name e).
Proof.
  intros Hv Hin.
  destruct (load_documents_spec env w Hv) as (_ & Hs & _).
  rewrite Hs in Hin. unfold documents in Hin. rewrite deref_assign in Hin.
  apply in_flat_map in Hin. destruct Hin as (e & He & Hd).
  unfold documents_of, PyPDFLoader_load, is_pdf_file in Hd.
  destruct (e_isfile e) eqn:Hf; [| destruct Hd].
  destruct (endswith (lower (e_name e)) ".pdf") eqn:Hx; [| destruct Hd].
  cbn [andb] in Hd.
  destruct (e_pdf e) as [texts | ex] eqn:Hload; [| destruct Hd].
  exists e, texts. repeat split; try assumption.
  - clear - Hd. revert Hd. generalize 0.
    induction texts as [| t rest IH]; intros i; cbn; [tauto |].
    intros [<- | Hd]; [left; reflexivity | right; eauto].
  - eapply pages_from_source; eassumption.
Qed.

Lemma load_documents_only_pdf_files_witness :
  exists e texts,
    In e (os_listdir (fs (Sample.fresh Sample.env Sample.fs_both)) "policy_documents")
    /\ e_isfile e = true
    /\ endswith (lower (e_name e)) ".pdf" = true
    /\ e_pdf e = Ok texts
    /\ In "leave policy" texts
    /\ "policy_documents\leave.pdf" = Sample.path_join "policy_documents" (e_name e).
Proof.
  apply (@load_documents_only_pdf_files Sample.env "policy"
           (Sample.fresh Sample.env Sample.fs_both)
           (mkDocument "leave policy" "policy_documents\leave.pdf" 0)).
  - left; reflexivity.
  - vm_compute. tauto.
Defined.

(** ** What no call changes *)

Lemma evolves_refl (t : Tool) : evolves t t.
Proof. unfold evolves, index_step. repeat split; now left. Qed.

Lemma index_step_trans (t t' : Tool) (a b c : option VectorStore) :
  embeddings t' = embeddings t ->
  index_step t a b -> index_step t' b c -> index_step t a c.
Proof.
  intros He Hab Hbc. unfold index_step in *.
  destruct Hbc as [-> | (vs & -> & Hn & Hd)]; [exact Hab |].
  right. exists vs. rewrite He in Hn. repeat split; assumption.
Qed.

Lemma evolves_trans (t t' t'' : Tool) :
  evolves t t' -> evolves t' t'' -> evolves t t''.
Proof.
  intros (Hp & Hr & He & Hip & Hir) (Hp' & Hr' & He' & Hip' & Hir').
  unfold evolves. rewrite Hp', Hr', He'.
  repeat split; try assumption; eapply index_step_trans; eassumption.
Qed.

Lemma assign_evolves (r : list_ref) (ds : list Document) (t : Tool) :
  evolves t (assign r ds t).
Proof. destruct r; unfold evolves, index_step; cbn; repeat split; now left. Qed.

Lemma load_documents_evolves (env : Env) (document_type : string) (w : World) :
  evolves (self w) (self (fst (load_documents env document_type w))).
Proof.
  destruct (type_cases document_type) as [Hv | [Hp Hr]].
  - destruct (load_documents_spec env w Hv) as (_ & -> & _).
    apply assign_evolves.
  - rewrite (load_documents_unknown_type env w Hp Hr). apply evolves_refl.
Qed.

Lemma split_documents_self (env : Env) (document_type : string)
      (chunk_size chunk_overlap : Z) (w : World) :
  self (fst (split_documents env document_type chunk_size chunk_overlap w)) = self w
  /\ fs (fst (split_documents env document_type chunk_size chunk_overlap w)) = fs w.
Proof.
  destruct (type_cases document_type) as [Hv | [Hp Hr]].
  - destruct (Z.gtb chunk_overlap chunk_size) eqn:Hgt.
    + destruct (documents document_type (self w)) as [| d ds] eqn:Hd.
      * destruct (@split_documents_empty env document_type chunk_size
                    chunk_overlap w Hv Hd) as (_ & Hs & Hf). split; assumption.
      * rewrite (@split_documents_refused env document_type chunk_size
                   chunk_overlap w Hv); [split; reflexivity | | exact Hgt].
        rewrite Hd. discriminate.
    + destruct (@split_documents_spec env document_type chunk_size chunk_overlap
                  w Hv Hgt) as (_ & Hs & Hf). split; assumption.
  - rewrite (split_documents_unknown_type env chunk_size chunk_overlap w Hp Hr).
    split; reflexivity.
Qed.

Lemma create_vector_store_evolves (env : Env) (document_type : string)
      (chunks : option (list Document)) (w : World) :
  evolves (self w) (self (fst (create_vector_store env document_type chunks w)))
  /\ fs (fst (create_vector_store env document_type chunks w)) = fs w.
Proof.
  destruct (type_cases document_type) as [Hv | [Hp Hr]].
  - destruct (create_vector_store_spec env chunks w Hv) as [Hf H].
    split; [| exact Hf].
    destruct (embeddings (self w)) as [emb |] eqn:He;
      [| destruct H as [_ ->]; apply evolves_refl].
    destruct (effective_chunks env document_type chunks (self w)) as [| c cs'];
      [destruct H as [_ ->]; apply evolves_refl |].
    destruct (Chroma_from_documents env (c :: cs') emb) as [vs | ex] eqn:Hc;
      [| destruct H as [_ ->]; apply evolves_refl].
    destruct H as [_ ->].
    apply Chroma_from_documents_holds in Hc.
    assert (Hstep : forall before, index_step (self w) before (Some vs)).
    { intros before. right. exists vs. rewrite He, Hc.
      repeat split; discriminate. }
    unfold evolves.
    destruct Hv as [-> | ->]; cbn; rewrite ?He;
      repeat split; try apply Hstep; now left.
  - pose proof (create_vector_store_unknown_type env chunks w Hp Hr) as Hc.
    destruct (embeddings (self w)).
    + rewrite Hc. split; [apply evolves_refl | reflexivity].
    + destruct Hc as (_ & -> & ->). split; [apply evolves_refl | reflexivity].
Qed.

Lemma analyse_fs (env : Env) (pvs rvs : VectorStore) (w : World) :
  fs (fst (analyse env pvs rvs w)) = fs w.
Proof.
  unfold analyse, retrieve, setup_compliance_analysis_chain, chain_invoke.
  run_monad.
  destruct (get_relevant_documents env pvs "All policy documents");
    [| reflexivity].
  destruct (get_relevant_documents env rvs "All regulatory documents");
    [| reflexivity].
  destruct (Ollama env "llama3.2" (3 # 10)) as [llm | ex];
    cbn [fst snd self fs stdout template]; [| reflexivity].
  rewrite format_compliance_template.
  destruct (llm_invoke env llm _); reflexivity.
Qed.

Lemma rebuild_evolves (env : Env) (notice document_type : string) (w : World) :
  evolves (self w) (self (rebuild env notice document_type w)).
Proof.
  unfold rebuild.
  eapply evolves_trans; [| apply create_vector_store_evolves].
  exact (load_documents_evolves env document_type (fst (print notice w))).
Qed.

Lemma generate_compliance_report_end (env : Env) (w2 : World) :
  self (fst (match policy_vector_store (self w2),
                   regulatory_vector_store (self w2) with
             | Some pvs, Some rvs => analyse env pvs rvs w2
             | _, _ => (fst (print unavailable_notice w2), Ok vector_stores_error)
             end)) = self w2
  /\ fs (fst (match policy_vector_store (self w2),
                    regulatory_vector_store (self w2) with
              | Some pvs, Some rvs => analyse env pvs rvs w2
              | _, _ => (fst (print unavailable_notice w2), Ok vector_stores_error)
              end)) = fs w2.
Proof.
  destruct (policy_vector_store (self w2));
    destruct (regulatory_vector_store (self w2));
    try (split; reflexivity).
  split; [apply analyse_self | apply analyse_fs].
Qed.

Lemma generate_compliance_report_evolves (env : Env) (w : World) :
  evolves (self w) (self (fst (generate_compliance_report env w))).
Proof.
  rewrite generate_compliance_report_unfold.
  set (w1 := if truthy_opt (policy_vector_store (self w)) then w
             else rebuild env policy_notice "policy" w).
  set (w2 := if truthy_opt (regulatory_vector_store (self w1)) then w1
             else rebuild env regulatory_notice "regulatory" w1).
  destruct (generate_compliance_report_end env w2) as [-> _].
  assert (H1 : evolves (self w) (self w1)).
  { subst w1. destruct (truthy_opt (policy_vector_store (self w)));
      [apply evolves_refl | apply rebuild_evolves]. }
  assert (H2 : evolves (self w1) (self w2)).
  { subst w2. destruct (truthy_opt (regulatory_vector_store (self w1)));
      [apply evolves_refl | apply rebuild_evolves]. }
  eapply evolves_trans; eassumption.
Qed.

Lemma step_evolves (env : Env) (o : op) (w : World) :
  evolves (self w) (self (step env o w)).
Proof.
  destruct o as [dt | dt c ov | dt cs | | fs']; cbn [step].
  - apply load_documents_evolves.
  - destruct (split_documents_self env dt c ov w) as [-> _]. apply evolves_refl.
  - apply create_vector_store_evolves.
  - apply generate_compliance_report_evolves.
  - apply evolves_refl.
Qed.

Lemma run_evolves (env : Env) (ops : list op) :
  forall w, evolves (self w) (self (run env ops w)).
Proof.
  induction ops as [| o rest IH]; intros w.
  - apply evolves_refl.
  - unfold run. cbn [fold_left]. fold (run env rest (step env o w)).
    eapply evolves_trans; [apply step_evolves | apply IH].
Qed.

(** X4. No sequence of calls changes the configuration of an instance: the
    two folders and the embedding handle stay what [__init__] made them
    (an instance built without the embedding backend never acquires it). *)
Theorem configuration_is_fixed (env : Env) (ops : list op) (w : World) :
  policy_documents_folder (self (run env ops w)) = policy_documents_folder (self w)
  /\ regulatory_documents_folder (self (run env ops w))
     = regulatory_documents_folder (self w)
  /\ embeddings (self (run env ops w)) = embeddings (self w).
Proof.
  destruct (run_evolves env ops w) as (Hp & Hr & He & _).
  repeat split; assumption.
Qed.

(** X5. When [OllamaEmbeddings] cannot be constructed, the instance never
    has an index, whatever calls follow and whatever chunks they are
    handed. *)
Theorem no_backend_no_index (env : Env) (policy_folder regulatory_folder : string)
        (fs0 : FS) (out0 : list string) (ex : exn) (ops : list op) :
  OllamaEmbeddings env "llama3.2" = Raise ex ->
  let w := run env ops (init env policy_folder regulatory_folder fs0 out0) in
  policy_vector_store (self w) = None /\ regulatory_vector_store (self w) = None.
Proof.
  intros Hinit w. subst w.
  destruct (run_evolves env ops (init env policy_folder regulatory_folder fs0 out0))
    as (_ & _ & _ & Hip & Hir).
  unfold init in *. rewrite Hinit in *. cbn [self policy_vector_store
    regulatory_vector_store embeddings] in Hip, Hir.
  split.
  - destruct Hip as [-> | (vs & _ & Hn & _)]; [reflexivity | now elim Hn].
  - destruct Hir as [-> | (vs & _ & Hn & _)]; [reflexivity | now elim Hn].
Qed.

Lemma no_backend_no_index_witness :
  OllamaEmbeddings Sample.env_offline "llama3.2" = Raise (Error "connection refused")
  /\ policy_vector_store
       (self (run Sample.env_offline Sample.main_calls
                  (Sample.fresh Sample.env_offline Sample.fs_both))) = None.
Proof.
  split; [reflexivity |].
  exact (proj1 (@no_backend_no_index Sample.env_offline "policy_documents"
                  "regulatory_documents" Sample.fs_both []
                  (Error "connection refused") Sample.main_calls eq_refl)).
Defined.

(** X6. Over every sequence of calls on a new instance, an index that
    exists was built from a non-empty list of chunks: there is never an
    empty index, also when the caller hands in the chunks. *)
Theorem index_never_empty (env : Env) (policy_folder regulatory_folder : string)
        (fs0 : FS) (out0 : list string) (ops : list op) (vs : VectorStore) :
  let w := run env ops (init env policy_folder regulatory_folder fs0 out0) in
  policy_vector_store (self w) = Some vs \/ regulatory_vector_store (self w) = Some vs ->
  vs_documents vs <> [].
Proof.
  intros w Hstore. subst w.
  destruct (run_evolves env ops (init env policy_folder regulatory_folder fs0 out0))
    as (_ & _ & _ & Hip & Hir).
  assert (Hp0 : policy_vector_store
                  (self (init env policy_folder regulatory_folder fs0 out0)) = None)
    by (unfold init; destruct (OllamaEmbeddings env "llama3.2"); reflexivity).
  assert (Hr0 : regulatory_vector_store
                  (self (init env policy_folder regulatory_folder fs0 out0)) = None)
    by (unfold init; destruct (OllamaEmbeddings env "llama3.2"); reflexivity).
  rewrite Hp0 in Hip. rewrite Hr0 in Hir.
  destruct Hstore as [Hs | Hs].
  - destruct Hip as [Hnone | (vs' & Hsome & _ & Hd)]; [congruence |].
    rewrite Hs in Hsome. injection Hsome as <-. exact Hd.
  - destruct Hir as [Hnone | (vs' & Hsome & _ & Hd)]; [congruence |].
    rewrite Hs in Hsome. injection Hsome as <-. exact Hd.
Qed.

Lemma index_never_empty_witness :
  vs_documents Sample.policy_index <> [].
Proof.
  apply (@index_never_empty Sample.env "policy_documents" "regulatory_documents"
           Sample.fs_both []
           [Load "policy"; Load "regulatory";
            Create "policy" None; Create "regulatory" None]
           Sample.policy_index).
  left. vm_compute. reflexivity.
Defined.

(** ** The chunker and the indexer, composed *)

(** X7. [split_documents] only reads: for either category and any
    parameters, whether it returns or raises, the instance and the
    directories are as before.  An empty collection gives an empty list
    whatever the parameters.  With records to split, a chunk overlap above
    the chunk size raises the [ValueError] of the splitter's constructor,
    and a positive chunk size with an overlap between 0 and it gives the
    chunks, each carrying the source path and page number of a record of the
    category's collection. *)
Theorem split_documents_reads_only (env : Env) (document_type : string)
        (chunk_size chunk_overlap : Z) (w : World) :
  valid_type document_type ->
  let res := split_documents env document_type chunk_size chunk_overlap w in
  self (fst res) = self w
  /\ fs (fst res) = fs w
  /\ (documents document_type (self w) = [] -> snd res = Ok [])
  /\ (documents document_type (self w) <> [] -> chunk_size < chunk_overlap ->
      exists msg, res = (w, Raise (ValueError msg)))
  /\ (0 < chunk_size -> 0 <= chunk_overlap <= chunk_size ->
      exists chunks,
        snd res = Ok chunks
        /\ forall c, In c chunks ->
                     exists d, In d (documents document_type (self w))
                               /\ source c = source d /\ page c = page d).
Proof.
  intros Hv res. subst res.
  destruct (split_documents_self env document_type chunk_size chunk_overlap w)
    as [Hs Hf].
  split; [exact Hs |]. split; [exact Hf |]. split; [| split].
  - intros Hd.
    apply (@split_documents_empty env document_type chunk_size chunk_overlap w Hv Hd).
  - intros Hd Hlt. eexists.
    apply (@split_documents_refused env document_type chunk_size chunk_overlap w Hv Hd).
    apply Z.gtb_lt. exact Hlt.
  - intros _ [_ Hle].
    assert (Hgt : Z.gtb chunk_overlap chunk_size = false).
    { destruct (Z.gtb chunk_overlap chunk_size) eqn:E; [| reflexivity].
      apply Z.gtb_lt in E. lia. }
    destruct (@split_documents_spec env document_type chunk_size chunk_overlap
                w Hv Hgt) as (Hr & _).
    eexists. split; [exact Hr |].
    intros c Hin. unfold text_splitter_split_documents in Hin.
    apply in_flat_map in Hin. destruct Hin as (d & Hd & Hc).
    apply in_map_iff in Hc. destruct Hc as (t & <- & _).
    exists d. repeat split. exact Hd.
Qed.

Lemma split_documents_reads_only_witness :
  valid_type "policy"
  /\ documents "policy" (self Sample.loaded) <> []
  /\ (exists msg,
         split_documents Sample.env "policy" 100 200 Sample.loaded
         = (Sample.loaded, Raise (ValueError msg)))
  /\ (exists chunks,
         snd (split_documents Sample.env "policy" 1000 200 Sample.loaded)
         = Ok chunks).
Proof.
  assert (Hv : valid_type "policy") by (left; reflexivity).
  assert (Hd : documents "policy" (self Sample.loaded) <> [])
    by (vm_compute; discriminate).
  split; [exact Hv |]. split; [exact Hd |]. split.
  - destruct (@split_documents_reads_only Sample.env "policy" 100 200
                Sample.loaded Hv) as (_ & _ & _ & Hraise & _).
    apply Hraise; [exact Hd | lia].
  - destruct (@split_documents_reads_only Sample.env "policy" 1000 200
                Sample.loaded Hv) as (_ & _ & _ & _ & Hok).
    destruct Hok as (chunks & Hr & _); [lia | lia |].
    exists chunks. exact Hr.
Defined.

Lemma create_vector_store_result (env : Env) (document_type : string)
      (chunks : option (list Document)) (w : World) :
  valid_type document_type ->
  forall emb,
    embeddings (self w) = Some emb ->
    let cs := effective_chunks env document_type chunks (self w) in
    match cs with
    | [] =>
        snd (create_vector_store env document_type chunks w) = Ok None
        /\ self (fst (create_vector_store env document_type chunks w)) = self w
    | _ :: _ =>
        match Chroma_from_documents env cs emb with
        | Ok vs =>
            snd (create_vector_store env document_type chunks w) = Ok (Some vs)
            /\ self (fst (create_vector_store env document_type chunks w))
               = setattr_vector_store (attr_of document_type) (Some vs) (self w)
        | Raise _ =>
            snd (create_vector_store env document_type chunks w) = Ok None
            /\ self (fst (create_vector_store env document_type chunks w)) = self w
        end
    end.
Proof.
  intros Hv emb He cs.
  destruct (create_vector_store_spec env chunks w Hv) as [_ H].
  rewrite He in H. exact H.
Qed.

(** X8. Calling [create_vector_store] without chunks is calling
    [split_documents] with the defaults 1000 and 200 and handing the result
    over: the returned value, the instance and the directories are the same,
    and with the embedding backend available the whole world (console
    included) is the same. *)
Theorem create_vector_store_default_is_split (env : Env) (document_type : string)
        (w : World) :
  valid_type document_type ->
  let split := split_documents env document_type 1000 200 w in
  exists chunks,
    snd split = Ok chunks
    /\ snd (create_vector_store env document_type None w)
       = snd (create_vector_store env document_type (Some chunks) (fst split))
    /\ self (fst (create_vector_store env document_type None w))
       = self (fst (create_vector_store env document_type (Some chunks) (fst split)))
    /\ fs (fst (create_vector_store env document_type None w))
       = fs (fst (create_vector_store env document_type (Some chunks) (fst split)))
    /\ (embeddings (self w) <> None ->
        create_vector_store env document_type None w
        = create_vector_store env document_type (Some chunks) (fst split)).
Proof.
  intros Hv split. subst split.
  destruct (@split_documents_spec env document_type 1000 200 w Hv eq_refl)
    as (Hr & Hs & Hf).
  exists (text_splitter_split_documents env 1000 200 (documents document_type (self w))).
  split; [exact Hr |].
  set (cs := text_splitter_split_documents env 1000 200
               (documents document_type (self w))) in *.
  set (w1 := fst (split_documents env document_type 1000 200 w)) in *.
  destruct (create_vector_store_spec env None w Hv) as [Hf0 H0].
  destruct (create_vector_store_spec env (Some cs) w1 Hv) as [Hf1 H1].
  cbn [effective_chunks] in H0, H1. fold cs in H0. rewrite Hs in H1.
  assert (Hboth : snd (create_vector_store env document_type None w)
                  = snd (create_vector_store env document_type (Some cs) w1)
                  /\ self (fst (create_vector_store env document_type None w))
                     = self (fst (create_vector_store env document_type (Some cs) w1))).
  { destruct (embeddings (self w)) as [emb |].
    - destruct cs as [| c cs'].
      + destruct H0 as [-> ->], H1 as [-> ->]. split; reflexivity.
      + destruct (Chroma_from_documents env (c :: cs') emb);
          destruct H0 as [-> ->], H1 as [-> ->]; split; reflexivity.
    - destruct H0 as [-> ->], H1 as [-> ->]. split; reflexivity. }
  destruct Hboth as [Hres Hself].
  split; [exact Hres |]. split; [exact Hself |].
  split; [rewrite Hf0, Hf1; symmetry; exact Hf |].
  intros Hemb.
  destruct (embeddings (self w)) as [emb |] eqn:He; [| now elim Hemb].
  assert (He1 : embeddings (self w1) = Some emb) by (rewrite Hs; exact He).
  clear - Hv Hr He He1 Hs.
  destruct (split_documents env document_type 1000 200 w) as [w1' r1] eqn:Hsplit.
  cbn [fst snd] in *. subst w1. subst r1.
  unfold create_vector_store. run_monad.
  rewrite He, He1.
  destruct Hv as [-> | ->]; cbn [String.eqb Ascii.eqb Bool.eqb fst snd];
    rewrite Hsplit; reflexivity.
Qed.

Lemma create_vector_store_default_is_split_witness :
  valid_type "policy"
  /\ snd (create_vector_store Sample.env "policy" None Sample.loaded)
     = snd (create_vector_store Sample.env "policy" (Some Sample.policy_chunks)
              (fst (split_documents Sample.env "policy" 1000 200 Sample.loaded))).
Proof.
  assert (Hv : valid_type "policy") by (left; reflexivity).
  split; [exact Hv |].
  destruct (create_vector_store_default_is_split Sample.env Sample.loaded Hv)
    as (chunks & Hr & Hres & _).
  assert (Hc : chunks = Sample.policy_chunks).
  { unfold Sample.policy_chunks. rewrite Hr. reflexivity. }
  rewrite <- Hc. exact Hres.
Defined.

(** ** One collection behind both stores *)

(** C1 (defect of the code).  The two index attributes are kept apart, but
    the chunks are not: [create_vector_store] calls [Chroma.from_documents]
    without a collection name, so both calls feed the process's one default
    collection.  After the two calls the tool's own entry point makes, with
    chunks on both sides and both constructions succeeding, each attribute
    holds its own store object while the collection both stores search
    holds the policy chunks followed by the regulatory chunks. *)
Theorem both_categories_in_one_collection (env : Env) (w : World)
        (emb : Embeddings) (pvs rvs : VectorStore) (collection : list Document) :
  let policy_chunks :=
    text_splitter_split_documents env 1000 200 (policy_documents (self w)) in
  let regulatory_chunks :=
    text_splitter_split_documents env 1000 200 (regulatory_documents (self w)) in
  let calls := [Create "policy" None; Create "regulatory" None] in
  embeddings (self w) = Some emb ->
  policy_chunks <> [] ->
  regulatory_chunks <> [] ->
  Chroma_from_documents env policy_chunks emb = Ok pvs ->
  Chroma_from_documents env regulatory_chunks emb = Ok rvs ->
  policy_vector_store (self (run env calls w)) = Some pvs
  /\ regulatory_vector_store (self (run env calls w)) = Some rvs
  /\ collection_after env calls w collection
     = (collection ++ policy_chunks ++ regulatory_chunks)%list.
Proof.
  intros policy_chunks regulatory_chunks calls He Hpc Hrc Hpi Hri. subst calls.
  unfold run. cbn [fold_left collection_after step step_adds].
  pose proof (@create_vector_store_result env "policy" None w
                (or_introl eq_refl) emb He) as H1.
  cbn [effective_chunks documents ref_of deref String.eqb Ascii.eqb Bool.eqb] in H1.
  fold policy_chunks in H1.
  destruct policy_chunks as [| c cs'] eqn:Epc; [now elim Hpc |].
  rewrite Hpi in H1. destruct H1 as [Hr1 Hs1].
  set (w1 := fst (create_vector_store env "policy" None w)) in *.
  assert (He1 : embeddings (self w1) = Some emb) by (rewrite Hs1; exact He).
  pose proof (@create_vector_store_result env "regulatory" None w1
                (or_intror eq_refl) emb He1) as H2.
  cbn [effective_chunks documents ref_of deref String.eqb Ascii.eqb Bool.eqb] in H2.
  assert (Hd1 : regulatory_documents (self w1) = regulatory_documents (self w))
    by (rewrite Hs1; reflexivity).
  rewrite Hd1 in H2. fold regulatory_chunks in H2.
  destruct regulatory_chunks as [| d ds'] eqn:Erc; [now elim Hrc |].
  rewrite Hri in H2. destruct H2 as [Hr2 Hs2].
  rewrite Hr1, Hr2, Hs2, Hs1. cbn [create_adds].
  rewrite (@Chroma_from_documents_holds env _ _ _ Hpi),
          (@Chroma_from_documents_holds env _ _ _ Hri).
  split; [reflexivity |]. split; [reflexivity |].
  rewrite <- app_assoc. reflexivity.
Qed.

Lemma both_categories_in_one_collection_witness :
  policy_vector_store
    (self (run Sample.env [Create "policy" None; Create "regulatory" None]
               Sample.loaded))
  = Some Sample.policy_index
  /\ regulatory_vector_store
       (self (run Sample.env [Create "policy" None; Create "regulatory" None]
                  Sample.loaded))
     = Some Sample.regulatory_index
  /\ collection_after Sample.env [Create "policy" None; Create "regulatory" None]
                      Sample.loaded []
     = [mkDocument "page one" "policy_documents\Handbook.PDF" 0;
        mkDocument "page two" "policy_documents\Handbook.PDF" 1;
        mkDocument "page three" "policy_documents\Handbook.PDF" 2;
        mkDocument "leave policy" "policy_documents\leave.pdf" 0;
        mkDocument "section 1" "regulatory_documents\act.pdf" 0;
        mkDocument "section 2" "regulatory_documents\act.pdf" 1].
Proof.
  refine (@both_categories_in_one_collection Sample.env Sample.loaded
            (mkEmbeddings "llama3.2") Sample.policy_index Sample.regulatory_index
            [] eq_refl _ _ _ _).
  - vm_compute. discriminate.
  - vm_compute. discriminate.
  - vm_compute. reflexivity.
  - vm_compute. reflexivity.
Defined.

(** ** The lazy rebuild *)

Lemma generate_via_rebuilds (env : Env) (w : World) :
  generate_compliance_report env w
  = match policy_vector_store (self (after_rebuilds env w)),
          regulatory_vector_store (self (after_rebuilds env w)) with
    | Some pvs, Some rvs => analyse env pvs rvs (after_rebuilds env w)
    | _, _ => (fst (print unavailable_notice (after_rebuilds env w)),
               Ok vector_stores_error)
    end.
Proof. exact (generate_compliance_report_unfold env w). Qed.

Lemma sides_of_update (document_type : string) (docs : list Document)
      (v : option VectorStore) (t : Tool) :
  valid_type document_type ->
  let t1 := assign (ref_of document_type) docs t in
  let t2 := setattr_vector_store (attr_of document_type) v t1 in
  (vector_store document_type t1 = vector_store document_type t
   /\ documents document_type t1 = docs
   /\ vector_store (other_type document_type) t1
      = vector_store (other_type document_type) t
   /\ documents (other_type document_type) t1
      = documents (other_type document_type) t)
  /\ (vector_store document_type t2 = v
      /\ documents document_type t2 = docs
      /\ vector_store (other_type document_type) t2
         = vector_store (other_type document_type) t
      /\ documents (other_type document_type) t2
         = documents (other_type document_type) t).
Proof. intros [-> | ->]; repeat split. Qed.

(** What a rebuild leaves, by the outcome of its re-index. *)
Lemma rebuild_cases (env : Env) (notice document_type : string) (w : World) :
  valid_type document_type ->
  let folder := folder_of document_type (self w) in
  let docs := flat_map (documents_of env folder) (os_listdir (fs w) folder) in
  let cs := text_splitter_split_documents env 1000 200 docs in
  let t1 := assign (ref_of document_type) docs (self w) in
  fs (rebuild env notice document_type w) = os_makedirs (fs w) folder
  /\ match embeddings (self w) with
     | None => self (rebuild env notice document_type w) = t1
     | Some emb =>
         match cs with
         | [] => self (rebuild env notice document_type w) = t1
         | _ :: _ =>
             match Chroma_from_documents env cs emb with
             | Ok vs =>
                 self (rebuild env notice document_type w)
                 = setattr_vector_store (attr_of document_type) (Some vs) t1
             | Raise _ => self (rebuild env notice document_type w) = t1
             end
         end
     end.
Proof.
  intros Hv folder docs cs t1. unfold rebuild.
  set (w0 := fst (print notice w)).
  destruct (load_documents_spec env w0 Hv) as (_ & Hs1 & Hf1 & _).
  change (self w0) with (self w) in Hs1, Hf1.
  change (fs w0) with (fs w) in Hs1, Hf1.
  fold folder in Hs1, Hf1. fold docs in Hs1. fold t1 in Hs1.
  set (w1 := fst (load_documents env document_type w0)) in *.
  destruct (create_vector_store_spec env None w1 Hv) as [Hf2 H].
  split; [rewrite Hf2; exact Hf1 |].
  cbn [effective_chunks] in H. rewrite Hs1 in H.
  assert (He : embeddings t1 = embeddings (self w))
    by (subst t1; destruct Hv as [-> | ->]; reflexivity).
  assert (Hd : documents document_type t1 = docs)
    by (subst t1; unfold documents; apply deref_assign).
  rewrite He, Hd in H. fold cs in H.
  destruct (embeddings (self w)) as [emb |]; [| apply H].
  destruct cs as [| c cs']; [apply H |].
  destruct (Chroma_from_documents env (c :: cs') emb); apply H.
Qed.

Lemma rebuild_other_side (env : Env) (notice document_type : string) (w : World) :
  valid_type document_type ->
  vector_store (other_type document_type) (self (rebuild env notice document_type w))
  = vector_store (other_type document_type) (self w)
  /\ documents (other_type document_type)
               (self (rebuild env notice document_type w))
     = documents (other_type document_type) (self w).
Proof.
  intros Hv.
  destruct (rebuild_cases env notice w Hv) as [_ H].
  set (docs := flat_map _ _) in H.
  assert (Hcases :
            self (rebuild env notice document_type w)
            = assign (ref_of document_type) docs (self w)
            \/ exists vs,
              self (rebuild env notice document_type w)
              = setattr_vector_store (attr_of document_type) (Some vs)
                  (assign (ref_of document_type) docs (self w))).
  { destruct (embeddings (self w)); [| now left].
    destruct (text_splitter_split_documents env 1000 200 docs); [now left |].
    destruct (Chroma_from_documents env _ _) as [vs | ex];
      [right; now exists vs | now left]. }
  destruct Hcases as [-> | [vs ->]].
  - destruct (sides_of_update docs None (self w) Hv) as ((_ & _ & H1 & H2) & _).
    split; assumption.
  - destruct (sides_of_update docs (Some vs) (self w) Hv) as (_ & (_ & _ & H1 & H2)).
    split; assumption.
Qed.

Lemma rebuild_deficient (env : Env) (notice document_type : string) (w : World) :
  valid_type document_type ->
  vector_store document_type (self w) = None ->
  flat_map (documents_of env (folder_of document_type (self w)))
           (os_listdir (fs w) (folder_of document_type (self w))) = [] ->
  vector_store document_type (self (rebuild env notice document_type w)) = None.
Proof.
  intros Hv Hnone Hempty.
  destruct (rebuild_cases env notice w Hv) as [_ H].
  rewrite Hempty in H. cbn [text_splitter_split_documents flat_map] in H.
  assert (Hs : self (rebuild env notice document_type w)
               = assign (ref_of document_type) [] (self w))
    by (destruct (embeddings (self w)); exact H).
  rewrite Hs.
  destruct (sides_of_update [] None (self w) Hv) as ((-> & _) & _).
  exact Hnone.
Qed.

(** What a rebuild sends to the default collection, by the outcome of its
    re-index. *)
Lemma rebuild_adds_spec (env : Env) (notice document_type : string) (w : World) :
  valid_type document_type ->
  let folder := folder_of document_type (self w) in
  let docs := flat_map (documents_of env folder) (os_listdir (fs w) folder) in
  let cs := text_splitter_split_documents env 1000 200 docs in
  documents document_type (self (rebuild env notice document_type w)) = docs
  /\ match embeddings (self w) with
     | None => rebuild_adds env notice document_type w = []
     | Some emb =>
         match cs with
         | [] => rebuild_adds env notice document_type w = []
         | _ :: _ =>
             match Chroma_from_documents env cs emb with
             | Ok _ => rebuild_adds env notice document_type w = cs
             | Raise _ => rebuild_adds env notice document_type w = []
             end
         end
     end.
Proof.
  intros Hv folder docs cs.
  split.
  { destruct (rebuild_cases env notice w Hv) as [_ H].
    fold folder in H. fold docs in H. fold cs in H.
    assert (Hc : self (rebuild env notice document_type w)
                 = assign (ref_of document_type) docs (self w)
                 \/ exists vs,
                   self (rebuild env notice document_type w)
                   = setattr_vector_store (attr_of document_type) (Some vs)
                       (assign (ref_of document_type) docs (self w))).
    { destruct (embeddings (self w)); [| now left].
      destruct cs; [now left |].
      destruct (Chroma_from_documents env _ _) as [vs | ex];
        [right; now exists vs | now left]. }
    destruct Hc as [-> | [vs ->]].
    - apply (sides_of_update docs None (self w) Hv).
    - apply (sides_of_update docs (Some vs) (self w) Hv). }
  unfold rebuild_adds.
  set (w0 := fst (print notice w)).
  destruct (load_documents_spec env w0 Hv) as (_ & Hs1 & _).
  change (self w0) with (self w) in Hs1. change (fs w0) with (fs w) in Hs1.
  fold folder in Hs1. fold docs in Hs1.
  set (w1 := fst (load_documents env document_type w0)) in *.
  destruct (create_vector_store_spec env None w1 Hv) as [_ H].
  cbn [effective_chunks] in H. rewrite Hs1 in H.
  assert (He : embeddings (assign (ref_of document_type) docs (self w))
               = embeddings (self w))
    by (destruct Hv as [-> | ->]; reflexivity).
  assert (Hd : documents document_type (assign (ref_of document_type) docs (self w))
               = docs) by (unfold documents; apply deref_assign).
  rewrite He, Hd in H. fold cs in H.
  destruct (embeddings (self w)) as [emb |];
    [| destruct H as [-> _]; reflexivity].
  destruct cs as [| c cs'] eqn:Ecs; [destruct H as [-> _]; reflexivity |].
  destruct (Chroma_from_documents env (c :: cs') emb) as [vs | ex] eqn:Hc;
    destruct H as [-> _]; cbn [create_adds]; [| reflexivity].
  exact (@Chroma_from_documents_holds env _ _ _ Hc).
Qed.

Lemma rebuild_adds_from_collection (env : Env) (notice document_type : string)
      (w : World) (c : Document) :
  valid_type document_type ->
  In c (rebuild_adds env notice document_type w) ->
  exists d,
    In d (documents document_type (self (rebuild env notice document_type w)))
    /\ source c = source d /\ page c = page d.
Proof.
  intros Hv Hin.
  destruct (rebuild_adds_spec env notice w Hv) as [Hd H].
  rewrite Hd.
  set (docs := flat_map _ _) in *.
  assert (Hsub : rebuild_adds env notice document_type w = []
                 \/ rebuild_adds env notice document_type w
                    = text_splitter_split_documents env 1000 200 docs).
  { destruct (embeddings (self w)); [| now left].
    destruct (text_splitter_split_documents env 1000 200 docs) eqn:E; [now left |].
    destruct (Chroma_from_documents env _ _); [right; exact H | now left]. }
  destruct Hsub as [Hn | Hs]; rewrite ?Hn, ?Hs in Hin; [destruct Hin |].
  unfold text_splitter_split_documents in Hin.
  apply in_flat_map in Hin. destruct Hin as (d & Hdin & Hc).
  apply in_map_iff in Hc. destruct Hc as (t & <- & _).
  exists d. repeat split. exact Hdin.
Qed.

(** X9. [generate_compliance_report] never reloads or re-indexes a side
    whose index attribute is set: that side's collection is unchanged and
    its attribute still holds the same store object, whether or not a report
    is produced.  The store's default collection is shared, though: what the
    call adds to it are chunks of the other side's reloaded records only,
    and nothing when the other side's attribute is set as well. *)
Theorem generate_keeps_existing_side (env : Env) (document_type : string)
        (w : World) (vs : VectorStore) :
  valid_type document_type ->
  vector_store document_type (self w) = Some vs ->
  let w' := fst (generate_compliance_report env w) in
  vector_store document_type (self w') = Some vs
  /\ documents document_type (self w') = documents document_type (self w)
  /\ (vector_store (other_type document_type) (self w) <> None ->
      generate_adds env w = [])
  /\ (forall c, In c (generate_adds env w) ->
                exists d, In d (documents (other_type document_type) (self w'))
                          /\ source c = source d /\ page c = page d).
Proof.
  intros Hv Hstore w'. subst w'.
  rewrite generate_via_rebuilds.
  destruct (generate_compliance_report_end env (after_rebuilds env w)) as [-> _].
  unfold after_rebuilds, generate_adds.
  assert (Hvp : valid_type "policy") by now left.
  assert (Hvr : valid_type "regulatory") by now right.
  destruct Hv as [-> | ->]; unfold vector_store, documents, other_type in *;
    cbn [String.eqb Ascii.eqb Bool.eqb ref_of deref] in *.
  - rewrite Hstore. cbn [truthy_opt app].
    destruct (regulatory_vector_store (self w)) as [rvs |] eqn:Hreg;
      cbn [truthy_opt].
    + split; [exact Hstore |]. split; [reflexivity |].
      split; [reflexivity |]. intros c [].
    + destruct (rebuild_other_side env regulatory_notice w Hvr) as [H1 H2].
      cbn in H1, H2. rewrite H1, H2.
      split; [exact Hstore |]. split; [reflexivity |].
      split; [intros Hne; now elim Hne |].
      intros c Hin.
      exact (rebuild_adds_from_collection env regulatory_notice w c Hvr Hin).
  - destruct (policy_vector_store (self w)) as [pvs |] eqn:Hpol;
      cbn [truthy_opt app].
    + rewrite Hstore. cbn [truthy_opt].
      split; [exact Hstore |]. split; [reflexivity |].
      split; [reflexivity |]. intros c [].
    + destruct (rebuild_other_side env policy_notice w Hvp) as [H1 H2].
      cbn in H1, H2. rewrite H1, Hstore. cbn [truthy_opt].
      rewrite app_nil_r.
      split; [rewrite H1; exact Hstore |]. split; [exact H2 |].
      split; [intros Hne; now elim Hne |].
      intros c Hin.
      exact (rebuild_adds_from_collection env policy_notice w c Hvp Hin).
Qed.

Lemma generate_keeps_existing_side_witness :
  valid_type "policy"
  /\ vector_store "policy" (self Sample.policy_ready)
     = Some (Sample.index_of (policy_vector_store (self Sample.policy_ready)))
  /\ documents "policy"
       (self (fst (generate_compliance_report Sample.env Sample.policy_ready)))
     = documents "policy" (self Sample.policy_ready).
Proof.
  assert (Hv : valid_type "policy") by (left; reflexivity).
  assert (Hs : vector_store "policy" (self Sample.policy_ready)
               = Some (Sample.index_of (policy_vector_store (self Sample.policy_ready))))
    by (vm_compute; reflexivity).
  split; [exact Hv |]. split; [exact Hs |].
  exact (proj1 (proj2 (@generate_keeps_existing_side Sample.env "policy"
                         Sample.policy_ready _ Hv Hs))).
Defined.

(** X10. Retrieval is not guarded: with both indexes present, an exception
    raised while retrieving the policy context, or the regulatory context
    after it, leaves [generate_compliance_report] as that exception, with the
    world untouched (the model is not even constructed). *)
Theorem retrieval_failure_propagates (env : Env) (w : World)
        (pvs rvs : VectorStore) (ex : exn) :
  policy_vector_store (self w) = Some pvs ->
  regulatory_vector_store (self w) = Some rvs ->
  get_relevant_documents env pvs "All policy documents" = Raise ex
  \/ ((exists docs, get_relevant_documents env pvs "All policy documents" = Ok docs)
      /\ get_relevant_documents env rvs "All regulatory documents" = Raise ex) ->
  generate_compliance_report env w = (w, Raise ex).
Proof.
  intros Hp Hr Hfail.
  rewrite (@generate_ready env w pvs rvs Hp Hr).
  unfold analyse, retrieve. run_monad.
  destruct Hfail as [-> | [[docs ->] ->]]; reflexivity.
Qed.

Lemma retrieval_failure_propagates_witness :
  generate_compliance_report Desk.env_retrieval_fails (Sample.both_ready Sample.env)
  = (Sample.both_ready Sample.env, Raise (Error "connection refused")).
Proof.
  apply (@retrieval_failure_propagates Desk.env_retrieval_fails
           (Sample.both_ready Sample.env)
           Sample.policy_index Sample.regulatory_index).
  - vm_compute. reflexivity.
  - vm_compute. reflexivity.
  - left. reflexivity.
Defined.

Lemma after_rebuilds_evolves (env : Env) (w : World) :
  evolves (self w) (self (after_rebuilds env w)).
Proof.
  unfold after_rebuilds.
  set (w1 := if truthy_opt (policy_vector_store (self w)) then w
             else rebuild env policy_notice "policy" w).
  assert (H1 : evolves (self w) (self w1)).
  { subst w1. destruct (truthy_opt (policy_vector_store (self w)));
      [apply evolves_refl | apply rebuild_evolves]. }
  destruct (truthy_opt (regulatory_vector_store (self w1))); [exact H1 |].
  eapply evolves_trans; [exact H1 | apply rebuild_evolves].
Qed.

Lemma report_without_an_index (env : Env) (w : World) :
  policy_vector_store (self (after_rebuilds env w)) = None
  \/ regulatory_vector_store (self (after_rebuilds env w)) = None ->
  snd (generate_compliance_report env w) = Ok vector_stores_error
  /\ self (fst (generate_compliance_report env w)) = self (after_rebuilds env w)
  /\ fs (fst (generate_compliance_report env w)) = fs (after_rebuilds env w).
Proof.
  intros Hnone. rewrite generate_via_rebuilds.
  destruct (policy_vector_store (self (after_rebuilds env w))) as [pvs |];
    destruct (regulatory_vector_store (self (after_rebuilds env w))) as [rvs |];
    try (repeat split; reflexivity).
  destruct Hnone; discriminate.
Qed.

Lemma after_rebuilds_deficient (env : Env) (document_type : string) (w : World) :
  valid_type document_type ->
  vector_store document_type (self w) = None ->
  flat_map (documents_of env (folder_of document_type (self w)))
           (os_listdir (fs w) (folder_of document_type (self w))) = [] ->
  vector_store document_type (self (after_rebuilds env w)) = None.
Proof.
  intros Hv Hnone Hempty.
  assert (Hvp : valid_type "policy") by now left.
  assert (Hvr : valid_type "regulatory") by now right.
  unfold after_rebuilds.
  destruct Hv as [-> | ->].
  - unfold vector_store in Hnone. cbn [String.eqb Ascii.eqb Bool.eqb] in Hnone.
    rewrite Hnone. cbn [truthy_opt].
    pose proof (rebuild_deficient env policy_notice w Hvp Hnone Hempty) as H1.
    destruct (truthy_opt (regulatory_vector_store
                            (self (rebuild env policy_notice "policy" w))));
      [exact H1 |].
    destruct (rebuild_other_side env regulatory_notice
                (rebuild env policy_notice "policy" w) Hvr) as [H2 _].
    cbn [other_type String.eqb Ascii.eqb Bool.eqb] in H2.
    rewrite H2. exact H1.
  - set (w1 := if truthy_opt (policy_vector_store (self w)) then w
               else rebuild env policy_notice "policy" w).
    assert (H1 : vector_store "regulatory" (self w1) = None
                 /\ folder_of "regulatory" (self w1) = folder_of "regulatory" (self w)
                 /\ os_listdir (fs w1) (folder_of "regulatory" (self w))
                    = os_listdir (fs w) (folder_of "regulatory" (self w))).
    { subst w1. destruct (truthy_opt (policy_vector_store (self w)));
        [repeat split; exact Hnone |].
      destruct (rebuild_other_side env policy_notice w Hvp) as [H1 _].
      destruct (rebuild_evolves env policy_notice "policy" w) as (_ & Hr & _).
      destruct (rebuild_cases env policy_notice w Hvp) as [Hf _].
      split; [cbn [other_type String.eqb Ascii.eqb Bool.eqb] in H1;
              rewrite H1; exact Hnone |].
      split; [exact Hr |].
      rewrite Hf. apply os_listdir_makedirs_any. }
    destruct H1 as (Hn1 & Hfo1 & Hl1).
    assert (Hn1' : regulatory_vector_store (self w1) = None) by exact Hn1.
    rewrite Hn1'. cbn [truthy_opt].
    apply rebuild_deficient; [exact Hvr | exact Hn1 |].
    rewrite Hfo1, Hl1. exact Hempty.
Qed.

(** X11. A side with no index and nothing loadable in its folder makes
    [generate_compliance_report] return the fixed error text, whatever the
    state of the other side (indexed or not, loadable or not); that side
    still has no index afterwards. *)
Theorem generate_with_a_deficient_side (env : Env) (document_type : string)
        (w : World) :
  valid_type document_type ->
  vector_store document_type (self w) = None ->
  flat_map (documents_of env (folder_of document_type (self w)))
           (os_listdir (fs w) (folder_of document_type (self w))) = [] ->
  snd (generate_compliance_report env w) = Ok vector_stores_error
  /\ vector_store document_type (self (fst (generate_compliance_report env w)))
     = None.
Proof.
  intros Hv Hnone Hempty.
  pose proof (after_rebuilds_deficient env w Hv Hnone Hempty) as Hd.
  assert (Hone : policy_vector_store (self (after_rebuilds env w)) = None
                 \/ regulatory_vector_store (self (after_rebuilds env w)) = None).
  { destruct Hv as [-> | ->]; [left | right]; exact Hd. }
  destruct (report_without_an_index env w Hone) as (Hr & Hs & _).
  split; [exact Hr | rewrite Hs; exact Hd].
Qed.

Lemma generate_with_a_deficient_side_witness :
  valid_type "policy"
  /\ vector_store "policy" (self Sample.regulatory_ready) = None
  /\ snd (generate_compliance_report Sample.env Sample.regulatory_ready)
     = Ok vector_stores_error.
Proof.
  assert (Hv : valid_type "policy") by (left; reflexivity).
  assert (Hn : vector_store "policy" (self Sample.regulatory_ready) = None)
    by (vm_compute; reflexivity).
  assert (He : flat_map
                 (documents_of Sample.env
                    (folder_of "policy" (self Sample.regulatory_ready)))
                 (os_listdir (fs Sample.regulatory_ready)
                    (folder_of "policy" (self Sample.regulatory_ready))) = [])
    by (vm_compute; reflexivity).
  split; [exact Hv |]. split; [exact Hn |].
  exact (proj1 (@generate_with_a_deficient_side Sample.env "policy"
                  Sample.regulatory_ready Hv Hn He)).
Defined.

Lemma evolves_without_backend (t t' : Tool) :
  evolves t t' -> embeddings t = None ->
  policy_vector_store t' = policy_vector_store t
  /\ regulatory_vector_store t' = regulatory_vector_store t.
Proof.
  intros (_ & _ & _ & Hip & Hir) He. split.
  - destruct Hip as [-> | (vs & _ & Hn & _)]; [reflexivity | now elim Hn].
  - destruct Hir as [-> | (vs & _ & Hn & _)]; [reflexivity | now elim Hn].
Qed.

(** X12. An instance built while [OllamaEmbeddings] cannot be constructed
    never produces a report: after any sequence of calls,
    [generate_compliance_report] returns the fixed error text, even with
    both folders full of documents and the model reachable. *)
Theorem no_backend_no_report (env : Env) (policy_folder regulatory_folder : string)
        (fs0 : FS) (out0 : list string) (ex : exn) (ops : list op) :
  OllamaEmbeddings env "llama3.2" = Raise ex ->
  snd (generate_compliance_report env
         (run env ops (init env policy_folder regulatory_folder fs0 out0)))
  = Ok vector_stores_error.
Proof.
  intros Hinit.
  set (w0 := init env policy_folder regulatory_folder fs0 out0).
  assert (H0 : embeddings (self w0) = None /\ policy_vector_store (self w0) = None)
    by (subst w0; unfold init; rewrite Hinit; split; reflexivity).
  destruct H0 as [He0 Hp0].
  set (w := run env ops w0).
  pose proof (run_evolves env ops w0) as Hrun. fold w in Hrun.
  destruct (evolves_without_backend Hrun He0) as [Hp _].
  assert (He : embeddings (self w) = None).
  { destruct Hrun as (_ & _ & -> & _). exact He0. }
  destruct (evolves_without_backend (after_rebuilds_evolves env w) He) as [Hp' _].
  apply report_without_an_index. left. rewrite Hp', Hp. exact Hp0.
Qed.

Lemma no_backend_no_report_witness :
  OllamaEmbeddings Sample.env_offline "llama3.2" = Raise (Error "connection refused")
  /\ snd (generate_compliance_report Sample.env_offline
            (run Sample.env_offline Sample.main_calls
                 (Sample.fresh Sample.env_offline Sample.fs_both)))
     = Ok vector_stores_error.
Proof.
  split; [reflexivity |].
  exact (@no_backend_no_report Sample.env_offline "policy_documents"
           "regulatory_documents" Sample.fs_both []
           (Error "connection refused") Sample.main_calls eq_refl).
Defined.

(** X13. The lazy rebuild works from the folder as it is now: when one
    side's index attribute is unset while the other is set, the backend is
    available, the folder's records split into a non-empty chunk list and
    index construction succeeds, [generate_compliance_report] leaves that
    side's collection reloaded from the folder and its attribute holding the
    store that construction returned; the other attribute is kept.  What the
    call adds to the default Chroma collection is the default split of
    exactly those records, after whatever the collection held already (the
    chunks of the other side among them): the new store does not search
    these chunks alone. *)
Theorem generate_rebuilds_missing_side (env : Env) (document_type : string)
        (w : World) (other vs : VectorStore) (emb : Embeddings) :
  valid_type document_type ->
  vector_store document_type (self w) = None ->
  vector_store (other_type document_type) (self w) = Some other ->
  embeddings (self w) = Some emb ->
  let folder := folder_of document_type (self w) in
  let docs := flat_map (documents_of env folder) (os_listdir (fs w) folder) in
  let cs := text_splitter_split_documents env 1000 200 docs in
  cs <> [] ->
  Chroma_from_documents env cs emb = Ok vs ->
  let w' := fst (generate_compliance_report env w) in
  vector_store document_type (self w') = Some vs
  /\ (forall collection,
        collection_after env [Generate] w collection = (collection ++ cs)%list)
  /\ documents document_type (self w') = docs
  /\ vector_store (other_type document_type) (self w') = Some other.
Proof.
  intros Hv Hnone Hother He folder docs cs Hcs Hchroma w'. subst w'.
  assert (Hadds : forall notice, rebuild_adds env notice document_type w = cs).
  { intros notice.
    destruct (rebuild_adds_spec env notice w Hv) as [_ H].
    fold folder in H. fold docs in H. fold cs in H.
    rewrite He in H. destruct cs as [| c cs']; [now elim Hcs |].
    rewrite Hchroma in H. exact H. }
  assert (Hgen : generate_adds env w = cs).
  { unfold generate_adds.
    destruct Hv as [-> | ->]; unfold vector_store, other_type in *;
      cbn [String.eqb Ascii.eqb Bool.eqb] in *.
    - rewrite Hnone. cbn [truthy_opt].
      destruct (rebuild_other_side env policy_notice w (or_introl eq_refl))
        as [H1 _].
      cbn in H1. rewrite H1, Hother. cbn [truthy_opt].
      rewrite app_nil_r. apply Hadds.
    - rewrite Hother. cbn [truthy_opt]. rewrite Hnone. cbn [truthy_opt app].
      apply Hadds. }
  rewrite generate_via_rebuilds.
  destruct (generate_compliance_report_end env (after_rebuilds env w)) as [-> _].
  assert (Hreb : forall notice,
             self (rebuild env notice document_type w)
             = setattr_vector_store (attr_of document_type) (Some vs)
                 (assign (ref_of document_type) docs (self w))).
  { intros notice.
    destruct (rebuild_cases env notice w Hv) as [_ H].
    fold folder in H. fold docs in H. fold cs in H.
    rewrite He in H. destruct cs as [| c cs']; [now elim Hcs |].
    rewrite Hchroma in H. exact H. }
  destruct (sides_of_update docs (Some vs) (self w) Hv)
    as (_ & (Hown & Hdocs & Hoth & _)).
  assert (Hafter : self (after_rebuilds env w)
                   = setattr_vector_store (attr_of document_type) (Some vs)
                       (assign (ref_of document_type) docs (self w))).
  { unfold after_rebuilds.
    destruct Hv as [-> | ->]; unfold vector_store, other_type in *;
      cbn [String.eqb Ascii.eqb Bool.eqb] in *.
    - rewrite Hnone. cbn [truthy_opt]. rewrite (Hreb policy_notice).
      rewrite Hoth, Hother. cbn [truthy_opt]. apply Hreb.
    - rewrite Hother. cbn [truthy_opt]. rewrite Hnone. cbn [truthy_opt].
      apply Hreb. }
  rewrite Hafter, Hown, Hdocs, Hoth.
  split; [reflexivity |].
  split; [intros collection; cbn [collection_after step_adds];
          now rewrite Hgen |].
  split; [reflexivity | exact Hother].
Qed.

Lemma generate_rebuilds_missing_side_witness :
  vector_store "regulatory" (self Desk.regulatory_pending) = None
  /\ vector_store "regulatory"
       (self (fst (generate_compliance_report Sample.env Desk.regulatory_pending)))
     = Some Sample.regulatory_index.
Proof.
  assert (Hn : vector_store "regulatory" (self Desk.regulatory_pending) = None)
    by (vm_compute; reflexivity).
  split; [exact Hn |].
  refine (proj1 (@generate_rebuilds_missing_side Sample.env "regulatory"
                   Desk.regulatory_pending
                   (Sample.index_of (policy_vector_store (self Desk.regulatory_pending)))
                   Sample.regulatory_index (mkEmbeddings "llama3.2")
                   (or_intror eq_refl) Hn _ _ _ _)).
  - vm_compute. reflexivity.
  - vm_compute. reflexivity.
  - vm_compute. discriminate.
  - vm_compute. reflexivity.
Defined.

(** * The script *)

(** The listing of a directory after [os_makedirs] of that directory: what
    it held, or nothing if it had to be made. *)
Lemma fs_lookup_makedirs_same (fs0 : FS) (path : string) :
  fs_lookup (os_makedirs fs0 path) path = Some (os_listdir fs0 path).
Proof.
  unfold os_makedirs, os_path_exists, os_listdir.
  destruct (fs_lookup fs0 path) as [entries |] eqn:Hl; cbn [truthy_opt].
  - exact Hl.
  - cbn. now rewrite String.eqb_refl.
Qed.

(** After the two [os.makedirs] of [setup_document_folders], each of the two
    folders exists with the listing it had, or empty if it had to be made. *)
Lemma fs_lookup_document_folders (fs0 : FS) (policy_folder regulatory_folder : string) :
  let fs2 := os_makedirs (os_makedirs fs0 policy_folder) regulatory_folder in
  fs_lookup fs2 policy_folder = Some (os_listdir fs0 policy_folder)
  /\ fs_lookup fs2 regulatory_folder = Some (os_listdir fs0 regulatory_folder).
Proof.
  cbn zeta. split.
  - apply fs_lookup_makedirs_kept, fs_lookup_makedirs_same.
  - rewrite fs_lookup_makedirs_same. now rewrite os_listdir_makedirs_any.
Qed.

(** X14. [setup_document_folders] returns the two folder paths under the
    working directory and leaves both existing.  It never alters the content
    of a document folder that was already there: such a folder keeps its
    listing, and one that had to be made is empty.  Running it again changes
    nothing.  (The working directory itself gains the folders it lacked; its
    listing is not part of the statement.) *)
Theorem setup_document_folders_is_safe (env : Env) (current_dir : string)
        (fs0 : FS) (out0 out1 : list string) :
  let made := setup_document_folders env current_dir fs0 out0 in
  let policy_folder := os_path_join env current_dir "policy_documents" in
  let regulatory_folder := os_path_join env current_dir "regulatory_documents" in
  snd made = (policy_folder, regulatory_folder)
  /\ os_path_exists (fst (fst made)) policy_folder = true
  /\ os_path_exists (fst (fst made)) regulatory_folder = true
  /\ (forall folder, folder = policy_folder \/ folder = regulatory_folder ->
                     fs_lookup (fst (fst made)) folder
                     = Some (match fs_lookup fs0 folder with
                             | Some entries => entries
                             | None => []
                             end))
  /\ fst (fst (setup_document_folders env current_dir (fst (fst made)) out1))
     = fst (fst made).
Proof.
  intros made policy_folder regulatory_folder. subst made.
  unfold setup_document_folders. cbn [fst snd].
  fold policy_folder regulatory_folder.
  assert (Hp : os_path_exists
                 (os_makedirs (os_makedirs fs0 policy_folder) regulatory_folder)
                 policy_folder = true)
    by (apply os_makedirs_keeps_existing, os_makedirs_exists).
  assert (Hr : os_path_exists
                 (os_makedirs (os_makedirs fs0 policy_folder) regulatory_folder)
                 regulatory_folder = true)
    by apply os_makedirs_exists.
  split; [reflexivity |]. split; [exact Hp |]. split; [exact Hr |].
  split.
  { destruct (fs_lookup_document_folders fs0 policy_folder regulatory_folder)
      as [H1 H2].
    intros folder [-> | ->]; [exact H1 | exact H2]. }
  rewrite (os_makedirs_existing _ _ Hp). apply os_makedirs_existing. exact Hr.
Qed.

Lemma setup_document_folders_is_safe_witness :
  fs_lookup (fst (fst (setup_document_folders Sample.env Desk.cwd
                         (p_fs Desk.populated) [])))
            Desk.regulatory_folder
  = fs_lookup (p_fs Desk.populated) Desk.regulatory_folder.
Proof.
  rewrite (proj1 (proj2 (proj2 (proj2
             (@setup_document_folders_is_safe Sample.env Desk.cwd
                (p_fs Desk.populated) [] []))))
             Desk.regulatory_folder (or_intror eq_refl)).
  reflexivity.
Defined.

Lemma keeps_bind {A B} (P : World -> Prop) (m : M A) (k : A -> M B) :
  keeps P m -> (forall a, keeps P (k a)) -> keeps P (bind m k).
Proof.
  intros Hm Hk w Hw. unfold bind.
  specialize (Hm w Hw). destruct (m w) as [w1 [a | ex]]; cbn [fst] in *.
  - apply Hk. exact Hm.
  - exact Hm.
Qed.

Lemma keeps_try_except {A} (P : World -> Prop) (m : M A) (h : exn -> M A) :
  keeps P m -> (forall ex, keeps P (h ex)) -> keeps P (try_except m h).
Proof.
  intros Hm Hh w Hw. unfold try_except.
  specialize (Hm w Hw). destruct (m w) as [w1 [a | ex]]; cbn [fst] in *.
  - exact Hm.
  - apply Hh. exact Hm.
Qed.

Lemma keeps_ret {A} (P : World -> Prop) (a : A) : keeps P (ret a).
Proof. intros w Hw. exact Hw. Qed.

Section Settled.

Variable env : Env.
Variables (F : FS) (policy_folder regulatory_folder : string).
Hypothesis policy_exists : os_path_exists F policy_folder = true.
Hypothesis regulatory_exists : os_path_exists F regulatory_folder = true.

Let P := settled F policy_folder regulatory_folder.

Lemma evolves_settled (w w' : World) :
  P w -> evolves (self w) (self w') -> fs w' = fs w -> P w'.
Proof.
  intros (Hf & Hp & Hr) (Hp' & Hr' & _) Hfs.
  unfold P, settled. rewrite Hfs, Hp', Hr'. repeat split; assumption.
Qed.

Lemma keeps_print (line : string) : keeps P (print line).
Proof. intros w Hw. exact Hw. Qed.

Lemma keeps_load_documents (document_type : string) :
  valid_type document_type -> keeps P (load_documents env document_type).
Proof.
  intros Hv w Hw.
  eapply evolves_settled; [exact Hw | apply load_documents_evolves |].
  destruct (load_documents_spec env w Hv) as (_ & _ & -> & _).
  apply os_makedirs_existing.
  destruct Hw as (-> & Hp & Hr). unfold folder_of.
  destruct Hv as [-> | ->]; cbn [String.eqb Ascii.eqb Bool.eqb];
    [rewrite Hp | rewrite Hr]; assumption.
Qed.

Lemma keeps_create_vector_store (document_type : string)
      (chunks : option (list Document)) :
  keeps P (create_vector_store env document_type chunks).
Proof.
  intros w Hw.
  destruct (create_vector_store_evolves env document_type chunks w) as [He Hf].
  eapply evolves_settled; eassumption.
Qed.

Lemma keeps_rebuild (notice document_type : string) (w : World) :
  valid_type document_type -> P w -> P (rebuild env notice document_type w).
Proof.
  intros Hv Hw. unfold rebuild.
  apply keeps_create_vector_store, (keeps_load_documents Hv), keeps_print.
  exact Hw.
Qed.

Lemma keeps_after_rebuilds (w : World) : P w -> P (after_rebuilds env w).
Proof.
  intros Hw. unfold after_rebuilds.
  set (w1 := if truthy_opt (policy_vector_store (self w)) then w
             else rebuild env policy_notice "policy" w).
  assert (H1 : P w1).
  { subst w1. destruct (truthy_opt (policy_vector_store (self w)));
      [exact Hw | apply keeps_rebuild; [now left | exact Hw]]. }
  destruct (truthy_opt (regulatory_vector_store (self w1)));
    [exact H1 | apply keeps_rebuild; [now right | exact H1]].
Qed.

Lemma keeps_generate_compliance_report :
  keeps P (generate_compliance_report env).
Proof.
  intros w Hw. rewrite generate_via_rebuilds.
  pose proof (keeps_after_rebuilds Hw) as H2.
  destruct (generate_compliance_report_end env (after_rebuilds env w)) as [Hs Hf].
  destruct H2 as (HF & Hp & Hr).
  unfold P, settled. rewrite Hs, Hf. repeat split; assumption.
Qed.

Lemma keeps_analysis : keeps P (analysis env).
Proof.
  unfold analysis.
  apply keeps_bind; [apply keeps_load_documents; now left | intros cp].
  apply keeps_bind; [apply keeps_load_documents; now right | intros cr].
  destruct (Z.eqb cp 0 && Z.eqb cr 0).
  - apply keeps_bind; [apply keeps_print | intros _; apply keeps_ret].
  - repeat (apply keeps_bind; [apply keeps_print | intros _]).
    apply keeps_bind.
    { destruct (Z.ltb 0 cp); [| apply keeps_ret].
      apply keeps_bind; [apply keeps_create_vector_store | intros _; apply keeps_ret]. }
    intros _. apply keeps_bind.
    { destruct (Z.ltb 0 cr); [| apply keeps_ret].
      apply keeps_bind; [apply keeps_create_vector_store | intros _; apply keeps_ret]. }
    intros _.
    apply keeps_bind; [apply keeps_print | intros _].
    apply keeps_bind; [apply keeps_generate_compliance_report | intros report].
    repeat (apply keeps_bind; [apply keeps_print | intros _]).
    apply keeps_ret.
Qed.

End Settled.

(** [analysis], step by step, once the two counts are known. *)
Lemma analysis_run (env : Env) (w : World) (cp cr : Z) :
  snd (load_documents env "policy" w) = Ok cp ->
  snd (load_documents env "regulatory" (fst (load_documents env "policy" w)))
  = Ok cr ->
  let wl := fst (load_documents env "regulatory"
                   (fst (load_documents env "policy" w))) in
  analysis env w
  = if Z.eqb cp 0 && Z.eqb cr 0 then
      (fst (print "⚠ No documents were loaded. Please check that your PDF files are valid." wl),
       Ok None)
    else
      match generate_compliance_report env (indexed_for_report env cp cr wl) with
      | (w', Ok compliance_report) =>
          (report_shown compliance_report w', Ok (Some compliance_report))
      | (w', Raise ex) => (w', Raise ex)
      end.
Proof.
  intros Hp Hr wl. subst wl.
  assert (Hvp : valid_type "policy") by now left.
  assert (Hvr : valid_type "regulatory") by now right.
  unfold analysis. unfold bind at 1.
  destruct (load_documents env "policy" w) as [w1 r1].
  cbn [fst snd] in *. subst r1. unfold bind at 1.
  destruct (load_documents env "regulatory" w1) as [w2 r2].
  cbn [fst snd] in *. subst r2.
  destruct (Z.eqb cp 0 && Z.eqb cr 0); [reflexivity |].
  unfold indexed_for_report.
  unfold bind at 1. unfold print at 1. cbv beta iota.
  unfold bind at 1. unfold print at 1. cbv beta iota.
  set (wp := mkWorld _ _ _).
  change (fst (print _ (fst (print _ w2)))) with wp.
  unfold bind at 1.
  assert (H3 : (if Z.ltb 0 cp
                then create_vector_store env "policy" None ;; ret tt
                else ret tt) wp
               = (if Z.ltb 0 cp
                  then fst (create_vector_store env "policy" None wp) else wp,
                  Ok tt)).
  { destruct (Z.ltb 0 cp); [| reflexivity]. unfold bind.
    destruct (create_vector_store_ok env None wp Hvp) as [r Hc].
    destruct (create_vector_store env "policy" None wp) as [wc rc].
    cbn [snd] in Hc. subst rc. reflexivity. }
  rewrite H3. clear H3.
  set (w3 := if Z.ltb 0 cp then _ else wp).
  unfold bind at 1.
  assert (H4 : (if Z.ltb 0 cr
                then create_vector_store env "regulatory" None ;; ret tt
                else ret tt) w3
               = (if Z.ltb 0 cr
                  then fst (create_vector_store env "regulatory" None w3) else w3,
                  Ok tt)).
  { destruct (Z.ltb 0 cr); [| reflexivity]. unfold bind.
    destruct (create_vector_store_ok env None w3 Hvr) as [r Hc].
    destruct (create_vector_store env "regulatory" None w3) as [wc rc].
    cbn [snd] in Hc. subst rc. reflexivity. }
  rewrite H4. clear H4.
  set (w4 := if Z.ltb 0 cr then _ else w3).
  unfold bind at 1. unfold print at 1. cbv beta iota.
  unfold bind at 1.
  change (fst (print _ w4)) with (mkWorld (self w4) (fs w4)
    (stdout w4 ++ ["
🔍 Generating Compliance Analysis Report..."])%list).
  destruct (generate_compliance_report env _) as [w' [report | ex]];
    [| reflexivity].
  unfold bind, print, ret, report_shown. cbn [fst snd self fs stdout].
  rewrite <- !app_assoc. reflexivity.
Qed.

Lemma init_state (env : Env) (policy_folder regulatory_folder : string)
      (F : FS) (out : list string) :
  settled F policy_folder regulatory_folder
          (init env policy_folder regulatory_folder F out)
  /\ policy_vector_store (self (init env policy_folder regulatory_folder F out))
     = None
  /\ regulatory_vector_store (self (init env policy_folder regulatory_folder F out))
     = None.
Proof.
  unfold init, settled.
  destruct (OllamaEmbeddings env "llama3.2"); cbn; repeat split.
Qed.

Lemma no_processed_no_documents (env : Env) (folder : string)
      (entries : list Entry) :
  filter processed entries = [] ->
  flat_map (documents_of env folder) entries = [].
Proof.
  intros Hnone. apply length_zero_iff_nil.
  rewrite loaded_length, Hnone. reflexivity.
Qed.

Lemma processed_has_pdf_name (entries : list Entry) :
  filter processed entries <> [] ->
  truthy_list (filter (fun f => endswith (lower f) ".pdf") (map e_name entries))
  = true.
Proof.
  induction entries as [| e rest IH]; cbn [filter map]; [now intros H |].
  unfold processed at 1, is_pdf_file.
  destruct (endswith (lower (e_name e)) ".pdf"); [reflexivity |].
  rewrite andb_false_r. cbn [andb]. exact IH.
Qed.

Lemma assign_keeps_stores (r : list_ref) (ds : list Document) (t : Tool) :
  policy_vector_store (assign r ds t) = policy_vector_store t
  /\ regulatory_vector_store (assign r ds t) = regulatory_vector_store t.
Proof. destruct r; split; reflexivity. Qed.

Lemma load_documents_keeps_stores (env : Env) (document_type : string)
      (w : World) :
  policy_vector_store (self (fst (load_documents env document_type w)))
  = policy_vector_store (self w)
  /\ regulatory_vector_store (self (fst (load_documents env document_type w)))
     = regulatory_vector_store (self w).
Proof.
  destruct (type_cases document_type) as [Hv | [Hp Hr]].
  - destruct (load_documents_spec env w Hv) as (_ & -> & _).
    apply assign_keeps_stores.
  - rewrite (load_documents_unknown_type env w Hp Hr). split; reflexivity.
Qed.

Lemma create_vector_store_keeps_other (env : Env) (document_type : string)
      (chunks : option (list Document)) (w : World) :
  valid_type document_type ->
  vector_store (other_type document_type)
               (self (fst (create_vector_store env document_type chunks w)))
  = vector_store (other_type document_type) (self w).
Proof.
  intros Hv.
  destruct (create_vector_store_spec env chunks w Hv) as [_ H].
  destruct (embeddings (self w)); [| destruct H as [_ ->]; reflexivity].
  destruct (effective_chunks env document_type chunks (self w));
    [destruct H as [_ ->]; reflexivity |].
  destruct (Chroma_from_documents env _ _) as [vs | ex];
    destruct H as [_ ->]; [| reflexivity].
  apply (setattr_vector_store_lookup (Some vs) (self w) Hv).
Qed.

(** [main], with the listing taken before the folders are made. *)
Lemma main_run (env : Env) (current_dir : string) (p : Process) :
  let policy_folder := os_path_join env current_dir "policy_documents" in
  let regulatory_folder := os_path_join env current_dir "regulatory_documents" in
  let fs1 := os_makedirs (os_makedirs (p_fs p) policy_folder) regulatory_folder in
  let out2 := ((p_stdout p
                  ++ ["=== Policy Compliance Analysis Tool ===";
                      "Setting up document folders...";
                      ("✓ Created policy documents folder: " ++ policy_folder)%string;
                      ("✓ Created regulatory documents folder: "
                         ++ regulatory_folder)%string])
                 ++ next_steps policy_folder regulatory_folder)%list in
  main env current_dir p
  = if negb (truthy_list (pdf_names (p_fs p) policy_folder))
       && negb (truthy_list (pdf_names (p_fs p) regulatory_folder))
    then mkProcess fs1 (out2 ++ no_pdf_lines)%list (p_report p)
    else
      match try_except
              (analysis env)
              (fun ex =>
                 print ("✗ An error occurred during compliance analysis: "
                          ++ str_of_exn ex) ;;
                 ret None)
              (init env policy_folder regulatory_folder fs1
                    (List.app out2 ["
📊 Found " ++ str_of_nat (List.length (pdf_names (p_fs p) policy_folder))
                          ++ " policy documents and "
                          ++ str_of_nat (List.length (pdf_names (p_fs p) regulatory_folder))
                          ++ " regulatory documents"])) with
      | (w, Ok (Some compliance_report)) =>
          mkProcess (fs w) (stdout w) (Some compliance_report)
      | (w, _) => mkProcess (fs w) (stdout w) (p_report p)
      end.
Proof.
  intros policy_folder regulatory_folder fs1 out2.
  unfold main, setup_document_folders. cbn [fst snd].
  fold policy_folder regulatory_folder. fold fs1.
  assert (Hp : pdf_names fs1 policy_folder = pdf_names (p_fs p) policy_folder)
    by (unfold pdf_names, fs1; now rewrite !os_listdir_makedirs_any).
  assert (Hr : pdf_names fs1 regulatory_folder = pdf_names (p_fs p) regulatory_folder)
    by (unfold pdf_names, fs1; now rewrite !os_listdir_makedirs_any).
  rewrite Hp, Hr.
  assert (Hout : ((p_stdout p ++
                     ["=== Policy Compliance Analysis Tool ===";
                      "Setting up document folders..."]) ++
                    [("✓ Created policy documents folder: " ++ policy_folder)%string;
                     ("✓ Created regulatory documents folder: "
                        ++ regulatory_folder)%string])%list
                 = (p_stdout p
                      ++ ["=== Policy Compliance Analysis Tool ===";
                          "Setting up document folders...";
                          ("✓ Created policy documents folder: " ++ policy_folder)%string;
                          ("✓ Created regulatory documents folder: "
                             ++ regulatory_folder)%string])%list)
    by (rewrite <- app_assoc; reflexivity).
  rewrite Hout. reflexivity.
Qed.

Lemma load_documents_count_settled (env : Env) (F : FS)
      (policy_folder regulatory_folder : string) (w : World) :
  settled F policy_folder regulatory_folder w ->
  snd (load_documents env "policy" w)
  = Ok (Z.of_nat (List.length (filter processed (os_listdir F policy_folder))))
  /\ snd (load_documents env "regulatory" w)
     = Ok (Z.of_nat (List.length (filter processed (os_listdir F regulatory_folder)))).
Proof.
  intros (HF & Hp & Hr).
  destruct (@load_documents_spec env "policy" w (or_introl eq_refl)) as (H1 & _).
  destruct (@load_documents_spec env "regulatory" w (or_intror eq_refl)) as (H2 & _).
  unfold folder_of in H1, H2. cbn [String.eqb Ascii.eqb Bool.eqb] in H1, H2.
  rewrite HF, Hp in H1. rewrite HF, Hr in H2. split; assumption.
Qed.



(** X16. Whatever happens, [main] leaves the content of the two document
    folders alone: afterwards each of them exists with the listing it had
    before, or empty if [main] had to make it.  Loading only reads the
    files, the indexes are built in memory, and the report goes to
    [compliance_report.txt] in the working directory, not into a document
    folder.  (The listing of the working directory does change: it gains the
    folders it lacked and, when a report is written, the report file.) *)
Theorem main_only_makes_folders (env : Env) (current_dir : string) (p : Process) :
  let policy_folder := os_path_join env current_dir "policy_documents" in
  let regulatory_folder := os_path_join env current_dir "regulatory_documents" in
  forall folder, folder = policy_folder \/ folder = regulatory_folder ->
    fs_lookup (p_fs (main env current_dir p)) folder
    = Some (match fs_lookup (p_fs p) folder with
            | Some entries => entries
            | None => []
            end).
Proof.
  intros policy_folder regulatory_folder.
  set (fs1 := os_makedirs (os_makedirs (p_fs p) policy_folder) regulatory_folder).
  assert (Hfs : p_fs (main env current_dir p) = fs1).
  { rewrite main_run. fold policy_folder regulatory_folder. fold fs1.
    destruct (negb _ && negb _); [reflexivity |].
    match goal with
    | |- context [try_except ?m ?h ?w0] =>
        assert (Hk : settled fs1 policy_folder regulatory_folder
                             (fst (try_except m h w0)))
    end.
    { apply keeps_try_except.
      - apply keeps_analysis.
        + subst fs1. apply os_makedirs_keeps_existing, os_makedirs_exists.
        + subst fs1. apply os_makedirs_exists.
      - intros ex. apply keeps_bind; [| intros _; apply keeps_ret].
        intros w Hw. exact Hw.
      - apply init_state. }
    destruct (try_except _ _ _) as [w [[report |] | ex]];
      cbn [fst p_fs] in *; apply Hk. }
  rewrite Hfs. subst fs1.
  destruct (fs_lookup_document_folders (p_fs p) policy_folder regulatory_folder)
    as [H1 H2].
  intros folder [-> | ->]; [exact H1 | exact H2].
Qed.

Lemma main_only_makes_folders_witness :
  fs_lookup (p_fs (main Sample.env Desk.cwd Desk.populated)) Desk.policy_folder
  = fs_lookup (p_fs Desk.populated) Desk.policy_folder.
Proof.
  rewrite (@main_only_makes_folders Sample.env Desk.cwd Desk.populated
             Desk.policy_folder (or_introl eq_refl)).
  reflexivity.
Defined.

(** X17. When no file of either folder can be processed (no regular file
    with a [.pdf] name whose extraction succeeds), [main] leaves the report
    file as it was, whether it stops at the listing or after the loads. *)
Theorem main_nothing_processed (env : Env) (current_dir : string) (p : Process) :
  let policy_folder := os_path_join env current_dir "policy_documents" in
  let regulatory_folder := os_path_join env current_dir "regulatory_documents" in
  filter processed (os_listdir (p_fs p) policy_folder) = [] ->
  filter processed (os_listdir (p_fs p) regulatory_folder) = [] ->
  p_report (main env current_dir p) = p_report p.
Proof.
  intros policy_folder regulatory_folder Hp Hr.
  rewrite main_run. fold policy_folder regulatory_folder.
  set (fs1 := os_makedirs (os_makedirs (p_fs p) policy_folder) regulatory_folder).
  destruct (negb _ && negb _); [reflexivity |].
  match goal with
  | |- context [init env policy_folder regulatory_folder fs1 ?out] =>
      set (w0 := init env policy_folder regulatory_folder fs1 out)
  end.
  assert (Hpe : os_path_exists fs1 policy_folder = true)
    by (subst fs1; apply os_makedirs_keeps_existing, os_makedirs_exists).
  assert (Hre : os_path_exists fs1 regulatory_folder = true)
    by (subst fs1; apply os_makedirs_exists).
  assert (H0 : settled fs1 policy_folder regulatory_folder w0) by apply init_state.
  assert (H1 : settled fs1 policy_folder regulatory_folder
                       (fst (load_documents env "policy" w0)))
    by (apply (keeps_load_documents env Hpe Hre (or_introl eq_refl)); exact H0).
  destruct (load_documents_count_settled env H0) as [Hcp _].
  destruct (load_documents_count_settled env H1) as [_ Hcr].
  unfold fs1 in Hcp, Hcr. rewrite !os_listdir_makedirs_any in Hcp, Hcr.
  rewrite Hp in Hcp. rewrite Hr in Hcr. cbn [List.length Z.of_nat] in Hcp, Hcr.
  unfold try_except. rewrite (analysis_run env w0 Hcp Hcr).
  cbn [Z.eqb andb fst snd]. reflexivity.
Qed.

Lemma main_nothing_processed_witness :
  p_report (main Sample.env Desk.cwd Desk.nothing_loadable)
  = Some "last week's report".
Proof.
  apply (@main_nothing_processed Sample.env Desk.cwd Desk.nothing_loadable);
    reflexivity.
Defined.

Lemma indexed_for_report_settled (env : Env) (F : FS)
      (policy_folder regulatory_folder : string) (cp cr : Z) (w : World) :
  settled F policy_folder regulatory_folder w ->
  settled F policy_folder regulatory_folder (indexed_for_report env cp cr w).
Proof.
  intros Hw. unfold indexed_for_report.
  set (w2 := fst (print _ (fst (print _ w)))).
  assert (H2 : settled F policy_folder regulatory_folder w2) by exact Hw.
  set (w3 := if Z.ltb 0 cp then _ else w2).
  assert (H3 : settled F policy_folder regulatory_folder w3).
  { subst w3. destruct (Z.ltb 0 cp); [| exact H2].
    destruct (create_vector_store_evolves env "policy" None w2) as [He Hf].
    destruct H2 as (HF & Hp & Hr). destruct He as (Hp' & Hr' & _).
    unfold settled. rewrite Hf, Hp', Hr'. repeat split; assumption. }
  set (w4 := if Z.ltb 0 cr then _ else w3).
  assert (H4 : settled F policy_folder regulatory_folder w4).
  { subst w4. destruct (Z.ltb 0 cr); [| exact H3].
    destruct (create_vector_store_evolves env "regulatory" None w3) as [He Hf].
    destruct H3 as (HF & Hp & Hr). destruct He as (Hp' & Hr' & _).
    unfold settled. rewrite Hf, Hp', Hr'. repeat split; assumption. }
  exact H4.
Qed.

Lemma indexed_for_report_deficient (env : Env) (document_type : string)
      (cp cr : Z) (w : World) :
  policy_vector_store (self w) = None ->
  regulatory_vector_store (self w) = None ->
  (document_type = "policy" /\ cp = 0) \/ (document_type = "regulatory" /\ cr = 0) ->
  vector_store document_type (self (indexed_for_report env cp cr w)) = None.
Proof.
  intros Hp Hr Hcase. unfold indexed_for_report.
  set (w2 := fst (print _ (fst (print _ w)))).
  assert (Hp2 : policy_vector_store (self w2) = None) by exact Hp.
  assert (Hr2 : regulatory_vector_store (self w2) = None) by exact Hr.
  clearbody w2.
  cbn [fst print self]. unfold vector_store.
  destruct Hcase as [[-> ->] | [-> ->]]; cbn [String.eqb Ascii.eqb Bool.eqb Z.ltb Z.compare].
  - destruct (Z.ltb 0 cr); [| exact Hp2].
    rewrite <- Hp2.
    exact (@create_vector_store_keeps_other env "regulatory" None w2
             (or_intror eq_refl)).
  - rewrite <- Hr2.
    destruct (Z.ltb 0 cp); [| reflexivity].
    exact (@create_vector_store_keeps_other env "policy" None w2
             (or_introl eq_refl)).
Qed.

(** X18. When exactly one folder has files that can be processed, [main]
    still writes the report file, and what it writes is the fixed error
    text of [generate_compliance_report]: a one-sided run overwrites any
    earlier report with the error message. *)
Theorem main_one_sided_saves_error (env : Env) (current_dir : string)
        (p : Process) :
  let policy_folder := os_path_join env current_dir "policy_documents" in
  let regulatory_folder := os_path_join env current_dir "regulatory_documents" in
  (filter processed (os_listdir (p_fs p) policy_folder) = []
   /\ filter processed (os_listdir (p_fs p) regulatory_folder) <> [])
  \/ (filter processed (os_listdir (p_fs p) policy_folder) <> []
      /\ filter processed (os_listdir (p_fs p) regulatory_folder) = []) ->
  p_report (main env current_dir p) = Some vector_stores_error.
Proof.
  intros policy_folder regulatory_folder Hsides.
  rewrite main_run. fold policy_folder regulatory_folder.
  set (fs1 := os_makedirs (os_makedirs (p_fs p) policy_folder) regulatory_folder).
  assert (Hcheck : negb (truthy_list (pdf_names (p_fs p) policy_folder))
                   && negb (truthy_list (pdf_names (p_fs p) regulatory_folder))
                   = false).
  { unfold pdf_names.
    destruct Hsides as [[_ Hne] | [Hne _]];
      rewrite (processed_has_pdf_name _ Hne); cbn [negb];
      [apply andb_false_r | reflexivity]. }
  rewrite Hcheck.
  match goal with
  | |- context [init env policy_folder regulatory_folder fs1 ?out] =>
      set (w0 := init env policy_folder regulatory_folder fs1 out)
  end.
  assert (Hpe : os_path_exists fs1 policy_folder = true)
    by (subst fs1; apply os_makedirs_keeps_existing, os_makedirs_exists).
  assert (Hre : os_path_exists fs1 regulatory_folder = true)
    by (subst fs1; apply os_makedirs_exists).
  assert (H0 : settled fs1 policy_folder regulatory_folder w0
               /\ policy_vector_store (self w0) = None
               /\ regulatory_vector_store (self w0) = None)
    by apply init_state.
  destruct H0 as (H0 & Hp0 & Hr0).
  set (w1 := fst (load_documents env "policy" w0)).
  assert (H1 : settled fs1 policy_folder regulatory_folder w1)
    by (apply (keeps_load_documents env Hpe Hre (or_introl eq_refl)); exact H0).
  set (wl := fst (load_documents env "regulatory" w1)).
  assert (Hl : settled fs1 policy_folder regulatory_folder wl)
    by (apply (keeps_load_documents env Hpe Hre (or_intror eq_refl)); exact H1).
  assert (Hstores : policy_vector_store (self wl) = None
                    /\ regulatory_vector_store (self wl) = None).
  { destruct (load_documents_keeps_stores env "policy" w0) as [Ha Hb].
    destruct (load_documents_keeps_stores env "regulatory" w1) as [Hc Hd].
    fold w1 in Ha, Hb. fold wl in Hc, Hd.
    rewrite Hc, Hd, Ha, Hb. split; assumption. }
  destruct Hstores as [Hpl Hrl].
  destruct (load_documents_count_settled env H0) as [Hcp _].
  destruct (load_documents_count_settled env H1) as [_ Hcr].
  fold w1 in Hcr.
  unfold fs1 in Hcp, Hcr. rewrite !os_listdir_makedirs_any in Hcp, Hcr.
  set (cp := Z.of_nat (List.length
                         (filter processed (os_listdir (p_fs p) policy_folder)))) in *.
  set (cr := Z.of_nat (List.length
                         (filter processed (os_listdir (p_fs p) regulatory_folder)))) in *.
  assert (Hzero : Z.eqb cp 0 && Z.eqb cr 0 = false).
  { destruct Hsides as [[_ Hne] | [Hne _]].
    - assert (cr <> 0).
      { subst cr. destruct (filter processed _); [now elim Hne | cbn; lia]. }
      apply andb_false_iff. right. now apply Z.eqb_neq.
    - assert (cp <> 0).
      { subst cp. destruct (filter processed _); [now elim Hne | cbn; lia]. }
      apply andb_false_iff. left. now apply Z.eqb_neq. }
  set (wg := indexed_for_report env cp cr wl).
  assert (Hg : settled fs1 policy_folder regulatory_folder wg)
    by (apply indexed_for_report_settled; exact Hl).
  assert (Hreport : snd (generate_compliance_report env wg) = Ok vector_stores_error).
  { destruct Hg as (HF & Hpf & Hrf).
    destruct Hsides as [[Hnone _] | [_ Hnone]].
    - assert (Hd : vector_store "policy" (self wg) = None).
      { apply indexed_for_report_deficient; try assumption.
        left. split; [reflexivity |]. subst cp. now rewrite Hnone. }
      apply report_without_an_index. left.
      apply (@after_rebuilds_deficient env "policy" wg (or_introl eq_refl) Hd).
      unfold folder_of. cbn [String.eqb Ascii.eqb Bool.eqb].
      rewrite HF, Hpf. unfold fs1. rewrite !os_listdir_makedirs_any.
      now apply no_processed_no_documents.
    - assert (Hd : vector_store "regulatory" (self wg) = None).
      { apply indexed_for_report_deficient; try assumption.
        right. split; [reflexivity |]. subst cr. now rewrite Hnone. }
      apply report_without_an_index. right.
      apply (@after_rebuilds_deficient env "regulatory" wg (or_intror eq_refl) Hd).
      unfold folder_of. cbn [String.eqb Ascii.eqb Bool.eqb].
      rewrite HF, Hrf. unfold fs1. rewrite !os_listdir_makedirs_any.
      now apply no_processed_no_documents. }
  unfold try_except. rewrite (analysis_run env w0 Hcp Hcr).
  fold w1. fold wl. rewrite Hzero. fold wg.
  destruct (generate_compliance_report env wg) as [w' r].
  cbn [snd] in Hreport. subst r. reflexivity.
Qed.

Lemma main_one_sided_saves_error_witness :
  p_report Desk.policy_only = Some "last week's report"
  /\ p_report (main Sample.env Desk.cwd Desk.policy_only) = Some vector_stores_error.
Proof.
  split; [reflexivity |].
  apply (@main_one_sided_saves_error Sample.env Desk.cwd Desk.policy_only).
  right. split; [vm_compute; discriminate | reflexivity].
Defined.

Lemma split_of_nothing_processed (env : Env) (folder : string)
      (entries : list Entry) (chunk_size chunk_overlap : Z) :
  text_splitter_split_documents env chunk_size chunk_overlap
    (flat_map (documents_of env folder) entries) <> [] ->
  Z.ltb 0 (Z.of_nat (List.length (filter processed entries))) = true.
Proof.
  intros Hne. apply Z.ltb_lt.
  destruct (filter processed entries) eqn:Hf; [| cbn; lia].
  rewrite (no_processed_no_documents env folder entries Hf) in Hne.
  now elim Hne.
Qed.

(** X19. The full run.  With the embedding backend available, both folders
    yielding records whose default split is non-empty, both index
    constructions and both retrievals succeeding, and the model constructed
    and answering, [main] writes exactly the model's answer to the report
    file: the answer to the template filled with the two retrieved
    contexts. *)
Theorem main_saves_the_model_answer (env : Env) (current_dir : string)
        (p : Process) (emb : Embeddings) (pvs rvs : VectorStore)
        (policy_docs regulatory_docs : list Document) (llm : LLM)
        (answer : string) :
  let policy_folder := os_path_join env current_dir "policy_documents" in
  let regulatory_folder := os_path_join env current_dir "regulatory_documents" in
  let policy_chunks :=
    text_splitter_split_documents env 1000 200
      (flat_map (documents_of env policy_folder)
                (os_listdir (p_fs p) policy_folder)) in
  let regulatory_chunks :=
    text_splitter_split_documents env 1000 200
      (flat_map (documents_of env regulatory_folder)
                (os_listdir (p_fs p) regulatory_folder)) in
  OllamaEmbeddings env "llama3.2" = Ok emb ->
  policy_chunks <> [] ->
  regulatory_chunks <> [] ->
  Chroma_from_documents env policy_chunks emb = Ok pvs ->
  Chroma_from_documents env regulatory_chunks emb = Ok rvs ->
  get_relevant_documents env pvs "All policy documents" = Ok policy_docs ->
  get_relevant_documents env rvs "All regulatory documents" = Ok regulatory_docs ->
  Ollama env "llama3.2" (3 # 10) = Ok llm ->
  llm_invoke env llm (build_prompt (map page_content policy_docs)
                                   (map page_content regulatory_docs))
  = Ok answer ->
  p_report (main env current_dir p) = Some answer.
Proof.
  intros policy_folder regulatory_folder policy_chunks regulatory_chunks
         Hemb Hpc Hrc Hpi Hri Hpd Hrd Hllm Hans.
  pose proof (split_of_nothing_processed env policy_folder _ 1000 200 Hpc) as Hcp0.
  pose proof (split_of_nothing_processed env regulatory_folder _ 1000 200 Hrc) as Hcr0.
  rewrite main_run. fold policy_folder regulatory_folder.
  set (fs1 := os_makedirs (os_makedirs (p_fs p) policy_folder) regulatory_folder).
  assert (Hcheck : negb (truthy_list (pdf_names (p_fs p) policy_folder))
                   && negb (truthy_list (pdf_names (p_fs p) regulatory_folder))
                   = false).
  { unfold pdf_names. rewrite processed_has_pdf_name; [reflexivity |].
    intros Hnil. rewrite Hnil in Hcp0. discriminate. }
  rewrite Hcheck.
  match goal with
  | |- context [init env policy_folder regulatory_folder fs1 ?out] =>
      set (w0 := init env policy_folder regulatory_folder fs1 out)
  end.
  assert (Hs0 : self w0
                = mkTool policy_folder regulatory_folder [] [] None None (Some emb)
                /\ fs w0 = fs1)
    by (subst w0; unfold init; rewrite Hemb; split; reflexivity).
  destruct Hs0 as [Hs0 Hf0].
  set (docsP := flat_map (documents_of env policy_folder)
                         (os_listdir (p_fs p) policy_folder)) in *.
  set (docsR := flat_map (documents_of env regulatory_folder)
                         (os_listdir (p_fs p) regulatory_folder)) in *.
  destruct (@load_documents_spec env "policy" w0 (or_introl eq_refl))
    as (Hcp & Hs1 & Hf1 & _).
  set (w1 := fst (load_documents env "policy" w0)) in *.
  rewrite Hs0, Hf0 in Hcp, Hs1, Hf1.
  cbn [folder_of ref_of String.eqb Ascii.eqb Bool.eqb assign
       policy_documents_folder regulatory_documents_folder policy_documents
       regulatory_documents policy_vector_store regulatory_vector_store
       embeddings] in Hcp, Hs1, Hf1.
  unfold fs1 in Hcp, Hs1. rewrite !os_listdir_makedirs_any in Hcp, Hs1.
  fold docsP in Hs1.
  assert (Hf1' : fs w1 = fs1).
  { rewrite Hf1. apply os_makedirs_existing.
    subst fs1. apply os_makedirs_keeps_existing, os_makedirs_exists. }
  destruct (@load_documents_spec env "regulatory" w1 (or_intror eq_refl))
    as (Hcr & Hs2 & _ & _).
  set (wl := fst (load_documents env "regulatory" w1)) in *.
  rewrite Hs1, Hf1' in Hcr, Hs2.
  cbn [folder_of ref_of String.eqb Ascii.eqb Bool.eqb assign
       policy_documents_folder regulatory_documents_folder policy_documents
       regulatory_documents policy_vector_store regulatory_vector_store
       embeddings] in Hcr, Hs2.
  unfold fs1 in Hcr, Hs2. rewrite !os_listdir_makedirs_any in Hcr, Hs2.
  fold docsR in Hs2.
  set (cp := Z.of_nat (List.length
                         (filter processed (os_listdir (p_fs p) policy_folder)))) in *.
  set (cr := Z.of_nat (List.length
                         (filter processed (os_listdir (p_fs p) regulatory_folder)))) in *.
  assert (Hzero : Z.eqb cp 0 && Z.eqb cr 0 = false).
  { apply andb_false_iff. left. apply Z.eqb_neq.
    apply Z.ltb_lt in Hcp0. lia. }
  set (wg := indexed_for_report env cp cr wl).
  assert (Hwg : policy_vector_store (self wg) = Some pvs
                /\ regulatory_vector_store (self wg) = Some rvs).
  { subst wg. unfold indexed_for_report. rewrite Hcp0, Hcr0.
    set (w2 := fst (print _ (fst (print _ wl)))).
    assert (Hs2' : self w2
                   = mkTool policy_folder regulatory_folder docsP docsR
                            None None (Some emb)) by exact Hs2.
    pose proof (@create_vector_store_result env "policy" None w2
                  (or_introl eq_refl) emb) as H3.
    rewrite Hs2' in H3. specialize (H3 eq_refl).
    cbn [effective_chunks documents ref_of deref String.eqb Ascii.eqb Bool.eqb
         policy_documents] in H3.
    fold policy_chunks in H3.
    destruct policy_chunks as [| c cs'] eqn:Epc; [now elim Hpc |].
    rewrite Hpi in H3. destruct H3 as [_ H3].
    set (w3 := fst (create_vector_store env "policy" None w2)) in *.
    cbn in H3.
    pose proof (@create_vector_store_result env "regulatory" None w3
                  (or_intror eq_refl) emb) as H4.
    rewrite H3 in H4. specialize (H4 eq_refl).
    cbn [effective_chunks documents ref_of deref String.eqb Ascii.eqb Bool.eqb
         regulatory_documents] in H4.
    fold regulatory_chunks in H4.
    destruct regulatory_chunks as [| d ds'] eqn:Erc; [now elim Hrc |].
    rewrite Hri in H4. destruct H4 as [_ H4].
    cbn [fst print self]. rewrite H4. split; reflexivity. }
  destruct Hwg as [Hgp Hgr].
  assert (Hreport : snd (generate_compliance_report env wg) = Ok answer).
  { rewrite (@generate_ready env wg pvs rvs Hgp Hgr).
    destruct (@analyse_spec env pvs rvs policy_docs regulatory_docs wg Hpd Hrd)
      as (-> & _).
    unfold report_text. rewrite Hllm, Hans. reflexivity. }
  unfold try_except. rewrite (analysis_run env w0 Hcp Hcr).
  fold w1. fold wl. rewrite Hzero. fold wg.
  destruct (generate_compliance_report env wg) as [w' r].
  cbn [snd] in Hreport. subst r. reflexivity.
Qed.

Lemma main_saves_the_model_answer_witness :
  p_report Desk.populated = Some "last week's report"
  /\ p_report (main Sample.env Desk.cwd Desk.populated)
     = Some "I. Document Type: Regulation".
Proof.
  split; [reflexivity |].
  pose (pchunks := text_splitter_split_documents Sample.env 1000 200
                     (flat_map (documents_of Sample.env Desk.policy_folder)
                               Sample.policy_entries)).
  pose (rchunks := text_splitter_split_documents Sample.env 1000 200
                     (flat_map (documents_of Sample.env Desk.regulatory_folder)
                               Sample.regulatory_entries)).
  pose (pvs := mkVectorStore pchunks
                 (map (fun t => [Z.of_nat (String.length t)])
                      (map page_content pchunks))).
  pose (rvs := mkVectorStore rchunks
                 (map (fun t => [Z.of_nat (String.length t)])
                      (map page_content rchunks))).
  apply (@main_saves_the_model_answer Sample.env Desk.cwd Desk.populated
           (mkEmbeddings "llama3.2") pvs rvs
           (Sample.retrieved pvs) (Sample.retrieved rvs)
           (mkLLM "llama3.2" (3 # 10)) "I. Document Type: Regulation").
  - reflexivity.
  - vm_compute. discriminate.
  - vm_compute. discriminate.
  - vm_compute. reflexivity.
  - vm_compute. reflexivity.
  - reflexivity.
  - reflexivity.
  - reflexivity.
  - reflexivity.
Defined.
